(** * Legal-document simplifier: extraction dispatcher and response normalizer

    A shallow embedding of the two services of the back end,
    [app/services/ai_simplifier.py] (class [AISimplifier]) and
    [app/services/document_processor.py] (class [DocumentProcessor]),
    with the properties their specification states about them.

    Python values are embedded as the inductive type [pyval]; a [str] is the
    list of its code points; a [dict] is an association list in insertion
    order; raising is a [Raise] result; calls to collaborators (the JSON
    parser, the model, the extraction libraries) are variables of the
    sections, so every theorem holds whatever those collaborators answer. *)

From Stdlib Require Import String Ascii List Bool NArith ZArith QArith Lia PrimFloat.
Import ListNotations.
Close Scope Q_scope.

Set Warnings "-inexact-float,-notation-for-abbreviation".

(** ** Python strings *)

Module PyStr.

Local Open Scope N_scope.

(** A code point, and a [str] as the sequence of its code points: [len] is
    [length], [s[1:]] is [skipn 1 s], [s[:n]] is [firstn n s]. *)
Definition char := N.
Definition str := list char.

(** A literal of the source, written as a Rocq string of ASCII characters. *)
Definition lit (s : string) : str := map N_of_ascii (list_ascii_of_string s).

Definition NL : char := 10.

Fixpoint str_eqb (a b : str) : bool :=
  match a, b with
  | [], [] => true
  | x :: a', y :: b' => (x =? y) && str_eqb a' b'
  | _, _ => false
  end.

Definition is_nil {A} (l : list A) : bool :=
  match l with [] => true | _ => false end.

(** [str.isspace] on one code point: the white space that [strip()] and
    [split()] remove. *)
Definition is_space (c : char) : bool :=
  ((9 <=? c) && (c <=? 13)) || ((28 <=? c) && (c <=? 32))
  || (c =? 133) || (c =? 160) || (c =? 5760)
  || ((8192 <=? c) && (c <=? 8202))
  || (c =? 8232) || (c =? 8233) || (c =? 8239) || (c =? 8287) || (c =? 12288).

Fixpoint lstrip (s : str) : str :=
  match s with
  | [] => []
  | c :: r => if is_space c then lstrip r else s
  end.

Definition rstrip (s : str) : str := rev (lstrip (rev s)).

(** [s.strip()] *)
Definition strip (s : str) : str := rstrip (lstrip s).

(** [str.lower()] on one code point.  The capitals A-Z go to a-z; U+212A and
    U+0130 are the two other code points whose lower case holds an ASCII
    letter.  The remaining code points are kept as they are: the source
    only searches the lowered line for ASCII keywords, and no other code
    point lowers to a character of such a keyword. *)
Definition lower_char (c : char) : list char :=
  if (65 <=? c) && (c <=? 90) then [c + 32]
  else if c =? 8490 then [107]
  else if c =? 304 then [105; 775]
  else [c].

(** [s.lower()] *)
Definition lower (s : str) : str := flat_map lower_char s.

(** [s.startswith(p)] *)
Fixpoint startswith (p s : str) : bool :=
  match p, s with
  | [], _ => true
  | x :: p', y :: s' => (x =? y) && startswith p' s'
  | _ :: _, [] => false
  end.

(** [sub in s] *)
Fixpoint contains (sub s : str) : bool :=
  startswith sub s ||
  match s with
  | [] => false
  | _ :: r => contains sub r
  end.

(** [s.split(sep)] for a one-character separator: empty pieces are kept. *)
Fixpoint split_on (sep : char) (s : str) : list str :=
  match s with
  | [] => [[]]
  | c :: r =>
      if c =? sep then [] :: split_on sep r
      else match split_on sep r with
           | [] => [[c]]
           | h :: t => (c :: h) :: t
           end
  end.

(** [s.split(sep, 1)]: at most one cut, at the first separator. *)
Fixpoint split_once (sep : char) (s : str) : list str :=
  match s with
  | [] => [[]]
  | c :: r =>
      if c =? sep then [[]; r]
      else match split_once sep r with
           | h :: t => (c :: h) :: t
           | [] => [[c]]
           end
  end.

(** [s.split()]: the maximal runs of characters that are not white space.
    [cur] is the run being read, in reverse. *)
Fixpoint split_ws_from (cur : str) (s : str) : list str :=
  match s with
  | [] => if is_nil cur then [] else [rev cur]
  | c :: r =>
      if is_space c
      then (if is_nil cur then split_ws_from [] r
            else rev cur :: split_ws_from [] r)
      else split_ws_from (c :: cur) r
  end.

Definition split_ws (s : str) : list str := split_ws_from [] s.

(** The character class [[.!?]]. *)
Definition is_terminator (c : char) : bool :=
  (c =? 46) || (c =? 33) || (c =? 63).

(** [re.split(r'[.!?]+', s)]: the pieces between the maximal runs of
    terminators, the empty pieces at both ends included.  [cur] is the piece
    being read, in reverse; [in_run] tells that the previous character was a
    terminator. *)
Fixpoint re_split_from (cur : str) (in_run : bool) (s : str) : list str :=
  match s with
  | [] => [rev cur]
  | c :: r =>
      if is_terminator c
      then (if in_run then re_split_from cur true r
            else rev cur :: re_split_from [] true r)
      else re_split_from (c :: cur) false r
  end.

Definition re_split_sentences (s : str) : list str := re_split_from [] false s.

(** [sep.join(parts)] *)
Fixpoint join (sep : str) (parts : list str) : str :=
  match parts with
  | [] => []
  | [p] => p
  | p :: rest => p ++ sep ++ join sep rest
  end.

(** Index of the first, and of the last, occurrence of a character. *)
Fixpoint find_first (c : char) (s : str) : option nat :=
  match s with
  | [] => None
  | x :: r => if x =? c then Some O
              else option_map S (find_first c r)
  end.

Fixpoint find_last (c : char) (s : str) : option nat :=
  match s with
  | [] => None
  | x :: r => match find_last c r with
              | Some i => Some (S i)
              | None => if x =? c then Some O else None
              end
  end.

(** [re.search(r'\{.*\}', s, re.DOTALL)] and [.group()]: the match starts
    at the first opening brace and, [.*] being greedy and crossing line
    ends, stops at the last closing brace of the string; there is no match
    when no closing brace follows the first opening one. *)
Definition re_search_braces (s : str) : option str :=
  match find_first 123 s with
  | None => None
  | Some i =>
      match find_last 125 (skipn i s) with
      | None => None
      | Some j => Some (firstn (S j) (skipn i s))
      end
  end.

End PyStr.
Import PyStr.

(** ** Python values, exceptions and dictionaries *)

Module Py.

(** The values a decoded JSON document is made of; the keys of a [dict]
    are strings, as JSON has them, kept in insertion order. *)
#[warnings="-register-all"]
Inductive pyval : Type :=
| PNone
| PBool (b : bool)
| PInt (z : Z)
| PFloat (f : float)
| PStr (s : str)
| PList (l : list pyval)
| PDict (d : list (str * pyval)).

Definition pydict := list (str * pyval).

(** The exception classes the code meets; all derive from [Exception]. *)
Inductive exn : Type :=
| JSONDecodeError
| AttributeError
| TypeError
| KeyError
| ValueError
| Exception_ (message : str).

(** The outcome of a call: a value, or an exception that propagates. *)
Inductive result (A : Type) : Type :=
| Return (a : A)
| Raise (e : exn).
Arguments Return {A} a.
Arguments Raise {A} e.

Definition bind {A B} (m : result A) (k : A -> result B) : result B :=
  match m with
  | Return a => k a
  | Raise e => Raise e
  end.

Declare Scope py_scope.
Delimit Scope py_scope with py.
Notation "x <- m ;; k" := (bind m (fun x => k))
  (at level 61, m at next level, right associativity) : py_scope.

(** Calls to collaborators are recorded: a computation yields the calls it
    made, in order, and its outcome. *)
Section Traced.
Variable E : Type.

Definition traced (A : Type) : Type := (list E * result A)%type.

Definition tret A (a : A) : traced A := ([], Return a).

Definition traise A (e : exn) : traced A := ([], Raise e).

Definition emit (ev : E) : traced unit := ([ev], Return tt).

Definition lift A (r : result A) : traced A := ([], r).

Definition tbind A B (m : traced A) (k : A -> traced B) : traced B :=
  match m with
  | (l, Return a) => let (l', r) := k a in (l ++ l', r)
  | (l, Raise e) => (l, Raise e)
  end.

(** [try: m except Exception as e: handler e] *)
Definition tcatch A (m : traced A) (handler : exn -> traced A) : traced A :=
  match m with
  | (l, Raise e) => let (l', r) := handler e in (l ++ l', r)
  | (l, Return a) => (l, Return a)
  end.

End Traced.
Arguments tret {E A} a.
Arguments traise {E A} e.
Arguments lift {E A} r.
Arguments emit {E} ev.
Arguments tbind {E A B} m k.
Arguments tcatch {E A} m handler.

Notation "x <~ m ;; k" := (tbind m (fun x => k))
  (at level 61, m at next level, right associativity) : py_scope.

(** [bool(v)] *)
Definition truthy (v : pyval) : bool :=
  match v with
  | PNone => false
  | PBool b => b
  | PInt z => negb (z =? 0)%Z
  | PFloat f => negb (f =? 0)%float
  | PStr s => negb (is_nil s)
  | PList l => negb (is_nil l)
  | PDict d => negb (is_nil d)
  end.

(** [isinstance(v, list)], [isinstance(v, dict)] *)
Definition is_list (v : pyval) : bool :=
  match v with PList _ => true | _ => false end.
Definition is_dict (v : pyval) : bool :=
  match v with PDict _ => true | _ => false end.

(** [len(v)]: defined on strings, lists and dicts, [TypeError] elsewhere. *)
Definition py_len (v : pyval) : result nat :=
  match v with
  | PStr s => Return (length s)
  | PList l => Return (length l)
  | PDict d => Return (length d)
  | _ => Raise TypeError
  end.

(** [key in d], [d.get(key)], [d[key]] and [d[key] = v]. *)
Fixpoint dict_get (k : str) (d : pydict) : option pyval :=
  match d with
  | [] => None
  | (k', v) :: r => if str_eqb k' k then Some v else dict_get k r
  end.

Definition getitem (d : pydict) (k : str) : result pyval :=
  match dict_get k d with
  | Some v => Return v
  | None => Raise KeyError
  end.

(** Assignment keeps the place of a key that is already there and appends a
    new key at the end. *)
Fixpoint dict_set (k : str) (v : pyval) (d : pydict) : pydict :=
  match d with
  | [] => [(k, v)]
  | (k', v') :: r =>
      if str_eqb k' k then (k', v) :: r else (k', v') :: dict_set k v r
  end.

(** [d.update(other)] *)
Definition dict_update (d other : pydict) : pydict :=
  fold_left (fun acc kv => dict_set (fst kv) (snd kv) acc) other d.

End Py.
Import Py.
Local Open Scope py_scope.

(** ** [AISimplifier]: the response normalizer *)

Module AISimplifier.

(** The six fields of the structured content. *)
Definition SUMMARY := lit "summary".
Definition KEY_POINTS := lit "key_points".
Definition IMPORTANT_TERMS := lit "important_terms".
Definition DEADLINES_OBLIGATIONS := lit "deadlines_obligations".
Definition WARNINGS := lit "warnings".
Definition NEXT_STEPS := lit "next_steps".

Section Service.

(** [repr(v)] of a value that is not a string: what [str(v)] returns for
    numbers, booleans, [None], lists and dicts. *)
Variable repr : pyval -> str.

(** [json.loads]: the decoded value, or the exception it raises
    ([JSONDecodeError] on malformed text). *)
Variable json_loads : str -> result pyval.

(** [str(v)] *)
Definition py_str (v : pyval) : str :=
  match v with
  | PStr s => s
  | _ => repr v
  end.

Definition required_fields : pydict :=
  [ (SUMMARY, PStr []);
    (KEY_POINTS, PList []);
    (IMPORTANT_TERMS, PDict []);
    (DEADLINES_OBLIGATIONS, PList []);
    (WARNINGS, PList []);
    (NEXT_STEPS, PList []) ].

(** One turn of the loop over [required_fields.items()]. *)
Definition ensure_field (content : pydict) (fd : str * pyval) : pydict :=
  let '(field, default_value) := fd in
  match dict_get field content with
  | None => dict_set field default_value content
  | Some v =>
      if str_eqb field KEY_POINTS && negb (is_list v)
      then dict_set field (PList [PStr (py_str v)]) content
      else if str_eqb field IMPORTANT_TERMS && negb (is_dict v)
      then dict_set field (PDict []) content
      else if (str_eqb field DEADLINES_OBLIGATIONS || str_eqb field WARNINGS
               || str_eqb field NEXT_STEPS) && negb (is_list v)
      then dict_set field
             (if truthy v then PList [PStr (py_str v)] else PList []) content
      else content
  end.

(** [[str(x).strip() for x in l if str(x).strip()]] *)
Definition clean_list (l : list pyval) : list pyval :=
  map (fun x => PStr (strip (py_str x)))
      (filter (fun x => negb (is_nil (strip (py_str x)))) l).

(** The loop that fills [cleaned_terms]: a pair is kept when [term] and
    [definition] are both truthy, and is stored stripped. *)
Definition clean_terms (terms : pydict) : pydict :=
  fold_left
    (fun cleaned_terms td =>
       let '(term, definition) := td in
       if negb (is_nil term) && truthy definition
       then dict_set (strip term) (PStr (strip (py_str definition)))
                     cleaned_terms
       else cleaned_terms)
    terms [].

(** Iterating a value with [for]: each value iterated below is a list (or a
    dict, for [.items()]) by the time it is reached, see [ensure_fields_list]
    and [ensure_fields_dict]; another value is reported as [TypeError]. *)
Definition as_list (v : pyval) : result (list pyval) :=
  match v with PList l => Return l | _ => Raise TypeError end.
Definition as_dict (v : pyval) : result pydict :=
  match v with PDict d => Return d | _ => Raise TypeError end.

Definition clean_list_field (content : pydict) (field : str) : result pydict :=
  v <- getitem content field ;;
  l <- as_list v ;;
  Return (dict_set field (PList (clean_list l)) content).

(** [_validate_and_clean_content] on a dict. *)
Definition validate_dict (content : pydict) : result pydict :=
  let content := fold_left ensure_field required_fields content in
  summary <- getitem content SUMMARY ;;
  let content := dict_set SUMMARY (PStr (strip (py_str summary))) content in
  content <- clean_list_field content KEY_POINTS ;;
  content <- clean_list_field content DEADLINES_OBLIGATIONS ;;
  content <- clean_list_field content WARNINGS ;;
  content <- clean_list_field content NEXT_STEPS ;;
  terms <- getitem content IMPORTANT_TERMS ;;
  d <- as_dict terms ;;
  Return (dict_set IMPORTANT_TERMS (PDict (clean_terms d)) content).

(** [_validate_and_clean_content].  [json.loads] gives a dict for a text that
    starts with a brace; on any other value the first turn of the loop that
    writes or reads [content[field]] raises [TypeError]. *)
Definition _validate_and_clean_content (content : pyval) : result pydict :=
  match content with
  | PDict d => validate_dict d
  | _ => Raise TypeError
  end.

(** [content[current_section].append(item)]: only a list has [append]. *)
Definition append_item (content : pydict) (section item : str)
  : result pydict :=
  v <- getitem content section ;;
  match v with
  | PList l => Return (dict_set section (PList (l ++ [PStr item])) content)
  | _ => Raise AttributeError
  end.

(** The second bullet marker of the source, the three code points U+00E2,
    U+20AC, U+00A2. *)
Definition BULLET : str := [226; 8364; 162]%N.

(** The chain of keyword tests that switches the current section; [l] is
    [line.lower()]. *)
Definition detect_section (l : str) : option str :=
  if contains (lit "summary") l then Some SUMMARY
  else if contains (lit "key points") l || contains (lit "main points") l
  then Some KEY_POINTS
  else if contains (lit "terms") l || contains (lit "definitions") l
  then Some IMPORTANT_TERMS
  else if contains (lit "deadline") l || contains (lit "obligation") l
  then Some DEADLINES_OBLIGATIONS
  else if contains (lit "warning") l || contains (lit "risk") l
  then Some WARNINGS
  else if contains (lit "next step") l || contains (lit "action") l
  then Some NEXT_STEPS
  else None.

Definition is_section (current_section : option str) (name : str) : bool :=
  match current_section with
  | Some s => str_eqb s name
  | None => false
  end.

(** The body of the loop over the lines, on the state
    [(content, current_section)]. *)
Definition parse_line (st : pydict * option str) (raw_line : str)
  : result (pydict * option str) :=
  let '(content, current_section) := st in
  let line := strip raw_line in
  if is_nil line then Return st
  else
    match detect_section (lower line) with
    | Some s => Return (content, Some s)
    | None =>
        if startswith (lit "-") line || startswith BULLET line
           || startswith (lit "*") line
        then
          match current_section with
          | Some s =>
              if negb (is_nil s) && negb (str_eqb s IMPORTANT_TERMS)
              then
                content' <- append_item content s (strip (skipn 1 line)) ;;
                Return (content', current_section)
              else Return st
          | None => Return st
          end
        else if is_section current_section SUMMARY
        then
          (* [current_section == "summary" and not content["summary"]]; the
             branches below it need another section *)
          summary <- getitem content SUMMARY ;;
          if negb (truthy summary)
          then Return (dict_set SUMMARY (PStr line) content, current_section)
          else Return st
        else if is_section current_section IMPORTANT_TERMS
                && contains (lit ":") line
        then
          match split_once 58%N line with
          | [term; definition] =>
              terms <- getitem content IMPORTANT_TERMS ;;
              d <- as_dict terms ;;
              Return (dict_set IMPORTANT_TERMS
                        (PDict (dict_set (strip term)
                                         (PStr (strip definition)) d))
                        content,
                      current_section)
          | _ => Return st
          end
        else Return st
    end.

Fixpoint parse_lines (st : pydict * option str) (lines : list str)
  : result (pydict * option str) :=
  match lines with
  | [] => Return st
  | line :: rest => st' <- parse_line st line ;; parse_lines st' rest
  end.

(** [_parse_text_response] *)
Definition _parse_text_response (response_text : str) : result pydict :=
  let lines := split_on NL response_text in
  st <- parse_lines (required_fields, None) lines ;;
  Return (fst st).

(** [_create_fallback_response] *)
Definition _create_fallback_response (response_text : str) : pydict :=
  [ (SUMMARY,
     PStr (if (500 <? length response_text)%nat
           then firstn 500 response_text ++ lit "..."
           else response_text));
    (KEY_POINTS, PList [PStr (lit "Unable to parse structured response")]);
    (IMPORTANT_TERMS, PDict []);
    (DEADLINES_OBLIGATIONS, PList []);
    (WARNINGS,
     PList [PStr (lit "Please review the original document for important details")]);
    (NEXT_STEPS,
     PList [PStr (lit "Consider consulting with a legal professional")]) ].

(** The body of the [try] of [_parse_ai_response]. *)
Definition parse_ai_body (response_text : str) : result pydict :=
  match re_search_braces response_text with
  | Some json_str =>
      parsed_content <- json_loads json_str ;;
      _validate_and_clean_content parsed_content
  | None => _parse_text_response response_text
  end.

(** [_parse_ai_response].  The two handlers guard the body of the [try]
    only: what the [JSONDecodeError] handler raises itself goes to the
    caller. *)
Definition _parse_ai_response (response_text : str) : result pydict :=
  match parse_ai_body response_text with
  | Return content => Return content
  | Raise JSONDecodeError => _parse_text_response response_text
  | Raise _ => Return (_create_fallback_response response_text)
  end.

(** *** Quality estimators *)

Local Open Scope float_scope.

(** [min(a, b)] of two floats: the first one unless the second is smaller. *)
Definition py_min (a b : float) : float := if b <? a then b else a.

(** [content.get(field) and len(content[field]) > threshold] *)
Definition is_rich (content : pydict) (field : str) (threshold : nat)
  : result bool :=
  match dict_get field content with
  | None => Return false
  | Some v =>
      if truthy v
      then
        v' <- getitem content field ;;
        n <- py_len v' ;;
        Return (threshold <? n)%nat
      else Return false
  end.

(** The body of the [try] of [_calculate_confidence_score]. *)
Definition confidence_body (simplified_content : pydict) : result float :=
  let score := 0.5 in
  good_summary <- is_rich simplified_content SUMMARY 50 ;;
  let score := if good_summary then score + 0.2 else score in
  has_key_points <- is_rich simplified_content KEY_POINTS 0 ;;
  let score := if has_key_points then score + 0.1 else score in
  has_terms <- is_rich simplified_content IMPORTANT_TERMS 0 ;;
  let score := if has_terms then score + 0.1 else score in
  has_next_steps <- is_rich simplified_content NEXT_STEPS 0 ;;
  let score := if has_next_steps then score + 0.1 else score in
  Return (py_min score 1.0).

(** [_calculate_confidence_score] *)
Definition _calculate_confidence_score
  (original_text : str) (simplified_content : pydict) : float :=
  match confidence_body simplified_content with
  | Return score => score
  | Raise _ => 0.5
  end.

Local Close Scope float_scope.

(** [sum(len(word) for word in words)] *)
Definition total_length (words : list str) : nat :=
  fold_left (fun acc word => (acc + length word)%nat) words O.

(** The two averages.  [/] on two [int]s is the true quotient, correctly
    rounded to a float; the quotient is kept exact here, which decides the
    comparisons with the whole-number thresholds below the same way for
    every text of fewer than 2^49 characters. *)
Definition avg_sentence_length (text : str) : Q :=
  Z.of_nat (length (split_ws text))
  # Pos.of_nat (length (re_split_sentences text)).

Definition avg_word_length (text : str) : Q :=
  Z.of_nat (total_length (split_ws text))
  # Pos.of_nat (length (split_ws text)).

Definition Qltb (x y : Q) : bool := negb (Qle_bool y x).

(** The chain of threshold tests. *)
Definition classify (avg_sentence avg_word : Q) : str :=
  if Qltb avg_sentence (10 # 1) && Qltb avg_word (5 # 1)
  then lit "elementary"
  else if Qltb avg_sentence (15 # 1) && Qltb avg_word (6 # 1)
  then lit "intermediate"
  else if Qltb avg_sentence (20 # 1) && Qltb avg_word (7 # 1)
  then lit "high_school"
  else lit "college".

(** [_estimate_reading_level] *)
Definition _estimate_reading_level (text : str) : str :=
  let sentences := re_split_sentences text in
  let words := split_ws text in
  if is_nil sentences || is_nil words then lit "unknown"
  else classify (avg_sentence_length text) (avg_word_length text).

(** *** The model call and the two entry points *)

(** The calls [simplify_document] and [answer_question] make. *)
Inductive call : Type :=
| GenerateContent (prompt : str)
| ParseAIResponse (response_text : str).

(** [self.model.generate_content(prompt, ...)] followed by the read of
    [response.text]: the text, [None] when there is none, or the exception
    either step raises. *)
Variable generate_content : str -> result (option str).

(** [_preprocess_text] and the two prompt builders are pure functions from
    strings to a string. *)
Variable _preprocess_text : str -> str.
Variable _create_simplification_prompt : str -> str -> str -> str.
Variable question_prompt : str -> str -> str -> str.

(** [datetime.utcnow().isoformat()] *)
Variable utcnow_isoformat : str.

Definition NO_CONTENT : exn :=
  Exception_ (lit "Failed to generate simplified content").

(** [_generate_simplified_content]: its handler logs and raises again. *)
Definition _generate_simplified_content (prompt : str) : traced call str :=
  _ <~ emit (GenerateContent prompt) ;;
  match generate_content prompt with
  | Return (Some text) =>
      if negb (is_nil text) then tret text else traise NO_CONTENT
  | Return None => traise NO_CONTENT
  | Raise e => traise e
  end.

(** [_estimate_reading_level(structured_content.get("summary", ""))]; on a
    summary that is not a string [re.split] raises and the handler of the
    estimator answers "unknown". *)
Definition reading_level_of (structured_content : pydict) : str :=
  match dict_get SUMMARY structured_content with
  | None => _estimate_reading_level []
  | Some (PStr s) => _estimate_reading_level s
  | Some _ => lit "unknown"
  end.

(** [simplify_document]: its handler logs and raises again. *)
Definition simplify_document (text simplification_level target_audience : str)
  : traced call pydict :=
  let cleaned_text := _preprocess_text text in
  let prompt :=
    _create_simplification_prompt cleaned_text simplification_level
                                  target_audience in
  simplified_content <~ _generate_simplified_content prompt ;;
  _ <~ emit (ParseAIResponse simplified_content) ;;
  structured_content <~ lift (_parse_ai_response simplified_content) ;;
  tret (dict_update structured_content
          [ (lit "confidence_score",
             PFloat (_calculate_confidence_score cleaned_text
                                                 structured_content));
            (lit "reading_level", PStr (reading_level_of structured_content));
            (lit "processing_timestamp", PStr utcnow_isoformat);
            (lit "simplification_level", PStr simplification_level);
            (lit "target_audience", PStr target_audience) ]).

Definition APOLOGY : str :=
  lit "I'm sorry, I couldn't find the answer in the document.".

(** [answer_question] *)
Definition answer_question (document_text question target_audience : str)
  : traced call pydict :=
  tcatch
    (let cleaned_text := _preprocess_text document_text in
     let prompt := question_prompt target_audience cleaned_text question in
     response_text <~ _generate_simplified_content prompt ;;
     let answer_text := strip response_text in
     let confidence :=
       if (0 <? length answer_text)%nat then 0.7%float else 0.3%float in
     tret [ (lit "answer", PStr answer_text);
            (lit "confidence_score", PFloat confidence) ])
    (fun _ =>
       tret [ (lit "answer", PStr APOLOGY);
              (lit "confidence_score", PFloat 0.3%float) ]).

End Service.

End AISimplifier.

(** ** The words and the sentences of a text, counted on the text *)

Module ReadingMeasures.

(** The number of maximal runs of characters that satisfy [p]; [inside]
    says that the character before belongs to such a run. *)
Fixpoint runs_from (p : char -> bool) (inside : bool) (text : str) : nat :=
  match text with
  | [] => O
  | c :: rest =>
      if p c
      then ((if inside then 0 else 1) + runs_from p true rest)%nat
      else runs_from p false rest
  end.

Definition runs (p : char -> bool) (text : str) : nat :=
  runs_from p false text.

(** The words of a text are its maximal runs of characters that are not
    white space; their characters are the characters that are not white
    space. *)
Definition word_count (text : str) : nat :=
  runs (fun c => negb (is_space c)) text.





End ReadingMeasures.

(** ** [DocumentProcessor]: the extraction dispatcher *)

Module DocumentProcessor.

Inductive DocumentType : Type := PDF | DOC | DOCX | IMAGE | TEXT.

Definition bytes := list Byte.byte.

(** The extraction strategies, one per [_extract_...] method (and the
    decoding of plain text). *)
Inductive strategy : Type :=
| DocumentAI
| PdfPlumber
| PyPDF2
| PdfOCR
| PythonDocx
| GoogleVision
| Tesseract
| Utf8Decode.

(** What python-docx reads from a file: the text of each paragraph and, for
    each table, its rows of cell texts. *)
Record docx : Type := {
  paragraphs : list str;
  tables : list (list (list str))
}.

Section Processor.

(** Whether [__init__] obtained the two cloud clients. *)
Variable documentai_client : bool.
Variable vision_client : bool.

(** [StorageService().download_document(path)] *)
Variable storage_download : str -> result (option bytes).

(** The libraries: the text of each page ([None] for a page without text),
    the document python-docx opens, the descriptions of the annotations
    Vision returns, the string Tesseract reads from the prepared image, and
    [bytes.decode('utf-8', errors='ignore')]. *)
Variable pdfplumber_pages : bytes -> result (list (option str)).
Variable pypdf2_pages : bytes -> result (list (option str)).
Variable docx_open : bytes -> result docx.
Variable vision_text_detection : bytes -> result (list str).
Variable tesseract_image_to_string : bytes -> result str.
Variable decode_utf8_ignore : bytes -> str.

(** [_download_document] *)
Definition _download_document (storage_path : str) : option bytes :=
  match storage_download storage_path with
  | Return content => content
  | Raise _ => None
  end.

(** The loop that collects [text_parts] from the pages, and the join. *)
Definition page_texts (pages : list (option str)) : list str :=
  flat_map (fun page_text =>
              match page_text with
              | Some t => if is_nil t then [] else [t]
              | None => []
              end) pages.

Definition PARAGRAPH_BREAK : str := [NL; NL].

(** [_extract_pdf_with_pdfplumber] *)
Definition _extract_pdf_with_pdfplumber (pdf_content : bytes) : option str :=
  match pdfplumber_pages pdf_content with
  | Return pages => Some (join PARAGRAPH_BREAK (page_texts pages))
  | Raise _ => None
  end.

(** [_extract_pdf_with_pypdf2] *)
Definition _extract_pdf_with_pypdf2 (pdf_content : bytes) : option str :=
  match pypdf2_pages pdf_content with
  | Return pages => Some (join PARAGRAPH_BREAK (page_texts pages))
  | Raise _ => None
  end.

(** [_extract_pdf_with_documentai] and [_extract_pdf_with_ocr]: both log a
    message and return [None]. *)
Definition _extract_pdf_with_documentai (pdf_content : bytes) : option str :=
  None.

Definition _extract_pdf_with_ocr (pdf_content : bytes) : option str := None.

(** The text of one table row: the stripped cells that are not empty,
    joined; a row without such a cell gives no part. *)
Definition row_parts (row : list str) : list str :=
  let row_text :=
    map strip (filter (fun cell => negb (is_nil (strip cell))) row) in
  if is_nil row_text then [] else [join (lit " | ") row_text].

(** [_extract_docx_text] *)
Definition _extract_docx_text (docx_content : bytes) : option str :=
  match docx_open docx_content with
  | Return doc =>
      let text_parts :=
        filter (fun text => negb (is_nil (strip text))) (paragraphs doc)
        ++ flat_map (fun table => flat_map row_parts table) (tables doc) in
      Some (join PARAGRAPH_BREAK text_parts)
  | Raise _ => None
  end.

(** [_extract_with_google_vision] *)
Definition _extract_with_google_vision (image_content : bytes) : option str :=
  match vision_text_detection image_content with
  | Return (description :: _) => Some description
  | Return [] => None
  | Raise _ => None
  end.

(** [_extract_with_tesseract] *)
Definition _extract_with_tesseract (image_content : bytes) : option str :=
  match tesseract_image_to_string image_content with
  | Return text => Some (strip text)
  | Raise _ => None
  end.

(** [text and len(text.strip()) > threshold] *)
Definition clears (threshold : nat) (text : option str) : bool :=
  match text with
  | Some t => negb (is_nil t) && (threshold <? length (strip t))%nat
  | None => false
  end.

(** [_extract_pdf_text], with the strategies it ran, in order. *)
Definition _extract_pdf_text (pdf_content : bytes)
  : list strategy * option str :=
  let text := _extract_pdf_with_documentai pdf_content in
  if documentai_client && clears 100 text then ([DocumentAI], text)
  else
    let ran := if documentai_client then [DocumentAI] else [] in
    let text := _extract_pdf_with_pdfplumber pdf_content in
    if clears 100 text then (ran ++ [PdfPlumber], text)
    else
      let text := _extract_pdf_with_pypdf2 pdf_content in
      if clears 100 text then (ran ++ [PdfPlumber; PyPDF2], text)
      else (ran ++ [PdfPlumber; PyPDF2; PdfOCR],
            _extract_pdf_with_ocr pdf_content).

(** [_extract_image_text], with the strategies it ran, in order. *)
Definition _extract_image_text (image_content : bytes)
  : list strategy * option str :=
  let text := _extract_with_google_vision image_content in
  if vision_client && clears 10 text then ([GoogleVision], text)
  else
    let ran := if vision_client then [GoogleVision] else [] in
    (ran ++ [Tesseract], _extract_with_tesseract image_content).

(** The choice of the extractor by document type, inside [extract_text]. *)
Definition extract_by_type (file_type : DocumentType) (document_content : bytes)
  : list strategy * option str :=
  match file_type with
  | PDF => _extract_pdf_text document_content
  | DOC | DOCX => ([PythonDocx], _extract_docx_text document_content)
  | IMAGE => _extract_image_text document_content
  | TEXT => ([Utf8Decode], Some (decode_utf8_ignore document_content))
  end.

(** [extract_text]: [None] is the failure signal.  The last branch of the
    source, for a [file_type] outside the enumeration, has no counterpart
    here. *)
Definition extract_text (document_id : str) (file_type : DocumentType)
  (storage_path : str) : list strategy * option str :=
  match _download_document storage_path with
  | None => ([], None)
  | Some document_content =>
      if is_nil document_content then ([], None)
      else extract_by_type file_type document_content
  end.

(** *** The dispatcher as the specification describes it *)

(** An acceptance rule: trimmed length above a minimum, trimmed length at
    least a minimum, or no check at all. *)
Inductive rule : Type :=
| LongerThan (n : nat)
| AtLeast (n : nat)
| Unchecked.

Definition passes (r : rule) (out : option str) : bool :=
  match r with
  | LongerThan n => clears n out
  | AtLeast n =>
      match out with
      | Some t => negb (is_nil t) && (n <=? length (strip t))%nat
      | None => false
      end
  | Unchecked => true
  end.

(** Strategies tried in order; the first output its rule accepts is
    returned and the strategies after it are not run; when none is
    accepted the result is the failure signal. *)
Fixpoint first_accepted (attempts : list (strategy * rule * option str))
  : list strategy * option str :=
  match attempts with
  | [] => ([], None)
  | (s, r, out) :: rest =>
      if passes r out then ([s], out)
      else let (ran, res) := first_accepted rest in (s :: ran, res)
  end.

(** The strategy list of each document type, with the rule the code applies
    to each strategy and the output of the strategy on the document. *)
Definition strategies_of (file_type : DocumentType) (content : bytes)
  : list (strategy * rule * option str) :=
  match file_type with
  | PDF =>
      (if documentai_client
       then [(DocumentAI, LongerThan 100, _extract_pdf_with_documentai content)]
       else [])
      ++ [ (PdfPlumber, LongerThan 100, _extract_pdf_with_pdfplumber content);
           (PyPDF2, LongerThan 100, _extract_pdf_with_pypdf2 content);
           (PdfOCR, Unchecked, _extract_pdf_with_ocr content) ]
  | DOC | DOCX => [ (PythonDocx, Unchecked, _extract_docx_text content) ]
  | IMAGE =>
      (if vision_client
       then [(GoogleVision, LongerThan 10, _extract_with_google_vision content)]
       else [])
      ++ [ (Tesseract, Unchecked, _extract_with_tesseract content) ]
  | TEXT => [ (Utf8Decode, Unchecked, Some (decode_utf8_ignore content)) ]
  end.

(** The same strategies under one rule for all, as section 4.1 of the
    specification words it. *)
Definition with_rule (r : rule) (attempts : list (strategy * rule * option str))
  : list (strategy * rule * option str) :=
  map (fun a => (fst (fst a), r, snd a)) attempts.

End Processor.

End DocumentProcessor.

(** ** Shapes of the structured content *)

Module Shape.
Import AISimplifier.

Definition is_str (v : pyval) : bool :=
  match v with PStr _ => true | _ => false end.

(** A sequence of strings, and a mapping from strings to strings. *)
Definition str_list (v : pyval) : bool :=
  match v with PList l => forallb is_str l | _ => false end.

Definition str_dict (v : pyval) : bool :=
  match v with
  | PDict d => forallb (fun kv => is_str (snd kv)) d
  | _ => false
  end.

Definition has_shape (shape : pyval -> bool) (content : pydict) (field : str)
  : bool :=
  match dict_get field content with
  | Some v => shape v
  | None => false
  end.

(** All six fields are present, each with its container type. *)
Definition well_shaped (content : pydict) : bool :=
  has_shape is_str content SUMMARY
  && has_shape str_list content KEY_POINTS
  && has_shape str_dict content IMPORTANT_TERMS
  && has_shape str_list content DEADLINES_OBLIGATIONS
  && has_shape str_list content WARNINGS
  && has_shape str_list content NEXT_STEPS.

(** A string without white space at either end; such a string that is not
    empty; a sequence of the latter. *)
Definition stripped (v : pyval) : bool :=
  match v with PStr s => str_eqb (strip s) s | _ => false end.

Definition stripped_nonempty (v : pyval) : bool :=
  match v with
  | PStr s => str_eqb (strip s) s && negb (is_nil s)
  | _ => false
  end.

Definition clean_seq (v : pyval) : bool :=
  match v with PList l => forallb stripped_nonempty l | _ => false end.

(** A mapping whose keys and values are stripped strings. *)
Definition stripped_dict (v : pyval) : bool :=
  match v with
  | PDict d =>
      forallb (fun kv => str_eqb (strip (fst kv)) (fst kv) && stripped (snd kv)) d
  | _ => false
  end.

(** What the validation pass establishes on every path: the summary is
    stripped and the four sequences hold stripped, non-empty strings. *)
Definition cleaned (content : pydict) : bool :=
  has_shape stripped content SUMMARY
  && has_shape clean_seq content KEY_POINTS
  && has_shape stripped_dict content IMPORTANT_TERMS
  && has_shape clean_seq content DEADLINES_OBLIGATIONS
  && has_shape clean_seq content WARNINGS
  && has_shape clean_seq content NEXT_STEPS.

(** No entry of the mapping has an empty key or an empty value. *)
Definition no_empty_entry (v : pyval) : bool :=
  match v with
  | PDict d =>
      forallb (fun kv => negb (is_nil (fst kv)) && truthy (snd kv)) d
  | _ => false
  end.

(** The container a field must hold once the loop has run. *)
Definition container (f : str) (v : pyval) : bool :=
  if str_eqb f SUMMARY then true
  else if str_eqb f IMPORTANT_TERMS then is_dict v
  else is_list v.

(** The tiers of the normalizer: a reply is handled by tier 1 when its brace
    span decodes to a JSON object, by tier 2 when it has no brace span or
    when its span fails to decode. *)
Definition tier1 (json_loads : str -> result pyval) (text : str) : Prop :=
  exists span d,
    re_search_braces text = Some span /\ json_loads span = Return (PDict d).

Definition tier2 (json_loads : str -> result pyval) (text : str) : Prop :=
  re_search_braces text = None
  \/ exists span,
       re_search_braces text = Some span
       /\ json_loads span = Raise JSONDecodeError.

(** Replies and contents used as test inputs below. *)

(** A brace span that is not JSON, a summary heading and a bullet. *)
Definition reply_bad_json_then_bullet : str :=
  lit "{x}" ++ [NL] ++ lit "Summary:" ++ [NL] ++ lit "- a".

(** A heading and a bullet with no text. *)
Definition reply_empty_bullet : str := lit "Key points:" ++ [NL] ++ lit "-".

(** A heading and one bullet. *)
Definition reply_next_steps : str :=
  lit "Next Steps:" ++ [NL] ++ lit "- Consult a lawyer".

(** The decoded object whose single term has a blank definition. *)
Definition content_blank_definition : pyval :=
  PDict [(IMPORTANT_TERMS, PDict [(lit "Lessee", PStr (lit " "))])].

(** The keys of a dict are pairwise different: no key is found again in
    the entries that follow it. *)
Fixpoint unique_keys (d : pydict) : Prop :=
  match d with
  | [] => True
  | (k, _) :: r => dict_get k r = None /\ unique_keys r
  end.

(** The four tests of the confidence score on a structured content. *)
Definition rich_summary (content : pydict) : bool :=
  match dict_get SUMMARY content with
  | Some (PStr s) => (50 <? length s)%nat
  | _ => false
  end.

Definition non_empty (content : pydict) (field : str) : bool :=
  match dict_get field content with
  | Some v => truthy v
  | None => false
  end.

Local Open Scope float_scope.

Definition indicator (b : bool) : float := if b then 1 else 0.

(** The score as the specification writes it:
    min(1.0, 0.5 + 0.2.[s] + 0.1.[k] + 0.1.[t] + 0.1.[n]). *)
Definition confidence_formula (s k t n : bool) : float :=
  let sum := 0.5 + 0.2 * indicator s + 0.1 * indicator k
             + 0.1 * indicator t + 0.1 * indicator n in
  if 1.0 <? sum then 1.0 else sum.

End Shape.

(** ** Collaborators and inputs of the worked examples *)

Module Fixtures.
Import AISimplifier DocumentProcessor Shape.

(** Stand-ins for the collaborators of the simplifier. *)
Definition no_repr : pyval -> str := fun _ => [].
Definition decode_error : str -> result pyval :=
  fun _ => Raise JSONDecodeError.
Definition decode_short_summary : str -> result pyval :=
  fun _ => Return (PDict [(SUMMARY, PStr (lit " Short. "))]).
Definition same_text : str -> str := fun text => text.
Definition prompt_is_text : str -> str -> str -> str := fun text _ _ => text.
Definition model_silent : str -> result (option str) :=
  fun _ => Return (Some []).
Definition model_says_ok : str -> result (option str) :=
  fun _ => Return (Some (lit "ok")).

(** Scenario B of the specification, after normalization. *)
Definition content_short : pydict :=
  [ (SUMMARY, PStr (lit "Short."));
    (KEY_POINTS, PList [PStr (lit "a")]);
    (IMPORTANT_TERMS, PDict []);
    (DEADLINES_OBLIGATIONS, PList []);
    (WARNINGS, PList []);
    (NEXT_STEPS, PList []) ].



(** Stand-ins for the collaborators of the document processor. *)
Definition one_byte : bytes := [Byte.x25].
Definition storage_one_byte : str -> result (option bytes) :=
  fun _ => Return (Some one_byte).
Definition storage_down : str -> result (option bytes) :=
  fun _ => Raise (Exception_ (lit "storage unavailable")).
Definition no_pages : bytes -> result (list (option str)) :=
  fun _ => Return [].
Definition short_page : bytes -> result (list (option str)) :=
  fun _ => Return [Some (lit "Page 1")].
Definition long_page : bytes -> result (list (option str)) :=
  fun _ => Return [Some (repeat 98%N 150)].
Definition empty_docx : bytes -> result docx :=
  fun _ => Return {| paragraphs := []; tables := [] |}.
Definition broken_docx : bytes -> result docx :=
  fun _ => Raise ValueError.
Definition fifty : str := repeat 97%N 50.
Definition two_hundred : str := repeat 98%N 200.
Definition ten : str := lit "0123456789".
Definition eleven : str := lit "0123456789A".
Definition vision_sees (text : str) : bytes -> result (list str) :=
  fun _ => Return [text].
Definition tesseract_reads (text : str) : bytes -> result str :=
  fun _ => Return text.
Definition decode_nothing : bytes -> str := fun _ => [].

End Fixtures.


(** ** [AISimplifier]: text preprocessing *)

Module Preprocessing.

Local Open Scope N_scope.

(** [\d] on one code point: a decimal digit.  The ASCII digits are listed;
    [unicode_decimal] tells which other code points are decimal digits. *)
Definition is_decimal (unicode_decimal : char -> bool) (c : char) : bool :=
  if c <? 128 then (48 <=? c) && (c <=? 57) else unicode_decimal c.

(** [re.sub(r'\s+', ' ', text)]: every maximal run of white space becomes
    one space.  [in_run] tells that the previous character was white
    space. *)
Fixpoint collapse_from (in_run : bool) (s : str) : str :=
  match s with
  | [] => []
  | c :: r =>
      if is_space c
      then (if in_run then collapse_from true r
            else 32 :: collapse_from true r)
      else c :: collapse_from false r
  end.

Definition collapse_whitespace (s : str) : str := collapse_from false s.

(** The first closing character of [s] that [.] can reach: [.] does not
    cross a line break.  The answer is the number of characters before
    it. *)
Fixpoint find_close (close : char) (s : str) : option nat :=
  match s with
  | [] => None
  | c :: r =>
      if c =? close then Some O
      else if c =? NL then None
      else option_map S (find_close close r)
  end.

(** [re.sub] with the pattern [open .*? close] and an empty replacement:
    at an opening character that a closing one follows, the text up to the
    first closing character is dropped and the search goes on after it.
    [skip] counts the characters of the current match still to drop. *)
Fixpoint remove_delimited (open close : char) (skip : nat) (s : str) : str :=
  match s with
  | [] => []
  | c :: r =>
      match skip with
      | S k => remove_delimited open close k r
      | O =>
          if c =? open
          then match find_close close r with
               | Some j => remove_delimited open close (S j) r
               | None => c :: remove_delimited open close O r
               end
          else c :: remove_delimited open close O r
      end
  end.

Section Preprocess.

Variable unicode_decimal : char -> bool.

(** [settings.MAX_TOKENS] *)
Variable MAX_TOKENS : Z.

Local Notation is_decimal := (is_decimal unicode_decimal).

(** The characters [\d+] takes at the head of [s]: all the digits there. *)
Fixpoint digits_at (s : str) : nat :=
  match s with
  | c :: r => if is_decimal c then S (digits_at r) else O
  | [] => O
  end.

(** The length of the match of [Page \d+ of \d+] at the head of [s].  No
    digit is a character of [" of "], so each [\d+] takes every digit it
    meets. *)
Definition match_page (s : str) : option nat :=
  if startswith (lit "Page ") s
  then
    let n1 := digits_at (skipn 5 s) in
    if (0 <? n1)%nat && startswith (lit " of ") (skipn (5 + n1) s)
    then
      let n2 := digits_at (skipn (5 + n1 + 4) s) in
      if (0 <? n2)%nat then Some (5 + n1 + 4 + n2)%nat else None
    else None
  else None.

(** [re.sub(r'Page \d+ of \d+', '', text)] *)
Fixpoint remove_page_marks (skip : nat) (s : str) : str :=
  match s with
  | [] => []
  | c :: r =>
      match skip with
      | S k => remove_page_marks k r
      | O =>
          match match_page s with
          | Some n => remove_page_marks (pred n) r
          | None => c :: remove_page_marks O r
          end
      end
  end.

(** [re.sub(r'^\d+\s*$', '', text, flags=re.MULTILINE)] on a text without a
    line break, which is what reaches it (the first substitution left
    none, see [collapse_no_line_break]): the only line is the whole text,
    erased when it is made of digits, one at least, then white space. *)
Definition remove_bare_number (s : str) : str :=
  let n := digits_at s in
  if (0 <? n)%nat && forallb is_space (skipn n s) then [] else s.

(** [text[:n]] *)
Definition slice_to (n : Z) (s : str) : str :=
  if (0 <=? n)%Z then firstn (Z.to_nat n) s
  else firstn (length s - Z.to_nat (- n)) s.

(** The text before the length limit is applied. *)
Definition remove_artifacts (text : str) : str :=
  let text := collapse_whitespace text in
  let text := remove_page_marks O text in
  let text := remove_bare_number text in
  let text := remove_delimited 91 93 O text in
  remove_delimited 40 41 O text.

(** [_preprocess_text] *)
Definition _preprocess_text (text : str) : str :=
  let text := remove_artifacts text in
  let max_chars := (MAX_TOKENS * 4)%Z in
  let text :=
    if (max_chars <? Z.of_nat (length text))%Z
    then slice_to max_chars text ++ lit "..."
    else text in
  strip text.

End Preprocess.

(** [t] is [s] with some characters deleted. *)
Inductive subseq {A : Type} : list A -> list A -> Prop :=
| subseq_nil : subseq [] []
| subseq_drop x t s : subseq t s -> subseq t (x :: s)
| subseq_keep x t s : subseq t s -> subseq (x :: t) (x :: s).

(** No opening character of [s] has a closing character after it. *)
Fixpoint no_pair (open close : char) (s : str) : bool :=
  match s with
  | [] => true
  | c :: r =>
      (negb (c =? open) || negb (existsb (fun x => x =? close) r))
      && no_pair open close r
  end.

(** Every white-space character of [s] is a plain space. *)
Definition only_plain_spaces (s : str) : bool :=
  forallb (fun c => negb (is_space c) || (c =? 32)) s.

End Preprocessing.

(** ** [AISimplifier]: document complexity *)

Module Complexity.

(** [s.count(sub)] for a [sub] that is not empty: the occurrences met from
    left to right, an occurrence starting after the end of the one before.
    [skip] counts the characters of the last occurrence still to pass. *)
Fixpoint count_from (sub : str) (skip : nat) (s : str) : nat :=
  match s with
  | [] => O
  | _ :: r =>
      match skip with
      | S k => count_from sub k r
      | O =>
          if startswith sub s
          then S (count_from sub (pred (length sub)) r)
          else count_from sub O r
      end
  end.

(** [s.count(sub)]; the empty string occurs between any two characters and
    at both ends. *)
Definition py_count (sub s : str) : nat :=
  if is_nil sub then S (length s) else count_from sub O s.

Definition LEGAL_TERMS : list str :=
  map lit
    [ "whereas"; "hereby"; "herein"; "hereof"; "hereto"; "hereunder";
      "pursuant"; "notwithstanding"; "aforesaid"; "aforementioned";
      "indemnify"; "indemnification"; "liability"; "obligation";
      "covenant"; "warrant"; "represent"; "guarantee"; "undertake";
      "breach"; "default"; "termination"; "rescission"; "remedy";
      "damages"; "penalty"; "liquidated"; "consequential"; "incidental"
    ]%string.

(** [_count_legal_terms] *)
Definition _count_legal_terms (text : str) : nat :=
  let text_lower := lower text in
  fold_left (fun count term => (count + py_count term text_lower)%nat)
            LEGAL_TERMS O.

(** One turn of the loop of [_count_complex_sentences]. *)
Definition count_sentence (complex_count : nat) (sentence : str) : nat :=
  let sentence := strip sentence in
  if (25 <? length (split_ws sentence))%nat then S complex_count
  else if (3 <? py_count (lit ",") sentence)%nat then S complex_count
  else complex_count.

(** [_count_complex_sentences] *)
Definition _count_complex_sentences (text : str) : nat :=
  fold_left count_sentence (re_split_sentences text) O.

(** [_estimate_reading_time] on a word count, which is not negative. *)
Definition _estimate_reading_time (word_count : nat) : nat :=
  Nat.max 1 (word_count / 200).

(** The dict [analyze_document_complexity] returns, field by field.  The
    two ratios are quotients of counts; they are kept exact, which decides
    the comparisons with 0.05, 0.1, 0.15 and 0.3 as the floats do for every
    text of fewer than 2^49 characters. *)
Record complexity : Type := {
  complexity_level : str;
  legal_term_count : nat;
  legal_term_ratio : Q;
  complex_sentence_count : nat;
  complex_sentence_ratio : Q;
  total_words : nat;
  estimated_reading_time : nat
}.

(** What the caller receives: the analysis, or the dict of the handler,
    whose only field is the level "unknown". *)
Inductive analysis : Type :=
| Analysis (c : complexity)
| UnknownComplexity.

(** [a / b] on two counts: division by zero raises. *)
Definition true_div (a b : nat) : result Q :=
  match b with
  | O => Raise (Exception_ (lit "division by zero"))
  | S _ => Return (Z.of_nat a # Pos.of_nat b)%Q
  end.

Definition Qgtb (x y : Q) : bool := negb (Qle_bool x y).

(** The body of the [try] of [analyze_document_complexity]. *)
Definition analyze_body (text : str) : result complexity :=
  let legal_terms := _count_legal_terms text in
  let complex_sentences := _count_complex_sentences text in
  let total_words := length (split_ws text) in
  legal_term_ratio <-
    (if (0 <? total_words)%nat then true_div legal_terms total_words
     else Return (0 # 1)%Q) ;;
  complex_sentence_ratio <-
    (if negb (is_nil text)
     then true_div complex_sentences (length (re_split_sentences text))
     else Return (0 # 1)%Q) ;;
  let level :=
    if Qgtb legal_term_ratio (1 # 10)%Q
       || Qgtb complex_sentence_ratio (3 # 10)%Q
    then lit "high"
    else if Qgtb legal_term_ratio (5 # 100)%Q
            || Qgtb complex_sentence_ratio (15 # 100)%Q
    then lit "medium"
    else lit "low" in
  Return {| complexity_level := level;
            legal_term_count := legal_terms;
            legal_term_ratio := legal_term_ratio;
            complex_sentence_count := complex_sentences;
            complex_sentence_ratio := complex_sentence_ratio;
            total_words := total_words;
            estimated_reading_time := _estimate_reading_time total_words |}.

(** [analyze_document_complexity] *)
Definition analyze_document_complexity (text : str) : analysis :=
  match analyze_body text with
  | Return c => Analysis c
  | Raise _ => UnknownComplexity
  end.

End Complexity.

(** ** [DocumentProcessor]: the metadata of a document *)

Module Metadata.
Import DocumentProcessor.

(** [file_type.value] *)
Definition type_value (file_type : DocumentType) : str :=
  match file_type with
  | PDF => lit "pdf"
  | DOC => lit "doc"
  | DOCX => lit "docx"
  | IMAGE => lit "image"
  | TEXT => lit "text"
  end.

(** The three notes on the extraction method, and the head of the note of
    the handler. *)
Definition NOTE_OCR : str := lit "Document processed using OCR".
Definition NOTE_VISION : str :=
  lit "Document processed using Google Cloud Vision".
Definition NOTE_DOCUMENTAI : str :=
  lit "Document processed using Google Cloud Document AI".
Definition NOTE_ERROR : str := lit "Metadata extraction error: ".

Section Processor.

(** Whether [__init__] obtained the Vision client. *)
Variable vision_client : bool.

(** [run_in_executor]: the executor takes the task, or refuses it with an
    exception (it does so once it is shut down). *)
Variable run_in_executor : result unit.

(** [str(e)] *)
Variable str_of_exception : exn -> str.

(** What pdfplumber reads from a PDF: the number of pages, whether a page
    has an image, whether a page has a table; or the exception one of the
    reads raises. *)
Variable pdf_read : bytes -> result (nat * bool * bool).

(** The document python-docx opens, and whether one of its paragraphs
    holds a picture. *)
Variable docx_open : bytes -> result docx.
Variable docx_has_blip : bytes -> result bool.

(** [Image.open]: the size and the format of the image. *)
Variable image_open : bytes -> result (pyval * pyval).

(** The annotations Vision returns for the image, each with its
    [confidence] when it has this attribute. *)
Variable vision_confidences : bytes -> result (list (option float)).

(** [sum(confidences) / len(confidences)] on a list that is not empty. *)
Variable average : list float -> float.

(** [_get_pdf_metadata]: the dict of the reads, or [{}] when one fails. *)
Definition _get_pdf_metadata (pdf_content : bytes) : pydict :=
  match pdf_read pdf_content with
  | Return (page_count, has_images, has_tables) =>
      [ (lit "page_count", PInt (Z.of_nat page_count));
        (lit "has_images", PBool has_images);
        (lit "has_tables", PBool has_tables);
        (lit "extraction_method", PStr (lit "pdfplumber")) ]
  | Raise _ => []
  end.

(** [_get_docx_metadata] *)
Definition _get_docx_metadata (docx_content : bytes) : pydict :=
  match docx_open docx_content with
  | Return doc =>
      match docx_has_blip docx_content with
      | Return has_images =>
          [ (lit "page_count", PNone);
            (lit "has_images", PBool has_images);
            (lit "has_tables", PBool (negb (is_nil (tables doc))));
            (lit "extraction_method", PStr (lit "python-docx")) ]
      | Raise _ => []
      end
  | Raise _ => []
  end.

(** The confidences collected from the annotations after the first. *)
Definition collect_confidences (annotations : list (option float))
  : list float :=
  flat_map (fun confidence =>
              match confidence with
              | Some c => [c]
              | None => []
              end) (tl annotations).

(** [_get_image_metadata].  A failure of the Vision call is logged and
    leaves the dict as it was. *)
Definition _get_image_metadata (image_content : bytes) : pydict :=
  match image_open image_content with
  | Return (size, format) =>
      let metadata :=
        [ (lit "page_count", PInt 1);
          (lit "has_images", PBool true);
          (lit "has_tables", PBool false);
          (lit "extraction_method", PStr (lit "ocr"));
          (lit "image_dimensions", size);
          (lit "image_format", format);
          (lit "ocr_confidence", PNone) ] in
      if vision_client
      then
        match vision_confidences image_content with
        | Return annotations =>
            if negb (is_nil annotations)
            then
              let confidences := collect_confidences annotations in
              if negb (is_nil confidences)
              then
                let metadata :=
                  dict_set (lit "ocr_confidence")
                           (PFloat (average confidences)) metadata in
                dict_set (lit "extraction_method")
                         (PStr (lit "google_vision")) metadata
              else metadata
            else metadata
        | Raise _ => metadata
        end
      else metadata
  | Raise _ => []
  end.

(** The dict [get_document_metadata] starts from. *)
Definition initial_metadata (document_content : bytes)
  (file_type : DocumentType) : pydict :=
  [ (lit "file_type", PStr (type_value file_type));
    (lit "size_bytes", PInt (Z.of_nat (length document_content)));
    (lit "extraction_method", PNone);
    (lit "language_detected", PNone);
    (lit "page_count", PNone);
    (lit "has_images", PBool false);
    (lit "has_tables", PBool false);
    (lit "ocr_confidence", PNone);
    (lit "processing_notes", PList []) ].

(** [metadata["processing_notes"].append(note)] *)
Definition add_note (metadata : pydict) (note : str) : result pydict :=
  notes <- getitem metadata (lit "processing_notes") ;;
  match notes with
  | PList l =>
      Return (dict_set (lit "processing_notes") (PList (l ++ [PStr note]))
                       metadata)
  | _ => Raise AttributeError
  end.

(** The note the chain of tests on [metadata.get("extraction_method")]
    selects. *)
Definition method_note (metadata : pydict) : option str :=
  match dict_get (lit "extraction_method") metadata with
  | Some (PStr method) =>
      if str_eqb method (lit "ocr") then Some NOTE_OCR
      else if str_eqb method (lit "google_vision") then Some NOTE_VISION
      else if str_eqb method (lit "documentai") then Some NOTE_DOCUMENTAI
      else None
  | _ => None
  end.

(** The dict of the helper of the file type, which is awaited from the
    executor; a text file has no helper. *)
Definition type_metadata (document_content : bytes)
  (file_type : DocumentType) : result (option pydict) :=
  match file_type with
  | PDF =>
      _ <- run_in_executor ;;
      Return (Some (_get_pdf_metadata document_content))
  | DOC | DOCX =>
      _ <- run_in_executor ;;
      Return (Some (_get_docx_metadata document_content))
  | IMAGE =>
      _ <- run_in_executor ;;
      Return (Some (_get_image_metadata document_content))
  | TEXT => Return None
  end.

(** The body of the [try] of [get_document_metadata]: the dict as the body
    left it, and whether the body raised. *)
Definition metadata_body (metadata : pydict) (document_content : bytes)
  (file_type : DocumentType) : pydict * result unit :=
  match type_metadata document_content file_type with
  | Raise e => (metadata, Raise e)
  | Return found =>
      let metadata :=
        match found with
        | Some other => dict_update metadata other
        | None => metadata
        end in
      match method_note metadata with
      | None => (metadata, Return tt)
      | Some note =>
          match add_note metadata note with
          | Return noted => (noted, Return tt)
          | Raise e => (metadata, Raise e)
          end
      end
  end.

(** [get_document_metadata] *)
Definition get_document_metadata (document_content : bytes)
  (file_type : DocumentType) : result pydict :=
  let metadata := initial_metadata document_content file_type in
  match metadata_body metadata document_content file_type with
  | (metadata, Return _) => Return metadata
  | (metadata, Raise e) =>
      add_note metadata (NOTE_ERROR ++ str_of_exception e)
  end.

End Processor.

End Metadata.

(** ** The routes that call the two services *)

Module Routes.
Import AISimplifier DocumentProcessor.

(** What a route answers: a body, or the status code of the
    [HTTPException] it raises (the detail text is left out). *)
Inductive response (A : Type) : Type :=
| OK (body : A)
| HTTPException (status_code : nat).
Arguments OK {A} body.
Arguments HTTPException {A} status_code.

(** What a route made the services do: the extraction strategies run and
    the calls of the simplifier, in order. *)
Inductive effect : Type :=
| Ran (s : strategy)
| Called (c : call).

(** The fields of the stored metadata that the routes read. *)
Record DocumentMetadata : Type := {
  filename : str;
  file_type : DocumentType;
  storage_path : str
}.

(** [DocumentProcessingRequest]; its [document_id], which no route reads
    (the identifier comes from the path), is left out. *)
Record DocumentProcessingRequest : Type := {
  simplification_level : str;
  include_original : bool;
  target_audience : str
}.

(** [QARequest], without its [document_id] for the same reason. *)
Record QARequest : Type := {
  question : str;
  qa_target_audience : str
}.

(** The arguments [process_document] gives to [SimplifiedDocument]; the
    time stamp of the response is left out. *)
Record SimplifiedDocument : Type := {
  sd_document_id : str;
  sd_original_filename : str;
  sd_summary : pyval;
  sd_key_points : pyval;
  sd_important_terms : pyval;
  sd_deadlines_obligations : pyval;
  sd_warnings : pyval;
  sd_next_steps : pyval;
  sd_simplification_level : str;
  sd_confidence_score : pyval;
  sd_original_text : option str;
  sd_word_count_original : nat;
  sd_word_count_simplified : nat;
  sd_reading_level : pyval
}.

(** The arguments [ask_document_question] gives to [QAResponse]. *)
Record QAResponse : Type := {
  qa_document_id : str;
  qa_question : str;
  qa_answer : pyval;
  qa_confidence_score : pyval
}.

(** What [upload_document] reads of the uploaded file: its name, what
    [file.read()] gives, and its content type. *)
Record UploadFile : Type := {
  uf_filename : option str;
  uf_read : result bytes;
  uf_content_type : option str
}.

(** The arguments [upload_document] gives to [DocumentMetadata]; the time
    stamp and the status, which is [UPLOADED], are left out. *)
Record UploadedMetadata : Type := {
  um_document_id : str;
  um_filename : str;
  um_file_type : DocumentType;
  um_file_size : nat;
  um_user_id : option str;
  um_storage_path : str;
  um_extraction_method : pyval;
  um_ocr_confidence : pyval;
  um_language_detected : pyval
}.

(** The arguments [upload_document] gives to [DocumentUploadResponse];
    the time stamp, the status and the message, a constant, are left
    out. *)
Record DocumentUploadResponse : Type := {
  ur_document_id : str;
  ur_filename : str;
  ur_file_type : DocumentType;
  ur_file_size : nat
}.

(** What an upload writes: a blob in the bucket, a row of metadata. *)
Inductive storage_event : Type :=
| BlobUploaded (blob_path : str) (file_content : bytes)
| MetadataStored (metadata : UploadedMetadata).

(** [BatchProcessingRequest] *)
Record BatchProcessingRequest : Type := {
  document_ids : list str;
  batch_simplification_level : str;
  batch_target_audience : str;
  batch_include_original : bool
}.

(** An [ErrorResponse] of the batch.  [detail] is the text of the exception
    caught; it is kept as the status code of the [HTTPException] that
    [process_document] raised. *)
Record ErrorResponse : Type := {
  er_error : str;
  er_message : str;
  er_detail : nat
}.

(** The arguments [batch_process_documents] gives to
    [BatchProcessingResponse]; the batch identifier and the processing
    time, which is the constant 0, are left out. *)
Record BatchProcessingResponse : Type := {
  total_documents : nat;
  processed_documents : nat;
  failed_documents : nat;
  batch_results : list SimplifiedDocument;
  batch_errors : list ErrorResponse
}.

(** The request the batch builds for each of its documents. *)
Definition individual_request (request : BatchProcessingRequest)
  : DocumentProcessingRequest :=
  {| simplification_level := batch_simplification_level request;
     include_original := batch_include_original request;
     target_audience := batch_target_audience request |}.

(** The [ErrorResponse] the batch builds for a document that failed. *)
Definition processing_error (document_id : str) (status_code : nat)
  : ErrorResponse :=
  {| er_error := lit "processing_error";
     er_message := lit "Failed to process document " ++ document_id;
     er_detail := status_code |}.

(** [d.get(key, default)] *)
Definition get_or (d : pydict) (key : str) (default : pyval) : pyval :=
  match dict_get key d with
  | Some v => v
  | None => default
  end.

(** [v.split()]: only a string has [split]. *)
Definition py_split (v : pyval) : result (list str) :=
  match v with
  | PStr s => Return (split_ws s)
  | _ => Raise AttributeError
  end.

(** The extension table of [upload_document]. *)
Definition document_type_map : list (str * DocumentType) :=
  [ (lit "pdf", PDF); (lit "doc", DOC); (lit "docx", DOCX);
    (lit "jpg", IMAGE); (lit "jpeg", IMAGE); (lit "png", IMAGE);
    (lit "tiff", IMAGE); (lit "txt", TEXT) ].

Fixpoint lookup_type (table : list (str * DocumentType)) (key : str)
  : option DocumentType :=
  match table with
  | [] => None
  | (k, t) :: rest => if str_eqb k key then Some t else lookup_type rest key
  end.

(** [file.filename.split('.')[-1].lower()] and the look-up that follows, in
    [upload_document]: the type of an unknown extension is TEXT. *)
Definition document_type_of (filename : str) : DocumentType :=
  let file_extension := lower (last (split_on 46%N filename) []) in
  match lookup_type document_type_map file_extension with
  | Some t => t
  | None => TEXT
  end.

Section Routes.

(** The collaborators of the document processor and of the simplifier. *)
Variable documentai_client : bool.
Variable vision_client : bool.
Variable storage_download : str -> result (option bytes).
Variable pdfplumber_pages : bytes -> result (list (option str)).
Variable pypdf2_pages : bytes -> result (list (option str)).
Variable docx_open : bytes -> result docx.
Variable vision_text_detection : bytes -> result (list str).
Variable tesseract_image_to_string : bytes -> result str.
Variable decode_utf8_ignore : bytes -> str.
Variable repr : pyval -> str.
Variable json_loads : str -> result pyval.
Variable generate_content : str -> result (option str).
Variable _preprocess_text : str -> str.
Variable _create_simplification_prompt : str -> str -> str -> str.
Variable question_prompt : str -> str -> str -> str.
Variable utcnow_isoformat : str.

(** [storage_service.get_document_metadata]: the metadata, [None] for an
    unknown document, or the exception it raises. *)
Variable get_document_metadata : str -> result (option DocumentMetadata).

(** The validation pydantic runs when the two response models are built,
    and [storage_service.store_simplified_document]: each passes or
    raises. *)
Variable validate_document : SimplifiedDocument -> result unit.
Variable validate_answer : QAResponse -> result unit.
Variable store_simplified_document : SimplifiedDocument -> result unit.

Local Notation extract_text :=
  (extract_text documentai_client vision_client storage_download
     pdfplumber_pages pypdf2_pages docx_open vision_text_detection
     tesseract_image_to_string decode_utf8_ignore).
Local Notation simplify_document :=
  (simplify_document repr json_loads generate_content _preprocess_text
     _create_simplification_prompt utcnow_isoformat).
Local Notation answer_question :=
  (answer_question generate_content _preprocess_text question_prompt).

(** The construction of the response of [process_document], its storage
    and the return.  An exception at any step is turned into status 500 by
    the last handler of the route. *)
Definition respond_simplified (document_id : str) (metadata : DocumentMetadata)
  (request : DocumentProcessingRequest) (extracted_text : str)
  (simplified_content : pydict) : response SimplifiedDocument :=
  let summary := get_or simplified_content SUMMARY (PStr []) in
  match py_split summary with
  | Raise _ => HTTPException 500
  | Return summary_words =>
      let simplified_doc :=
        {| sd_document_id := document_id;
           sd_original_filename := filename metadata;
           sd_summary := summary;
           sd_key_points := get_or simplified_content KEY_POINTS (PList []);
           sd_important_terms :=
             get_or simplified_content IMPORTANT_TERMS (PDict []);
           sd_deadlines_obligations :=
             get_or simplified_content DEADLINES_OBLIGATIONS (PList []);
           sd_warnings := get_or simplified_content WARNINGS (PList []);
           sd_next_steps := get_or simplified_content NEXT_STEPS (PList []);
           sd_simplification_level := simplification_level request;
           sd_confidence_score :=
             get_or simplified_content (lit "confidence_score")
                    (PFloat 0.8%float);
           sd_original_text :=
             if include_original request then Some extracted_text else None;
           sd_word_count_original := length (split_ws extracted_text);
           sd_word_count_simplified := length summary_words;
           sd_reading_level :=
             get_or simplified_content (lit "reading_level")
                    (PStr (lit "intermediate")) |} in
      match validate_document simplified_doc with
      | Raise _ => HTTPException 500
      | Return _ =>
          match store_simplified_document simplified_doc with
          | Raise _ => HTTPException 500
          | Return _ => OK simplified_doc
          end
      end
  end.

(** [process_document].  The updates of the stored status, whose failures
    are logged and ignored, and the analytics task, which runs after the
    response, are left out. *)
Definition process_document (document_id : str)
  (request : DocumentProcessingRequest)
  : list effect * response SimplifiedDocument :=
  match get_document_metadata document_id with
  | Raise _ => ([], HTTPException 500)
  | Return None => ([], HTTPException 404)
  | Return (Some metadata) =>
      let '(ran, extracted_text) :=
        extract_text document_id (file_type metadata) (storage_path metadata) in
      match extracted_text with
      | None => (map Ran ran, HTTPException 422)
      | Some text =>
          if is_nil text then (map Ran ran, HTTPException 422)
          else
            let '(calls, outcome) :=
              simplify_document text (simplification_level request)
                                (target_audience request) in
            (map Ran ran ++ map Called calls,
             match outcome with
             | Raise _ => HTTPException 500
             | Return simplified_content =>
                 respond_simplified document_id metadata request text
                                    simplified_content
             end)
      end
  end.

(** [ask_document_question].  The analytics record, whose failure is logged
    and ignored, is left out. *)
Definition ask_document_question (document_id : str) (request : QARequest)
  : list effect * response QAResponse :=
  match get_document_metadata document_id with
  | Raise _ => ([], HTTPException 500)
  | Return None => ([], HTTPException 404)
  | Return (Some metadata) =>
      let '(ran, extracted_text) :=
        extract_text document_id (file_type metadata) (storage_path metadata) in
      match extracted_text with
      | None => (map Ran ran, HTTPException 422)
      | Some text =>
          if is_nil text then (map Ran ran, HTTPException 422)
          else
            let '(calls, outcome) :=
              answer_question text (question request)
                              (qa_target_audience request) in
            (map Ran ran ++ map Called calls,
             match outcome with
             | Raise _ => HTTPException 500
             | Return qa =>
                 let answer :=
                   {| qa_document_id := document_id;
                      qa_question := question request;
                      qa_answer := get_or qa (lit "answer") (PStr []);
                      qa_confidence_score :=
                        get_or qa (lit "confidence_score")
                               (PFloat 0.5%float) |} in
                 match validate_answer answer with
                 | Raise _ => HTTPException 500
                 | Return _ => OK answer
                 end
             end)
      end
  end.

(** One turn of the loop of [batch_process_documents], on the effects
    made so far and the two lists [results] and [errors].  The handler of
    the turn catches [Exception], of which [HTTPException] is a subclass:
    every status [process_document] raises ends in [errors]. *)
Definition batch_turn (request : BatchProcessingRequest)
  (state : list effect * list SimplifiedDocument * list ErrorResponse)
  (document_id : str)
  : list effect * list SimplifiedDocument * list ErrorResponse :=
  let '(effects, results, errors) := state in
  let '(made, outcome) :=
    process_document document_id (individual_request request) in
  match outcome with
  | OK simplified_doc =>
      (effects ++ made, results ++ [simplified_doc], errors)
  | HTTPException status_code =>
      (effects ++ made, results,
       errors ++ [processing_error document_id status_code])
  end.

(** [batch_process_documents].  Nothing raises outside the loop, so the
    last handler of the route, which answers 500, has no counterpart. *)
Definition batch_process_documents (request : BatchProcessingRequest)
  : list effect * BatchProcessingResponse :=
  let '(effects, results, errors) :=
    fold_left (batch_turn request) (document_ids request) ([], [], []) in
  (effects,
   {| total_documents := length (document_ids request);
      processed_documents := length results;
      failed_documents := length errors;
      batch_results := results;
      batch_errors := errors |}).

End Routes.

Section Upload.

(** [settings.MAX_FILE_SIZE], [settings.ALLOWED_FILE_TYPES] and
    [settings.UPLOAD_FOLDER] *)
Variable MAX_FILE_SIZE : Z.
Variable ALLOWED_FILE_TYPES : list str.
Variable UPLOAD_FOLDER : str.

(** [str(uuid.uuid4())] *)
Variable uuid4 : str.

(** [bucket.blob(path).upload_from_string(content, content_type)] *)
Variable upload_from_string : str -> bytes -> option str -> result unit.

(** [DocumentProcessor().get_document_metadata], on the processor the
    route makes for the upload. *)
Variable get_document_metadata : bytes -> DocumentType -> result pydict.

(** The validation pydantic runs when [DocumentMetadata] is built, and
    [storage_service.store_metadata]. *)
Variable validate_metadata : UploadedMetadata -> result unit.
Variable store_metadata : UploadedMetadata -> result unit.

(** [storage_service.upload_document]: the blob path is made of the
    upload folder, the document identifier and the file name. *)
Definition storage_upload_document (document_id : str)
  (file_content : bytes) (filename : str) (content_type : option str)
  : list storage_event * result str :=
  let blob_path :=
    UPLOAD_FOLDER ++ lit "/" ++ document_id ++ lit "/" ++ filename in
  match upload_from_string blob_path file_content content_type with
  | Return _ => ([BlobUploaded blob_path file_content], Return blob_path)
  | Raise e => ([], Raise e)
  end.

(** [x in settings.ALLOWED_FILE_TYPES] *)
Definition allowed (content_type : option str) : bool :=
  match content_type with
  | Some t => existsb (fun a => str_eqb a t) ALLOWED_FILE_TYPES
  | None => false
  end.

(** [upload_document], after the three checks.  An exception at any step
    is turned into status 500 by the last handler of the route; what was
    written before it stays. *)
Definition store_upload (filename : str) (file_content : bytes)
  (content_type : option str) (user_id : option str)
  : list storage_event * response DocumentUploadResponse :=
  let document_id := uuid4 in
  let document_type := document_type_of filename in
  match storage_upload_document document_id file_content filename
                                content_type with
  | (written, Raise _) => (written, HTTPException 500)
  | (written, Return storage_path) =>
      match get_document_metadata file_content document_type with
      | Raise _ => (written, HTTPException 500)
      | Return doc_metadata =>
          let document_metadata :=
            {| um_document_id := document_id;
               um_filename := filename;
               um_file_type := document_type;
               um_file_size := length file_content;
               um_user_id := user_id;
               um_storage_path := storage_path;
               um_extraction_method :=
                 get_or doc_metadata (lit "extraction_method") PNone;
               um_ocr_confidence :=
                 get_or doc_metadata (lit "ocr_confidence") PNone;
               um_language_detected :=
                 get_or doc_metadata (lit "language_detected") PNone |} in
          match validate_metadata document_metadata with
          | Raise _ => (written, HTTPException 500)
          | Return _ =>
              match store_metadata document_metadata with
              | Raise _ => (written, HTTPException 500)
              | Return _ =>
                  (written ++ [MetadataStored document_metadata],
                   OK {| ur_document_id := document_id;
                         ur_filename := filename;
                         ur_file_type := document_type;
                         ur_file_size := length file_content |})
              end
          end
      end
  end.

(** [upload_document].  The analytics task, which runs after the
    response, is left out. *)
Definition upload_document (file : UploadFile) (user_id : option str)
  : list storage_event * response DocumentUploadResponse :=
  match uf_filename file with
  | None => ([], HTTPException 400)
  | Some filename =>
      if is_nil filename then ([], HTTPException 400)
      else
        match uf_read file with
        | Raise _ => ([], HTTPException 500)
        | Return file_content =>
            if (MAX_FILE_SIZE <? Z.of_nat (length file_content))%Z
            then ([], HTTPException 413)
            else if negb (allowed (uf_content_type file))
            then ([], HTTPException 400)
            else store_upload filename file_content (uf_content_type file)
                              user_id
        end
  end.

End Upload.

End Routes.

(** ** Collaborators and inputs of the further examples *)

Module Scenarios.
Import AISimplifier DocumentProcessor Shape Fixtures Metadata Routes.

Local Open Scope N_scope.

(** No decimal digit besides the ASCII ones. *)
Definition ascii_digits_only : char -> bool := fun _ => false.

(** A page mark, a bracketed and a parenthetical reference, and a tab. *)
Definition clause_with_marks : str :=
  lit "Page 3 of 12 The tenant [see 4.2] pays" ++ [9]
  ++ lit "rent (monthly)." ++ [NL].

(** Blanks of three kinds and no word. *)
Definition blank_text : str := [32; 9; NL].

(** A reply whose JSON object stands between two sentences. *)
Definition reply_around_braces : str := lit "Here it is: {a} {b} Done.".

(** A decoded object with a summary and one entry the pass does not know. *)
Definition decoded_with_title : pydict :=
  [ (lit "title", PStr (lit "Lease")); (SUMMARY, PStr (lit " Short. ")) ].

(** A decoded object with one term. *)
Definition decoded_one_term : pyval :=
  PDict [(IMPORTANT_TERMS, PDict [(lit "Lessee", PStr (lit " the tenant "))])].

(** A content whose summary is a number. *)
Definition content_number_summary : pydict := [(SUMMARY, PInt 5)].

(** The model answers with an empty JSON object. *)
Definition model_says_braces : str -> result (option str) :=
  fun _ => Return (Some (lit "{}")).

(** A Word document with a blank paragraph and a table of blank cells. *)
Definition blank_docx : bytes -> result docx :=
  fun _ => Return {| paragraphs := [lit " "];
                     tables := [[[[]; lit "  "]]] |}.

(** A stored text file and a stored Word file. *)
Definition text_file : DocumentMetadata :=
  {| filename := lit "lease.txt";
     file_type := TEXT;
     storage_path := lit "documents/42/lease.txt" |}.

Definition word_file : DocumentMetadata :=
  {| filename := lit "lease.docx";
     file_type := DOCX;
     storage_path := lit "documents/43/lease.docx" |}.

Definition stored (metadata : DocumentMetadata)
  : str -> result (option DocumentMetadata) :=
  fun _ => Return (Some metadata).

Definition decode_lease : bytes -> str := fun _ => lit "The tenant pays rent.".

Definition timestamp : str := lit "2024-05-01T10:00:00".

Definition accept_document : SimplifiedDocument -> result unit :=
  fun _ => Return tt.
Definition accept_answer : QAResponse -> result unit := fun _ => Return tt.
Definition store_document : SimplifiedDocument -> result unit :=
  fun _ => Return tt.

Definition standard_request : DocumentProcessingRequest :=
  {| simplification_level := lit "standard";
     include_original := false;
     target_audience := lit "general_public" |}.

Definition who_pays : QARequest :=
  {| question := lit "Who pays the rent?";
     qa_target_audience := lit "general_public" |}.

(** Stand-ins for the collaborators of the metadata helpers: an executor
    that runs, an image Vision annotates twice. *)
Definition executor_runs : result unit := Return tt.
Definition exception_text : exn -> str := fun _ => lit "failed".
Definition pdf_two_pages : bytes -> result (nat * bool * bool) :=
  fun _ => Return (2%nat, false, true).
Definition no_blip : bytes -> result bool := fun _ => Return false.
Definition image_png : bytes -> result (pyval * pyval) :=
  fun _ => Return (PList [PInt 640; PInt 480], PStr (lit "PNG")).
Definition two_annotations : bytes -> result (list (option float)) :=
  fun _ => Return [None; Some 0.5%float].
Definition first_confidence : list float -> float :=
  fun confidences => hd 0%float confidences.

(** An uploaded PDF of one byte, and the storage that takes it. *)
Definition lease_upload : UploadFile :=
  {| uf_filename := Some (lit "Lease.PDF");
     uf_read := Return one_byte;
     uf_content_type := Some (lit "application/pdf") |}.
Definition pdf_and_text : list str :=
  [lit "application/pdf"; lit "text/plain"].
Definition blob_written : str -> bytes -> option str -> result unit :=
  fun _ _ _ => Return tt.
Definition accept_metadata : UploadedMetadata -> result unit :=
  fun _ => Return tt.
Definition store_row : UploadedMetadata -> result unit := fun _ => Return tt.

End Scenarios.

(** ** Notions used to state the further properties *)

Module Notions.
Import AISimplifier.

(** The labels of the reading level. *)
Definition READING_LEVELS : list str :=
  [ lit "elementary"; lit "intermediate"; lit "high_school"; lit "college";
    lit "unknown" ].



End Notions.

(** ** Properties of strings and dictionaries *)

Module PyFacts.

Lemma str_eqb_refl (s : str) : str_eqb s s = true.
Proof.
  induction s as [|c s IH]; simpl; [reflexivity|].
  now rewrite N.eqb_refl, IH.
Qed.

Lemma str_eqb_eq (a b : str) : str_eqb a b = true <-> a = b.
Proof.
  split.
  - revert b; induction a as [|x a IH]; intros [|y b]; simpl;
      try discriminate; [reflexivity|].
    intros H. apply andb_true_iff in H as [Hx Hr].
    apply N.eqb_eq in Hx. apply IH in Hr. now subst.
  - intros ->. apply str_eqb_refl.
Qed.

Lemma str_eqb_neq (a b : str) : str_eqb a b = false <-> a <> b.
Proof.
  rewrite <- str_eqb_eq. destruct (str_eqb a b); split; congruence.
Qed.

Lemma str_eqb_sym (a b : str) : str_eqb a b = str_eqb b a.
Proof.
  destruct (str_eqb b a) eqn:E.
  - apply str_eqb_eq in E. subst. apply str_eqb_refl.
  - apply str_eqb_neq. apply str_eqb_neq in E. congruence.
Qed.

Lemma lstrip_idem (s : str) : lstrip (lstrip s) = lstrip s.
Proof.
  induction s as [|c s IH]; simpl; [reflexivity|].
  destruct (is_space c) eqn:E; [exact IH|].
  simpl. now rewrite E.
Qed.

(** What [lstrip] returns is empty or starts with a character that is not
    white space. *)
Lemma lstrip_head (s : str) c r :
  lstrip s = c :: r -> is_space c = false.
Proof.
  induction s as [|x s IH]; simpl; [discriminate|].
  destruct (is_space x) eqn:E; [exact IH|].
  intros H. injection H as -> _. exact E.
Qed.

Lemma lstrip_app (s : str) c t :
  is_space c = false -> lstrip (s ++ c :: t) = lstrip s ++ c :: t.
Proof.
  intros Hc. induction s as [|x s IH]; simpl.
  - now rewrite Hc.
  - destruct (is_space x); [exact IH|reflexivity].
Qed.

Lemma strip_cons_shape (s : str) c r :
  lstrip s = c :: r -> strip s = c :: rev (lstrip (rev r)).
Proof.
  intros H. unfold strip, rstrip. rewrite H. simpl.
  rewrite lstrip_app by (eapply lstrip_head; eassumption).
  rewrite rev_app_distr. reflexivity.
Qed.

Theorem strip_idem (s : str) : strip (strip s) = strip s.
Proof.
  destruct (lstrip s) as [|c r] eqn:E.
  - assert (H : strip s = []) by (unfold strip; now rewrite E).
    now rewrite H.
  - pose proof (lstrip_head _ _ _ E) as Hc.
    rewrite (strip_cons_shape _ _ _ E).
    assert (L : lstrip (c :: rev (lstrip (rev r))) = c :: rev (lstrip (rev r)))
      by (simpl; now rewrite Hc).
    rewrite (strip_cons_shape _ _ _ L).
    now rewrite rev_involutive, lstrip_idem.
Qed.

Lemma dict_get_set_same k v (d : pydict) :
  dict_get k (dict_set k v d) = Some v.
Proof.
  induction d as [|[k' v'] d IH]; simpl.
  - now rewrite str_eqb_refl.
  - destruct (str_eqb k' k) eqn:E; simpl; rewrite E; [reflexivity|exact IH].
Qed.

Lemma dict_get_set_other k k' v (d : pydict) :
  str_eqb k k' = false -> dict_get k' (dict_set k v d) = dict_get k' d.
Proof.
  intros Hk. induction d as [|[k0 v0] d IH]; simpl.
  - now rewrite Hk.
  - destruct (str_eqb k0 k) eqn:E; simpl.
    + apply str_eqb_eq in E. subst k0. now rewrite Hk.
    + destruct (str_eqb k0 k'); [reflexivity|exact IH].
Qed.

(** Writing back the value a key already has changes nothing. *)
Lemma dict_set_unchanged k v (d : pydict) :
  dict_get k d = Some v -> dict_set k v d = d.
Proof.
  induction d as [|[k' v'] d IH]; simpl; [discriminate|].
  destruct (str_eqb k' k) eqn:E.
  - intros H. injection H as ->. reflexivity.
  - intros H. now rewrite IH.
Qed.

End PyFacts.

(** ** The validation pass and the text parser keep the six fields *)

Module NormalizerFacts.
Import AISimplifier Shape PyFacts.

Lemma has_shape_set sh k v (c : pydict) f :
  has_shape sh (dict_set k v c) f
  = if str_eqb k f then sh v else has_shape sh c f.
Proof.
  unfold has_shape. destruct (str_eqb k f) eqn:E.
  - apply str_eqb_eq in E. subst f. now rewrite dict_get_set_same.
  - now rewrite dict_get_set_other.
Qed.

Lemma forallb_dict_set (P : str * pyval -> bool) k v (d : pydict) :
  P (k, v) = true -> forallb P d = true -> forallb P (dict_set k v d) = true.
Proof.
  intros Hkv. induction d as [|[k' v'] d IH]; simpl.
  - now rewrite Hkv.
  - intros H. apply andb_true_iff in H as [H1 H2].
    destruct (str_eqb k' k) eqn:E; simpl.
    + apply str_eqb_eq in E. subst k'. now rewrite Hkv, H2.
    + now rewrite H1, IH.
Qed.

(** Decides the comparisons between field names by computation. *)
Ltac field_tests :=
  repeat match goal with
         | |- context [str_eqb ?a ?b] =>
             let r := eval vm_compute in (str_eqb a b) in
             match r with
             | true => change (str_eqb a b) with true
             | false => change (str_eqb a b) with false
             end
         end.

Section WithRepr.
Variable repr : pyval -> str.

Local Notation ensure_field := (ensure_field repr).
Local Notation clean_list := (clean_list repr).
Local Notation clean_terms := (clean_terms repr).
Local Notation validate_dict := (validate_dict repr).

(** A turn of the loop touches its own field only. *)
Lemma ensure_field_other (c : pydict) fd k :
  str_eqb (fst fd) k = false ->
  dict_get k (ensure_field c fd) = dict_get k c.
Proof.
  destruct fd as [f dflt]. simpl. intros Hk. unfold AISimplifier.ensure_field.
  destruct (dict_get f c) as [v|];
    repeat match goal with
           | |- context [if ?b then _ else _] => destruct b
           end;
    try reflexivity; now apply dict_get_set_other.
Qed.

Lemma ensure_field_self (c : pydict) f dflt :
  In (f, dflt) required_fields ->
  exists v, dict_get f (ensure_field c (f, dflt)) = Some v
            /\ container f v = true.
Proof.
  intros Hin. unfold AISimplifier.ensure_field, container.
  simpl in Hin.
  repeat (destruct Hin as [Hin|Hin];
          [ injection Hin as <- <-; field_tests;
            destruct (dict_get _ c) as [v|] eqn:E;
            [ destruct v; cbn [andb orb negb is_list is_dict];
              try destruct (truthy _);
              rewrite ?dict_get_set_same, ?E; eexists; split; reflexivity
            | rewrite dict_get_set_same; eexists; split; reflexivity ]
          | ]).
  contradiction.
Qed.

Lemma ensure_field_keeps (c : pydict) fd k v :
  dict_get k c = Some v -> container k v = true ->
  exists v', dict_get k (ensure_field c fd) = Some v'
             /\ container k v' = true.
Proof.
  intros Hget Hc. destruct (str_eqb (fst fd) k) eqn:E.
  - apply str_eqb_eq in E. destruct fd as [f dflt]. simpl in E. subst f.
    unfold AISimplifier.ensure_field. rewrite Hget.
    unfold container in Hc.
    destruct (str_eqb k KEY_POINTS) eqn:E1.
    { apply str_eqb_eq in E1. subst k. revert Hc. field_tests. intros Hc.
      rewrite Hc. cbn [andb orb negb]. rewrite Hget. exists v.
      split; [reflexivity|]. unfold container. field_tests. exact Hc. }
    destruct (str_eqb k IMPORTANT_TERMS) eqn:E2.
    { apply str_eqb_eq in E2. subst k. revert Hc. field_tests. intros Hc.
      rewrite Hc. cbn [andb orb negb]. rewrite Hget. exists v.
      split; [reflexivity|]. unfold container. field_tests. exact Hc. }
    destruct (str_eqb k SUMMARY) eqn:E3.
    { apply str_eqb_eq in E3. subst k. field_tests. cbn [andb orb negb].
      rewrite Hget. exists v. split; reflexivity. }
    rewrite Hc. cbn [andb negb]. rewrite andb_false_r. rewrite Hget.
    exists v. split; [reflexivity|]. unfold container. now rewrite E3, E2.
  - rewrite ensure_field_other by exact E. now exists v.
Qed.

Lemma ensure_fields_keep (fields : pydict) (c : pydict) k v :
  dict_get k c = Some v -> container k v = true ->
  exists v', dict_get k (fold_left ensure_field fields c) = Some v'
             /\ container k v' = true.
Proof.
  revert c v. induction fields as [|fd fields IH]; intros c v Hget Hc; simpl.
  - now exists v.
  - destruct (ensure_field_keeps c fd _ _ Hget Hc) as (v' & Hget' & Hc').
    eapply IH; eassumption.
Qed.

Lemma ensure_fields_from (fields : pydict) (c : pydict) f dflt :
  (forall fd, In fd fields -> In fd required_fields) ->
  In (f, dflt) fields ->
  exists v, dict_get f (fold_left ensure_field fields c) = Some v
            /\ container f v = true.
Proof.
  revert c. induction fields as [|fd fields IH]; intros c Hsub Hin;
    [contradiction|].
  simpl. destruct Hin as [->|Hin].
  - destruct (ensure_field_self c f dflt) as (v & Hget & Hc).
    { apply Hsub. now left. }
    eapply ensure_fields_keep; eassumption.
  - apply IH; [|exact Hin]. intros fd' H. apply Hsub. now right.
Qed.

(** After the loop each required field is present with its container. *)
Lemma ensure_fields_present (c : pydict) f dflt :
  In (f, dflt) required_fields ->
  exists v, dict_get f (fold_left ensure_field required_fields c) = Some v
            /\ container f v = true.
Proof. intros H. eapply ensure_fields_from; [auto|exact H]. Qed.

Lemma ensure_fields_list (c : pydict) f :
  In (f, PList []) required_fields ->
  exists l, dict_get f (fold_left ensure_field required_fields c)
            = Some (PList l).
Proof.
  intros Hin. destruct (ensure_fields_present c _ _ Hin) as (v & Hget & Hc).
  simpl in Hin.
  repeat (destruct Hin as [Hin|Hin];
          [ first [ discriminate Hin
                  | injection Hin as <-; cbn in Hc; destruct v;
                    try discriminate Hc; eexists; exact Hget ] | ]).
  contradiction.
Qed.

Lemma ensure_fields_dict (c : pydict) :
  exists d, dict_get IMPORTANT_TERMS (fold_left ensure_field required_fields c)
            = Some (PDict d).
Proof.
  destruct (ensure_fields_present c IMPORTANT_TERMS (PDict [])) as (v & Hget & Hc).
  { simpl. auto. }
  cbn in Hc. destruct v; try discriminate Hc. eexists; exact Hget.
Qed.

(** The pass returns on every dict, and what it returns is spelled out. *)
Lemma validate_dict_eq (d : pydict) :
  let c0 := fold_left ensure_field required_fields d in
  exists s kp dl w ns t,
    dict_get SUMMARY c0 = Some s
    /\ dict_get KEY_POINTS c0 = Some (PList kp)
    /\ dict_get DEADLINES_OBLIGATIONS c0 = Some (PList dl)
    /\ dict_get WARNINGS c0 = Some (PList w)
    /\ dict_get NEXT_STEPS c0 = Some (PList ns)
    /\ dict_get IMPORTANT_TERMS c0 = Some (PDict t)
    /\ validate_dict d
       = Return
           (dict_set IMPORTANT_TERMS (PDict (clean_terms t))
           (dict_set NEXT_STEPS (PList (clean_list ns))
           (dict_set WARNINGS (PList (clean_list w))
           (dict_set DEADLINES_OBLIGATIONS (PList (clean_list dl))
           (dict_set KEY_POINTS (PList (clean_list kp))
           (dict_set SUMMARY (PStr (strip (py_str repr s))) c0)))))).
Proof.
  intros c0.
  destruct (ensure_fields_present d SUMMARY (PStr [])) as (s & Hs & _);
    [simpl; auto|].
  destruct (ensure_fields_list d KEY_POINTS) as (kp & Hkp); [simpl; auto|].
  destruct (ensure_fields_list d DEADLINES_OBLIGATIONS) as (dl & Hdl);
    [simpl; auto 6|].
  destruct (ensure_fields_list d WARNINGS) as (w & Hw); [simpl; auto 6|].
  destruct (ensure_fields_list d NEXT_STEPS) as (ns & Hns); [simpl; auto 8|].
  destruct (ensure_fields_dict d) as (t & Ht).
  fold c0 in Hs, Hkp, Hdl, Hw, Hns, Ht.
  exists s, kp, dl, w, ns, t. repeat (split; [assumption|]).
  unfold AISimplifier.validate_dict, clean_list_field, getitem.
  fold c0. rewrite Hs. cbn [bind].
  rewrite dict_get_set_other, Hkp by reflexivity. cbn [bind as_list].
  rewrite !dict_get_set_other, Hdl by reflexivity. cbn [bind as_list].
  rewrite !dict_get_set_other, Hw by reflexivity. cbn [bind as_list].
  rewrite !dict_get_set_other, Hns by reflexivity. cbn [bind as_list].
  rewrite !dict_get_set_other, Ht by reflexivity. cbn [bind as_dict].
  reflexivity.
Qed.

Lemma clean_list_clean (l : list pyval) :
  forallb stripped_nonempty (clean_list l) = true.
Proof.
  unfold AISimplifier.clean_list.
  induction l as [|x l IH]; simpl; [reflexivity|].
  destruct (is_nil (strip (py_str repr x))) eqn:E; simpl; [exact IH|].
  now rewrite strip_idem, str_eqb_refl, E, IH.
Qed.

Lemma clean_terms_stripped (t : pydict) :
  stripped_dict (PDict (clean_terms t)) = true.
Proof.
  unfold stripped_dict, AISimplifier.clean_terms.
  match goal with
  | |- forallb ?P (fold_left ?step _ _) = true =>
      assert (G : forall (u acc : pydict),
                 forallb P acc = true -> forallb P (fold_left step u acc) = true)
  end.
  { induction u as [|[term definition] u IH]; intros acc Hacc; simpl;
      [exact Hacc|].
    apply IH.
    destruct (negb (is_nil term) && truthy definition); [|exact Hacc].
    apply forallb_dict_set; [|exact Hacc].
    simpl. now rewrite !strip_idem, !str_eqb_refl. }
  now apply G.
Qed.

(** Tier 1 on a dict: the pass returns, and its result is cleaned. *)
Lemma validate_dict_cleaned (d : pydict) :
  exists c, validate_dict d = Return c /\ cleaned c = true.
Proof.
  destruct (validate_dict_eq d) as (s & kp & dl & w & ns & t & _ & _ & _ & _ & _ & _ & H).
  eexists. split; [exact H|].
  unfold cleaned. rewrite !has_shape_set. field_tests.
  cbn [stripped clean_seq].
  now rewrite strip_idem, str_eqb_refl, !clean_list_clean, clean_terms_stripped.
Qed.

End WithRepr.

Lemma stripped_nonempty_is_str v : stripped_nonempty v = true -> is_str v = true.
Proof. destruct v; simpl; congruence. Qed.

Lemma has_shape_weaken (p q : pyval -> bool) c f :
  (forall v, p v = true -> q v = true) ->
  has_shape p c f = true -> has_shape q c f = true.
Proof. unfold has_shape. destruct (dict_get f c); auto. Qed.

Lemma clean_seq_str_list v : clean_seq v = true -> str_list v = true.
Proof.
  destruct v; simpl; try congruence.
  induction l as [|x l IH]; simpl; [reflexivity|].
  intros H. apply andb_true_iff in H as [H1 H2].
  now rewrite (stripped_nonempty_is_str _ H1), IH.
Qed.

Lemma stripped_dict_str_dict v : stripped_dict v = true -> str_dict v = true.
Proof.
  destruct v; simpl; try congruence.
  induction d as [|[k x] d IH]; simpl; [reflexivity|].
  intros H. apply andb_true_iff in H as [H1 H2].
  apply andb_true_iff in H1 as [_ H1].
  destruct x; simpl in H1; try discriminate. simpl. now apply IH.
Qed.

Lemma stripped_is_str v : stripped v = true -> is_str v = true.
Proof. destruct v; simpl; congruence. Qed.

(** A cleaned content has the six fields with their container types. *)
Lemma cleaned_well_shaped (c : pydict) :
  cleaned c = true -> well_shaped c = true.
Proof.
  unfold cleaned, well_shaped. intros H.
  repeat (apply andb_true_iff in H as [H ?]).
  repeat (apply andb_true_iff; split);
    eauto using has_shape_weaken, stripped_is_str, clean_seq_str_list,
                stripped_dict_str_dict.
Qed.

Lemma well_shaped_fields (c : pydict) :
  well_shaped c = true ->
  has_shape is_str c SUMMARY = true
  /\ has_shape str_list c KEY_POINTS = true
  /\ has_shape str_dict c IMPORTANT_TERMS = true
  /\ has_shape str_list c DEADLINES_OBLIGATIONS = true
  /\ has_shape str_list c WARNINGS = true
  /\ has_shape str_list c NEXT_STEPS = true.
Proof.
  unfold well_shaped. intros H.
  repeat (apply andb_true_iff in H as [H ?]). auto 10.
Qed.

(** An assignment keeps the shape when the value fits the field it is
    written to. *)
Lemma well_shaped_set k v (c : pydict) :
  well_shaped c = true ->
  (k = SUMMARY -> is_str v = true) ->
  (k = IMPORTANT_TERMS -> str_dict v = true) ->
  (k = KEY_POINTS \/ k = DEADLINES_OBLIGATIONS \/ k = WARNINGS
   \/ k = NEXT_STEPS -> str_list v = true) ->
  well_shaped (dict_set k v c) = true.
Proof.
  intros H Hs Ht Hl.
  apply well_shaped_fields in H as (H1 & H2 & H3 & H4 & H5 & H6).
  unfold well_shaped. rewrite !has_shape_set.
  repeat (apply andb_true_iff; split);
    match goal with
    | |- (if str_eqb k ?f then _ else _) = true =>
        destruct (str_eqb k f) eqn:E; [apply str_eqb_eq in E|assumption]
    end; auto 6.
Qed.

Lemma forallb_snoc {A} (p : A -> bool) l x :
  forallb p l = true -> p x = true -> forallb p (l ++ [x]) = true.
Proof.
  intros Hl Hx. rewrite forallb_app, Hl. simpl. now rewrite Hx.
Qed.

Lemma append_item_shape (c : pydict) s item c' :
  well_shaped c = true ->
  append_item c s item = Return c' -> well_shaped c' = true.
Proof.
  intros H. unfold append_item, getitem.
  destruct (dict_get s c) as [v|] eqn:E; cbn [bind]; [|discriminate].
  destruct v; try discriminate. intros R. injection R as <-.
  pose proof (well_shaped_fields _ H) as (H1 & H2 & H3 & H4 & H5 & H6).
  unfold has_shape in *.
  apply well_shaped_set; [exact H| | |].
  - intros ->. rewrite E in H1. discriminate.
  - intros ->. rewrite E in H3. discriminate.
  - intros [-> | [-> | [-> | ->]]]; simpl; apply forallb_snoc;
      try reflexivity.
    + now rewrite E in H2.
    + now rewrite E in H4.
    + now rewrite E in H5.
    + now rewrite E in H6.
Qed.

Lemma parse_line_shape st line st' :
  well_shaped (fst st) = true ->
  parse_line st line = Return st' -> well_shaped (fst st') = true.
Proof.
  destruct st as [c sec]. simpl fst. intros H. unfold parse_line.
  destruct (is_nil (strip line)); [intros R; injection R as <-; exact H|].
  destruct (detect_section _); [intros R; injection R as <-; exact H|].
  destruct (_ || _ || _).
  { destruct sec as [s|]; [|intros R; injection R as <-; exact H].
    destruct (negb (is_nil s) && negb (str_eqb s IMPORTANT_TERMS));
      [|intros R; injection R as <-; exact H].
    destruct (append_item c s _) as [c1|] eqn:E; cbn [bind]; [|discriminate].
    intros R. injection R as <-. simpl. eapply append_item_shape; eassumption. }
  destruct (is_section sec SUMMARY).
  { unfold getitem. destruct (dict_get SUMMARY c); cbn [bind]; [|discriminate].
    destruct (negb (truthy p)); intros R; injection R as <-; [|exact H].
    simpl. apply well_shaped_set; [exact H|reflexivity| |];
      intros E; repeat destruct E as [E|E]; discriminate E. }
  destruct (is_section sec IMPORTANT_TERMS && _);
    [|intros R; injection R as <-; exact H].
  destruct (split_once _ _) as [|term [|definition [|? ?]]];
    try (intros R; injection R as <-; exact H).
  unfold getitem. destruct (dict_get IMPORTANT_TERMS c) as [v|] eqn:E;
    cbn [bind]; [|discriminate].
  destruct v; try discriminate. cbn [bind as_dict].
  intros R. injection R as <-. simpl.
  apply well_shaped_set; [exact H| | |];
    try (intros X; repeat destruct X as [X|X]; discriminate X).
  intros _. simpl. apply forallb_dict_set; [reflexivity|].
  apply well_shaped_fields in H as (_ & _ & H3 & _).
  unfold has_shape in H3. now rewrite E in H3.
Qed.

Lemma parse_lines_shape lines st st' :
  well_shaped (fst st) = true ->
  parse_lines st lines = Return st' -> well_shaped (fst st') = true.
Proof.
  revert st. induction lines as [|line lines IH]; intros st H; simpl.
  - intros R. injection R as <-. exact H.
  - destruct (parse_line st line) as [st1|] eqn:E; cbn [bind]; [|discriminate].
    apply IH. eapply parse_line_shape; eassumption.
Qed.

(** Tier 2: what the heuristic parser returns has the six fields. *)
Lemma parse_text_response_shape text c :
  _parse_text_response text = Return c -> well_shaped c = true.
Proof.
  unfold _parse_text_response.
  destruct (parse_lines _ _) as [st|] eqn:E; cbn [bind]; [|discriminate].
  intros R. injection R as <-.
  eapply parse_lines_shape; [|exact E]. reflexivity.
Qed.

(** Tier 3: the fallback structure has the six fields. *)
Lemma fallback_shape text : well_shaped (_create_fallback_response text) = true.
Proof. reflexivity. Qed.

Section Normalizer.
Variable repr : pyval -> str.
Variable json_loads : str -> result pyval.

(** Whenever the normalizer returns, on any of its three tiers, the result
    has the six fields, each with its container type. *)
Theorem parse_ai_response_shape text c :
  _parse_ai_response repr json_loads text = Return c ->
  well_shaped c = true.
Proof.
  unfold _parse_ai_response, parse_ai_body.
  destruct (re_search_braces text) as [span|].
  - destruct (json_loads span) as [v|e]; cbn [bind].
    + destruct v; cbn [_validate_and_clean_content];
        try (intros R; injection R as <-; apply fallback_shape).
      destruct (validate_dict_cleaned repr d) as (c1 & -> & Hc).
      intros R. injection R as <-. now apply cleaned_well_shaped.
    + destruct e; try (intros R; injection R as <-; apply fallback_shape).
      apply parse_text_response_shape.
  - destruct (_parse_text_response text) as [c1|e] eqn:E.
    + intros R. injection R as <-. eapply parse_text_response_shape, E.
    + destruct e; try (intros R; injection R as <-; apply fallback_shape).
      discriminate.
Qed.

End Normalizer.

End NormalizerFacts.

(** ** The validation pass is idempotent on mappings without blank terms *)

Module IdempotenceFacts.
Import AISimplifier Shape PyFacts NormalizerFacts.

Lemma dict_set_fresh k v (d : pydict) :
  dict_get k d = None -> dict_set k v d = d ++ [(k, v)].
Proof.
  induction d as [|[k' v'] d IH]; simpl; [reflexivity|].
  destruct (str_eqb k' k); [discriminate|].
  intros H. now rewrite IH.
Qed.

Lemma dict_get_app_fresh k v (acc : pydict) k' :
  dict_get k acc = None -> str_eqb k k' = false ->
  dict_get k' acc = None -> dict_get k' (acc ++ [(k, v)]) = None.
Proof.
  intros _ Hk. induction acc as [|[k0 v0] acc IH]; simpl.
  - now rewrite Hk.
  - destruct (str_eqb k0 k'); [discriminate|exact IH].
Qed.

Lemma unique_keys_set k v (d : pydict) :
  unique_keys d -> unique_keys (dict_set k v d).
Proof.
  induction d as [|[k' v'] d IH]; simpl; [auto|].
  intros [Hk Hd]. destruct (str_eqb k' k) eqn:E; simpl.
  - auto.
  - split; [|auto].
    rewrite dict_get_set_other by (rewrite str_eqb_sym; exact E). exact Hk.
Qed.

Section WithRepr.
Variable repr : pyval -> str.

Lemma clean_terms_unique (t : pydict) : unique_keys (clean_terms repr t).
Proof.
  unfold clean_terms.
  assert (G : forall (u acc : pydict),
             unique_keys acc ->
             unique_keys
               (fold_left
                  (fun cleaned_terms td =>
                     let '(term, definition) := td in
                     if negb (is_nil term) && truthy definition
                     then dict_set (strip term)
                                   (PStr (strip (py_str repr definition)))
                                   cleaned_terms
                     else cleaned_terms) u acc)).
  { induction u as [|[term definition] u IH]; intros acc Hacc; simpl;
      [exact Hacc|].
    apply IH. destruct (negb (is_nil term) && truthy definition);
      [now apply unique_keys_set|exact Hacc]. }
  now apply G.
Qed.

(** A sequence of stripped, non-empty strings is left as it is. *)
Lemma clean_list_fixed (l : list pyval) :
  forallb stripped_nonempty l = true -> clean_list repr l = l.
Proof.
  unfold clean_list. induction l as [|x l IH]; simpl; [reflexivity|].
  intros H. apply andb_true_iff in H as [Hx Hl].
  destruct x; simpl in Hx; try discriminate.
  apply andb_true_iff in Hx as [Hs Hn]. apply str_eqb_eq in Hs.
  cbn [py_str]. rewrite Hs. rewrite Hn. simpl. rewrite Hs.
  now rewrite IH.
Qed.

(** A mapping of stripped strings with different keys and no empty key or
    value is rebuilt entry by entry. *)
Lemma clean_terms_fixed (t : pydict) :
  unique_keys t ->
  stripped_dict (PDict t) = true ->
  no_empty_entry (PDict t) = true ->
  clean_terms repr t = t.
Proof.
  unfold clean_terms, stripped_dict, no_empty_entry.
  assert (G : forall (u acc : pydict),
             unique_keys u ->
             (forall k v, In (k, v) u -> dict_get k acc = None) ->
             forallb (fun kv : str * pyval =>
                        str_eqb (strip (fst kv)) (fst kv) && stripped (snd kv))
                     u = true ->
             forallb (fun kv : str * pyval =>
                        negb (is_nil (fst kv)) && truthy (snd kv)) u = true ->
             fold_left
               (fun cleaned_terms td =>
                  let '(term, definition) := td in
                  if negb (is_nil term) && truthy definition
                  then dict_set (strip term)
                                (PStr (strip (py_str repr definition)))
                                cleaned_terms
                  else cleaned_terms) u acc
             = acc ++ u).
  { induction u as [|[term definition] u IH]; intros acc Hu Hacc Hs Hn;
      simpl; [now rewrite app_nil_r|].
    simpl in Hs, Hn, Hu. destruct Hu as [Hfresh Hu].
    apply andb_true_iff in Hs as [Hs1 Hs].
    apply andb_true_iff in Hn as [Hn1 Hn].
    rewrite Hn1.
    apply andb_true_iff in Hs1 as [Hk Hv]. apply str_eqb_eq in Hk.
    destruct definition; simpl in Hv; try discriminate.
    apply str_eqb_eq in Hv. cbn [py_str]. rewrite Hk, Hv.
    rewrite dict_set_fresh by (apply (Hacc term (PStr s)); now left).
    rewrite IH; [now rewrite <- app_assoc|exact Hu| |exact Hs|exact Hn].
    intros k v Hin.
    apply dict_get_app_fresh.
    - apply (Hacc term (PStr s)). now left.
    - destruct (str_eqb term k) eqn:E; [|reflexivity].
      apply str_eqb_eq in E. subst k. exfalso.
      clear - Hfresh Hin. induction u as [|[k0 v0] u IHu]; [contradiction|].
      simpl in Hfresh. destruct (str_eqb k0 term) eqn:E0; [discriminate|].
      destruct Hin as [Hin|Hin]; [|now apply IHu].
      injection Hin as -> ->. now rewrite str_eqb_refl in E0.
    - apply (Hacc k v). now right. }
  intros Hu Hs Hn. now apply (G t []).
Qed.

(** A turn of the loop leaves a content alone when the field is there with
    its container. *)
Lemma ensure_field_fixed (c : pydict) f dflt v :
  In (f, dflt) required_fields ->
  dict_get f c = Some v -> container f v = true ->
  ensure_field repr c (f, dflt) = c.
Proof.
  intros Hin Hget Hc. unfold ensure_field. rewrite Hget.
  unfold container in Hc. simpl in Hin.
  repeat (destruct Hin as [Hin|Hin];
          [ injection Hin as <- <-; revert Hc; field_tests; intros Hc;
            try rewrite Hc; reflexivity | ]).
  contradiction.
Qed.

Lemma has_shape_get sh (c : pydict) f :
  has_shape sh c f = true -> exists v, dict_get f c = Some v /\ sh v = true.
Proof.
  unfold has_shape. destruct (dict_get f c) as [v|]; [|discriminate].
  intros H. now exists v.
Qed.

(** A cleaned content whose mapping has different keys, none of them empty
    and none with an empty value, is a fixed point of the pass. *)
Lemma validate_dict_fixed (c : pydict) :
  cleaned c = true ->
  (forall t, dict_get IMPORTANT_TERMS c = Some (PDict t) ->
             unique_keys t /\ no_empty_entry (PDict t) = true) ->
  validate_dict repr c = Return c.
Proof.
  intros H Ht. unfold cleaned in H.
  apply andb_true_iff in H as [H H6]. apply andb_true_iff in H as [H H5].
  apply andb_true_iff in H as [H H4]. apply andb_true_iff in H as [H H3].
  apply andb_true_iff in H as [H1 H2].
  apply has_shape_get in H1 as (v1 & G1 & S1).
  apply has_shape_get in H2 as (v2 & G2 & S2).
  apply has_shape_get in H3 as (v3 & G3 & S3).
  apply has_shape_get in H4 as (v4 & G4 & S4).
  apply has_shape_get in H5 as (v5 & G5 & S5).
  apply has_shape_get in H6 as (v6 & G6 & S6).
  destruct v1 as [| | | |s| |]; try discriminate S1.
  destruct v2 as [| | | | |kp|]; try discriminate S2.
  destruct v3 as [| | | | | |t]; try discriminate S3.
  destruct v4 as [| | | | |dl|]; try discriminate S4.
  destruct v5 as [| | | | |w|]; try discriminate S5.
  destruct v6 as [| | | | |ns|]; try discriminate S6.
  cbn [stripped clean_seq] in S1, S2, S4, S5, S6.
  apply str_eqb_eq in S1.
  destruct (Ht t G3) as [Hu Hn].
  assert (E : fold_left (ensure_field repr) required_fields c = c).
  { cbn [fold_left required_fields].
    rewrite (ensure_field_fixed c SUMMARY (PStr []) (PStr s))
      by first [assumption|reflexivity|(simpl; auto 8)].
    rewrite (ensure_field_fixed c KEY_POINTS (PList []) (PList kp))
      by first [assumption|reflexivity|(simpl; auto 8)].
    rewrite (ensure_field_fixed c IMPORTANT_TERMS (PDict []) (PDict t))
      by first [assumption|reflexivity|(simpl; auto 8)].
    rewrite (ensure_field_fixed c DEADLINES_OBLIGATIONS (PList []) (PList dl))
      by first [assumption|reflexivity|(simpl; auto 8)].
    rewrite (ensure_field_fixed c WARNINGS (PList []) (PList w))
      by first [assumption|reflexivity|(simpl; auto 8)].
    apply (ensure_field_fixed c NEXT_STEPS (PList []) (PList ns));
      first [assumption|reflexivity|(simpl; auto 8)]. }
  unfold validate_dict, clean_list_field, getitem. rewrite E.
  rewrite G1. cbn [bind py_str]. rewrite S1.
  rewrite (dict_set_unchanged SUMMARY (PStr s) c G1).
  rewrite G2. cbn [bind as_list]. rewrite (clean_list_fixed kp S2).
  rewrite (dict_set_unchanged KEY_POINTS (PList kp) c G2).
  rewrite G4. cbn [bind as_list]. rewrite (clean_list_fixed dl S4).
  rewrite (dict_set_unchanged DEADLINES_OBLIGATIONS (PList dl) c G4).
  rewrite G5. cbn [bind as_list]. rewrite (clean_list_fixed w S5).
  rewrite (dict_set_unchanged WARNINGS (PList w) c G5).
  rewrite G6. cbn [bind as_list]. rewrite (clean_list_fixed ns S6).
  rewrite (dict_set_unchanged NEXT_STEPS (PList ns) c G6).
  rewrite G3. cbn [bind as_dict].
  rewrite (clean_terms_fixed t Hu S3 Hn).
  now rewrite (dict_set_unchanged IMPORTANT_TERMS (PDict t) c G3).
Qed.

(** The pass applied to its own output changes nothing, provided the
    mapping it produced has no entry with an empty key or value. *)
Theorem validate_idempotent_unless_blank (content : pyval) (once : pydict) :
  _validate_and_clean_content repr content = Return once ->
  has_shape no_empty_entry once IMPORTANT_TERMS = true ->
  _validate_and_clean_content repr (PDict once) = Return once.
Proof.
  destruct content; try discriminate. cbn [_validate_and_clean_content].
  intros H Hn.
  destruct (validate_dict_cleaned repr d) as (c & Hc & Hcl).
  rewrite Hc in H. injection H as ->.
  apply validate_dict_fixed; [exact Hcl|].
  intros t Hget.
  destruct (validate_dict_eq repr d)
    as (s & kp & dl & w & ns & t0 & _ & _ & _ & _ & _ & _ & Hv).
  rewrite Hc in Hv. injection Hv as ->.
  rewrite dict_get_set_same in Hget. injection Hget as <-.
  split; [apply clean_terms_unique|].
  unfold has_shape in Hn. now rewrite dict_get_set_same in Hn.
Qed.

End WithRepr.

End IdempotenceFacts.

(** ** The response normalizer: claims *)

Module NormalizerClaims.
Import AISimplifier Shape Fixtures PyFacts NormalizerFacts.

(** C1 (fails on the code).  The claim: for every raw reply the normalizer
    returns, without raising, a structure with the six fields.  On the reply
    [reply_bad_json_then_bullet] the brace span is not JSON, so the
    [JSONDecodeError] handler calls the text parser; the bullet that follows
    the summary heading makes it call [append] on the summary string, and
    the [AttributeError] raised inside the handler leaves
    [_parse_ai_response]. *)
Theorem parse_ai_response_raises_from_handler
  (repr : pyval -> str) (json_loads : str -> result pyval) :
  json_loads (lit "{x}") = Raise JSONDecodeError ->
  _parse_ai_response repr json_loads reply_bad_json_then_bullet
  = Raise AttributeError.
Proof.
  intros H. unfold _parse_ai_response, parse_ai_body.
  replace (re_search_braces reply_bad_json_then_bullet)
    with (Some (lit "{x}")) by (vm_compute; reflexivity).
  rewrite H. cbn [bind]. vm_compute. reflexivity.
Qed.

Lemma parse_ai_response_raises_from_handler_witness :
  _parse_ai_response no_repr decode_error reply_bad_json_then_bullet
  = Raise AttributeError.
Proof.
  apply parse_ai_response_raises_from_handler. reflexivity.
Defined.

(** C4 (fails on the code).  The claim: the validation pass is idempotent.
    On [content_blank_definition] the first pass keeps the term, whose
    definition is a blank and so truthy, and stores it stripped, that is
    empty; the second pass finds the definition empty and drops the term. *)
Theorem validate_twice_differs (repr : pyval -> str) :
  exists once twice,
    _validate_and_clean_content repr content_blank_definition = Return once
    /\ _validate_and_clean_content repr (PDict once) = Return twice
    /\ dict_get IMPORTANT_TERMS once = Some (PDict [(lit "Lessee", PStr [])])
    /\ dict_get IMPORTANT_TERMS twice = Some (PDict [])
    /\ twice <> once.
Proof.
  eexists. eexists.
  split; [vm_compute; reflexivity|].
  split; [vm_compute; reflexivity|].
  split; [reflexivity|]. split; [reflexivity|]. discriminate.
Qed.

(** C5, as stated, is false: the reply [reply_empty_bullet] is handled by
    tier 2 and comes back with an empty string in [key_points], which the
    validation pass would remove. *)
Lemma tier2_result_is_not_a_fixed_point :
  ~ (forall (repr : pyval -> str) (json_loads : str -> result pyval) text c,
        tier1 json_loads text \/ tier2 json_loads text ->
        _parse_ai_response repr json_loads text = Return c ->
        _validate_and_clean_content repr (PDict c) = Return c).
Proof.
  intros H.
  assert (Hfix := H no_repr decode_error reply_empty_bullet
                    (dict_set KEY_POINTS (PList [PStr []]) required_fields)
                    (or_intror (or_introl eq_refl)) eq_refl).
  vm_compute in Hfix. discriminate Hfix.
Qed.

(** C5 (amended).  A reply handled by tier 1 is returned after the
    validation pass has run on the decoded object: the result is the output
    of the pass, with a stripped summary, four sequences of stripped
    non-empty strings and a mapping of stripped strings.  A reply handled by
    tier 2 is returned as the text parser built it, the pass does not
    run. *)
Theorem validation_pass_runs_after_tier1
  (repr : pyval -> str) (json_loads : str -> result pyval) (text : str) :
  (tier1 json_loads text ->
   exists span d c,
     re_search_braces text = Some span
     /\ json_loads span = Return (PDict d)
     /\ _validate_and_clean_content repr (PDict d) = Return c
     /\ _parse_ai_response repr json_loads text = Return c
     /\ cleaned c = true)
  /\ (tier2 json_loads text ->
      forall c, _parse_text_response text = Return c ->
                _parse_ai_response repr json_loads text = Return c).
Proof.
  split.
  - intros (span & d & Hs & Hj).
    destruct (validate_dict_cleaned repr d) as (c & Hv & Hc).
    exists span, d, c. repeat (split; [assumption|]).
    split; [|exact Hc].
    unfold _parse_ai_response, parse_ai_body. rewrite Hs, Hj. cbn [bind].
    cbn [_validate_and_clean_content]. now rewrite Hv.
  - intros [Hn|(span & Hs & Hj)] c Hc;
      unfold _parse_ai_response, parse_ai_body.
    + now rewrite Hn, Hc.
    + rewrite Hs, Hj. cbn [bind]. exact Hc.
Qed.

Lemma validation_pass_runs_after_tier1_witness :
  (exists c,
      _parse_ai_response no_repr decode_short_summary (lit "{}") = Return c
      /\ cleaned c = true)
  /\ _parse_ai_response no_repr decode_error reply_next_steps
     = Return (dict_set NEXT_STEPS (PList [PStr (lit "Consult a lawyer")])
                        required_fields).
Proof.
  split.
  - destruct (proj1 (validation_pass_runs_after_tier1
                       no_repr decode_short_summary (lit "{}")))
      as (span & d & c & _ & _ & _ & Hr & Hc).
    + exists (lit "{}"), [(SUMMARY, PStr (lit " Short. "))].
      split; reflexivity.
    + exists c. split; assumption.
  - apply (proj2 (validation_pass_runs_after_tier1
                    no_repr decode_error reply_next_steps)).
    + left. reflexivity.
    + reflexivity.
Defined.

End NormalizerClaims.

(** ** The quality estimators: claims *)

Module EstimatorFacts.
Import AISimplifier Shape PyFacts NormalizerFacts.

Lemma is_rich_summary (c : pydict) :
  has_shape is_str c SUMMARY = true ->
  is_rich c SUMMARY 50 = Return (rich_summary c).
Proof.
  unfold has_shape, is_rich, rich_summary, getitem.
  destruct (dict_get SUMMARY c) as [v|]; [|discriminate].
  destruct v; try discriminate. intros _.
  destruct s; reflexivity.
Qed.

Lemma is_rich_list (c : pydict) f :
  has_shape str_list c f = true ->
  is_rich c f 0 = Return (non_empty c f).
Proof.
  unfold has_shape, is_rich, non_empty, getitem.
  destruct (dict_get f c) as [v|]; [|discriminate].
  destruct v; try discriminate. intros _.
  destruct l; reflexivity.
Qed.

Lemma is_rich_dict (c : pydict) f :
  has_shape str_dict c f = true ->
  is_rich c f 0 = Return (non_empty c f).
Proof.
  unfold has_shape, is_rich, non_empty, getitem.
  destruct (dict_get f c) as [v|]; [|discriminate].
  destruct v; try discriminate. intros _.
  destruct d; reflexivity.
Qed.

(** On a structured content the handler of the score is never entered and
    the score is the sum the four tests select. *)
Lemma confidence_score_eq original_text (c : pydict) :
  well_shaped c = true ->
  _calculate_confidence_score original_text c
  = confidence_formula (rich_summary c) (non_empty c KEY_POINTS)
                       (non_empty c IMPORTANT_TERMS) (non_empty c NEXT_STEPS).
Proof.
  intros H. apply well_shaped_fields in H as (H1 & H2 & H3 & _ & _ & H6).
  unfold _calculate_confidence_score, confidence_body.
  rewrite (is_rich_summary _ H1). cbn [bind].
  rewrite (is_rich_list _ _ H2). cbn [bind].
  rewrite (is_rich_dict _ _ H3). cbn [bind].
  rewrite (is_rich_list _ _ H6). cbn [bind].
  destruct (rich_summary c), (non_empty c KEY_POINTS),
    (non_empty c IMPORTANT_TERMS), (non_empty c NEXT_STEPS);
    vm_compute; reflexivity.
Qed.

Lemma formula_range s k t n :
  (0 <=? confidence_formula s k t n)%float = true
  /\ (confidence_formula s k t n <=? 1)%float = true.
Proof. destruct s, k, t, n; split; vm_compute; reflexivity. Qed.

Lemma formula_monotone s k t n s' k' t' n' :
  (s = true -> s' = true) -> (k = true -> k' = true) ->
  (t = true -> t' = true) -> (n = true -> n' = true) ->
  (confidence_formula s k t n <=? confidence_formula s' k' t' n')%float = true.
Proof.
  intros Hs Hk Ht Hn.
  destruct s, s'; try (specialize (Hs eq_refl); discriminate Hs);
  destruct k, k'; try (specialize (Hk eq_refl); discriminate Hk);
  destruct t, t'; try (specialize (Ht eq_refl); discriminate Ht);
  destruct n, n'; try (specialize (Hn eq_refl); discriminate Hn);
  vm_compute; reflexivity.
Qed.

End EstimatorFacts.

Module EstimatorClaims.
Import AISimplifier Shape PyFacts NormalizerFacts EstimatorFacts.

(** C6.  For every structured content the confidence score equals
    min(1.0, 0.5 + 0.2.[summary longer than 50] + 0.1.[key_points not empty]
    + 0.1.[important_terms not empty] + 0.1.[next_steps not empty]); it lies
    between 0 and 1, and it does not decrease when more of the four tests
    hold. *)
Theorem confidence_score_formula original_text (content : pydict) :
  well_shaped content = true ->
  let score := _calculate_confidence_score original_text content in
  score = confidence_formula (rich_summary content)
                             (non_empty content KEY_POINTS)
                             (non_empty content IMPORTANT_TERMS)
                             (non_empty content NEXT_STEPS)
  /\ (0 <=? score)%float = true
  /\ (score <=? 1)%float = true
  /\ forall original_text' (content' : pydict),
       well_shaped content' = true ->
       (rich_summary content = true -> rich_summary content' = true) ->
       (non_empty content KEY_POINTS = true ->
        non_empty content' KEY_POINTS = true) ->
       (non_empty content IMPORTANT_TERMS = true ->
        non_empty content' IMPORTANT_TERMS = true) ->
       (non_empty content NEXT_STEPS = true ->
        non_empty content' NEXT_STEPS = true) ->
       (score <=? _calculate_confidence_score original_text' content')%float
       = true.
Proof.
  intros H score. subst score.
  rewrite (confidence_score_eq original_text _ H).
  split; [reflexivity|]. split; [apply formula_range|].
  split; [apply formula_range|].
  intros o' c' H' Hs Hk Ht Hn.
  rewrite (confidence_score_eq o' _ H').
  now apply formula_monotone.
Qed.

End EstimatorClaims.

(** ** The reading level: claims *)

Module ReadingLevelFacts.
Import AISimplifier Shape PyFacts ReadingMeasures.


Lemma re_split_from_not_nil cur in_run s : re_split_from cur in_run s <> [].
Proof.
  revert cur in_run. induction s as [|c s IH]; intros cur in_run; simpl.
  - discriminate.
  - destruct (is_terminator c); [destruct in_run|]; try apply IH.
    discriminate.
Qed.

(** [re.split] returns at least one piece. *)
Lemma sentences_not_nil text : is_nil (re_split_sentences text) = false.
Proof.
  unfold re_split_sentences.
  destruct (re_split_from [] false text) eqn:E; [|reflexivity].
  now apply re_split_from_not_nil in E.
Qed.



















End ReadingLevelFacts.

Module ReadingLevelClaims.
Import AISimplifier Shape PyFacts ReadingMeasures ReadingLevelFacts.


End ReadingLevelClaims.

(** ** The model call: claims *)

Module ServiceClaims.
Import AISimplifier Shape PyFacts.

Section Service.
Variable repr : pyval -> str.
Variable json_loads : str -> result pyval.
Variable generate_content : str -> result (option str).
Variable _preprocess_text : str -> str.
Variable _create_simplification_prompt : str -> str -> str -> str.
Variable question_prompt : str -> str -> str -> str.
Variable utcnow_isoformat : str.

Local Notation simplify :=
  (simplify_document repr json_loads generate_content _preprocess_text
                     _create_simplification_prompt utcnow_isoformat).
Local Notation answer :=
  (answer_question generate_content _preprocess_text question_prompt).

(** The normalizer is called at most once, on the text the model
    returned, and that text is not empty. *)
Lemma simplify_document_calls text level audience :
  let prompt :=
    _create_simplification_prompt (_preprocess_text text) level audience in
  match generate_content prompt with
  | Return (Some reply) =>
      if is_nil reply
      then simplify text level audience
           = ([GenerateContent prompt], Raise NO_CONTENT)
      else fst (simplify text level audience)
           = [GenerateContent prompt; ParseAIResponse reply]
  | Return None =>
      simplify text level audience
      = ([GenerateContent prompt], Raise NO_CONTENT)
  | Raise e =>
      simplify text level audience = ([GenerateContent prompt], Raise e)
  end.
Proof.
  intros prompt. unfold simplify_document, _generate_simplified_content.
  fold prompt.
  destruct (generate_content prompt) as [[reply|]|e]; try reflexivity.
  destruct reply as [|c reply]; [reflexivity|].
  cbn [is_nil negb tbind emit tret lift app fst].
  destruct (_parse_ai_response repr json_loads (c :: reply)); reflexivity.
Qed.

(** C9.  When the model returns an empty or absent text,
    [simplify_document] raises to its caller after the single call to the
    model, and the normalizer is not called; whenever the normalizer is
    called, it is on the reply of the model, which is not empty. *)
Theorem empty_reply_raises_before_normalizer text level audience :
  let prompt :=
    _create_simplification_prompt (_preprocess_text text) level audience in
  (generate_content prompt = Return None
   \/ generate_content prompt = Return (Some []) ->
   simplify text level audience = ([GenerateContent prompt], Raise NO_CONTENT))
  /\ forall reply,
       In (ParseAIResponse reply) (fst (simplify text level audience)) ->
       reply <> [] /\ generate_content prompt = Return (Some reply).
Proof.
  intros prompt.
  pose proof (simplify_document_calls text level audience) as H.
  cbv zeta in H. fold prompt in H. split.
  - intros [E|E]; rewrite E in H; exact H.
  - intros reply Hin.
    destruct (generate_content prompt) as [[r|]|e].
    + destruct r as [|c r]; cbn [is_nil] in H; rewrite H in Hin; simpl in Hin.
      * destruct Hin as [Hin|[]]. discriminate Hin.
      * destruct Hin as [Hin|[Hin|[]]]; [discriminate Hin|].
        injection Hin as <-. split; [discriminate|reflexivity].
    + rewrite H in Hin. simpl in Hin. destruct Hin as [Hin|[]].
      discriminate Hin.
    + rewrite H in Hin. simpl in Hin. destruct Hin as [Hin|[]].
      discriminate Hin.
Qed.

(** C10.  [answer_question] never raises: it returns a mapping with the two
    keys "answer" and "confidence_score"; the score is 0.7 when the model
    replied and the stripped reply is not empty, and 0.3 otherwise, with the
    apology as answer when the model call failed. *)
Theorem answer_question_never_raises document_text question target_audience :
  let prompt :=
    question_prompt target_audience (_preprocess_text document_text) question in
  exists answer_text score,
    snd (answer document_text question target_audience)
    = Return [ (lit "answer", PStr answer_text);
               (lit "confidence_score", PFloat score) ]
    /\ match generate_content prompt with
       | Return (Some (c :: reply)) =>
           answer_text = strip (c :: reply)
           /\ score = if is_nil (strip (c :: reply))
                      then 0.3%float else 0.7%float
       | _ => answer_text = APOLOGY /\ score = 0.3%float
       end.
Proof.
  intros prompt. unfold answer_question, _generate_simplified_content.
  fold prompt.
  destruct (generate_content prompt) as [[[|c reply]|]|e];
    try (exists APOLOGY, 0.3%float; split; [reflexivity|split; reflexivity]).
  exists (strip (c :: reply)),
    (if is_nil (strip (c :: reply)) then 0.3%float else 0.7%float).
  split; [|split; reflexivity].
  cbn [is_nil negb tbind emit tret tcatch app snd].
  destruct (strip (c :: reply)); reflexivity.
Qed.

End Service.

End ServiceClaims.

(** ** The extraction dispatcher: claims *)

Module DispatcherClaims.
Import DocumentProcessor PyFacts.

(** [text and len(text.strip()) > n] is the test on the trimmed length
    alone: a text above the minimum is not empty. *)
Lemma clears_iff n t : clears n (Some t) = true <-> (n < length (strip t))%nat.
Proof.
  unfold clears. rewrite andb_true_iff, Nat.ltb_lt. split; [tauto|].
  intros H. split; [|exact H]. destruct t; [simpl in H; lia|reflexivity].
Qed.

Section Processor.
Variable documentai_client : bool.
Variable vision_client : bool.
Variable storage_download : str -> result (option bytes).
Variable pdfplumber_pages : bytes -> result (list (option str)).
Variable pypdf2_pages : bytes -> result (list (option str)).
Variable docx_open : bytes -> result docx.
Variable vision_text_detection : bytes -> result (list str).
Variable tesseract_image_to_string : bytes -> result str.
Variable decode_utf8_ignore : bytes -> str.

Local Notation by_type :=
  (extract_by_type documentai_client vision_client pdfplumber_pages
     pypdf2_pages docx_open vision_text_detection tesseract_image_to_string
     decode_utf8_ignore).
Local Notation strategies :=
  (strategies_of documentai_client vision_client pdfplumber_pages
     pypdf2_pages docx_open vision_text_detection tesseract_image_to_string
     decode_utf8_ignore).
Local Notation extract :=
  (extract_text documentai_client vision_client storage_download
     pdfplumber_pages pypdf2_pages docx_open vision_text_detection
     tesseract_image_to_string decode_utf8_ignore).
Local Notation image_text :=
  (_extract_image_text vision_client vision_text_detection
     tesseract_image_to_string).
Local Notation pdf_text :=
  (_extract_pdf_text documentai_client pdfplumber_pages pypdf2_pages).
Local Notation download := (_download_document storage_download).

Lemma by_type_first_accepted file_type content :
  by_type file_type content = first_accepted (strategies file_type content).
Proof.
  destruct file_type; try reflexivity.
  - unfold extract_by_type, strategies_of, _extract_pdf_text.
    destruct documentai_client; cbn [andb clears _extract_pdf_with_documentai
                                       app first_accepted passes];
      destruct (clears 100 (_extract_pdf_with_pdfplumber _ _));
      try reflexivity;
      destruct (clears 100 (_extract_pdf_with_pypdf2 _ _)); reflexivity.
  - unfold extract_by_type, strategies_of, _extract_image_text.
    destruct vision_client; cbn [andb app first_accepted passes];
      [destruct (clears 10 _)|]; reflexivity.
Qed.

(** C2 (amended).  Once the document is downloaded, [extract_text] tries the
    strategies of its type in their fixed order and returns the first result
    its rule accepts, without running the strategies after it.  The rule is
    a trimmed length above 100 for the parsers of a PDF (exactly 100 is
    rejected) and above 10 for the cloud OCR of an image; the last strategy
    of each type is returned unchecked.  For a PDF whose first parser is
    rejected and whose second parser is accepted, the result is the second
    parser's output. *)
Theorem extract_text_tries_in_order document_id file_type storage_path content :
  download storage_path = Some content -> content <> [] ->
  extract document_id file_type storage_path
  = first_accepted (strategies file_type content)
  /\ (file_type = PDF -> documentai_client = false ->
      clears 100 (_extract_pdf_with_pdfplumber pdfplumber_pages content) = false ->
      clears 100 (_extract_pdf_with_pypdf2 pypdf2_pages content) = true ->
      extract document_id file_type storage_path
      = ([PdfPlumber; PyPDF2], _extract_pdf_with_pypdf2 pypdf2_pages content))
  /\ (forall t, length (strip t) = 100%nat ->
                passes (LongerThan 100) (Some t) = false).
Proof.
  intros Hd Hne.
  assert (E : extract document_id file_type storage_path
              = by_type file_type content).
  { unfold extract_text. rewrite Hd. destruct content; [contradiction|].
    reflexivity. }
  rewrite E. split; [apply by_type_first_accepted|]. split.
  - intros -> Hc H1 H2. unfold extract_by_type, _extract_pdf_text.
    rewrite Hc, H1, H2. reflexivity.
  - intros t Ht. simpl. rewrite Ht. apply andb_false_r.
Qed.

(** Once the bytes are there, [extract_text] is the extractor of the file
    type. *)
Lemma extract_after_download document_id file_type storage_path content :
  download storage_path = Some content -> content <> [] ->
  extract document_id file_type storage_path = by_type file_type content.
Proof.
  intros Hd Hne. unfold extract_text. rewrite Hd.
  destruct content; [contradiction|reflexivity].
Qed.

(** C3 (amended).  [extract_text] returns the failure signal [None] when the
    download fails or brings no bytes, when python-docx fails on a DOC or
    DOCX file, when the cloud OCR of an image is not accepted and Tesseract
    fails, and when no parser of a PDF clears the threshold; on a PDF it
    returns the text of the first parser that clears it, so [None] or a
    text whose trimmed length is above 100, never the empty string.  On the
    DOC/DOCX, IMAGE and TEXT paths the string of the last strategy is
    returned unchecked, whatever its length: the joined parts of the Word
    document, which is the empty string for a document without paragraphs
    and tables, the trimmed string Tesseract read, and the decoded bytes. *)
Theorem extract_text_failure_signal document_id file_type storage_path :
  (download storage_path = None \/ download storage_path = Some [] ->
   extract document_id file_type storage_path = ([], None))
  /\ (file_type = PDF ->
      snd (extract document_id file_type storage_path) = None
      \/ exists t, snd (extract document_id file_type storage_path) = Some t
                   /\ (100 < length (strip t))%nat)
  /\ (file_type = PDF ->
      snd (extract document_id file_type storage_path) <> Some [])
  /\ (forall content e,
        download storage_path = Some content ->
        (file_type = DOC \/ file_type = DOCX) ->
        docx_open content = Raise e ->
        snd (extract document_id file_type storage_path) = None)
  /\ (forall content e,
        download storage_path = Some content ->
        file_type = IMAGE ->
        clears 10 (_extract_with_google_vision vision_text_detection content)
        = false ->
        tesseract_image_to_string content = Raise e ->
        snd (extract document_id file_type storage_path) = None)
  /\ (forall content,
        download storage_path = Some content -> content <> [] ->
        file_type = PDF ->
        let plumber := _extract_pdf_with_pdfplumber pdfplumber_pages content in
        let pypdf2 := _extract_pdf_with_pypdf2 pypdf2_pages content in
        snd (extract document_id file_type storage_path)
        = if clears 100 plumber then plumber
          else if clears 100 pypdf2 then pypdf2
          else None)
  /\ (forall content,
        download storage_path = Some content -> content <> [] ->
        (file_type = DOC \/ file_type = DOCX) ->
        extract document_id file_type storage_path
        = ([PythonDocx], _extract_docx_text docx_open content)
        /\ forall doc,
             docx_open content = Return doc ->
             snd (extract document_id file_type storage_path)
             = Some (join PARAGRAPH_BREAK
                       (filter (fun text => negb (is_nil (strip text)))
                               (paragraphs doc)
                        ++ flat_map (fun table => flat_map row_parts table)
                                    (tables doc)))
             /\ (paragraphs doc = [] -> tables doc = [] ->
                 snd (extract document_id file_type storage_path) = Some []))
  /\ (forall content,
        download storage_path = Some content -> content <> [] ->
        file_type = IMAGE ->
        vision_client
        && clears 10 (_extract_with_google_vision vision_text_detection content)
        = false ->
        snd (extract document_id file_type storage_path)
        = _extract_with_tesseract tesseract_image_to_string content
        /\ forall text,
             tesseract_image_to_string content = Return text ->
             snd (extract document_id file_type storage_path)
             = Some (strip text))
  /\ (forall content,
        download storage_path = Some content -> content <> [] ->
        file_type = TEXT ->
        extract document_id file_type storage_path
        = ([Utf8Decode], Some (decode_utf8_ignore content))).
Proof.
  assert (P : forall content,
             snd (pdf_text content) = None
             \/ exists t, snd (pdf_text content) = Some t
                          /\ (100 < length (strip t))%nat).
  { intros content. unfold _extract_pdf_text.
    cbn [_extract_pdf_with_documentai clears andb].
    rewrite andb_false_r.
    destruct (clears 100 (_extract_pdf_with_pdfplumber _ _)) eqn:E1.
    - right. destruct (_extract_pdf_with_pdfplumber _ _) as [t|];
        [|discriminate E1].
      exists t. split; [reflexivity|now apply clears_iff].
    - destruct (clears 100 (_extract_pdf_with_pypdf2 _ _)) eqn:E2.
      + right. destruct (_extract_pdf_with_pypdf2 _ _) as [t|];
          [|discriminate E2].
        exists t. split; [reflexivity|now apply clears_iff].
      + left. reflexivity. }
  assert (Q : file_type = PDF ->
              snd (extract document_id file_type storage_path) = None
              \/ exists t, snd (extract document_id file_type storage_path) = Some t
                           /\ (100 < length (strip t))%nat).
  { intros ->. unfold extract_text.
    destruct (download storage_path) as [[|b content]|]; [now left| |now left].
    apply P. }
  split.
  { intros [E|E]; unfold extract_text; now rewrite E. }
  split; [exact Q|]. split.
  { intros Hpdf. destruct (Q Hpdf) as [E|(t & E & Ht)]; rewrite E.
    - discriminate.
    - intros X. injection X as ->. simpl in Ht. lia. }
  split.
  { intros content e Hd Hft He. unfold extract_text. rewrite Hd.
    destruct content; [reflexivity|].
    destruct Hft as [-> | ->]; cbn [is_nil extract_by_type snd];
      unfold _extract_docx_text; now rewrite He. }
  split.
  { intros content e Hd -> Hv He. unfold extract_text. rewrite Hd.
    destruct content; [reflexivity|].
    cbn [is_nil extract_by_type]. unfold _extract_image_text.
    rewrite Hv, andb_false_r. cbn [snd].
    unfold _extract_with_tesseract. now rewrite He. }
  split.
  { intros content Hd Hne Hft plumber pypdf2.
    rewrite (extract_after_download _ _ _ _ Hd Hne), Hft.
    unfold extract_by_type, _extract_pdf_text.
    cbn [_extract_pdf_with_documentai clears andb].
    rewrite andb_false_r. fold plumber pypdf2.
    destruct (clears 100 plumber); [reflexivity|].
    destruct (clears 100 pypdf2); reflexivity. }
  split.
  { intros content Hd Hne Hft.
    rewrite (extract_after_download _ _ _ _ Hd Hne).
    assert (E : by_type file_type content
                = ([PythonDocx], _extract_docx_text docx_open content)).
    { destruct Hft as [-> | ->]; reflexivity. }
    rewrite E. split; [reflexivity|].
    intros doc Hdoc. cbn [snd]. unfold _extract_docx_text. rewrite Hdoc.
    split; [reflexivity|]. intros -> ->. reflexivity. }
  split.
  { intros content Hd Hne Hft Hv.
    rewrite (extract_after_download _ _ _ _ Hd Hne), Hft.
    unfold extract_by_type, _extract_image_text. rewrite Hv. cbn [snd].
    split; [reflexivity|].
    intros text Ht. unfold _extract_with_tesseract. now rewrite Ht. }
  intros content Hd Hne Hft.
  rewrite (extract_after_download _ _ _ _ Hd Hne), Hft. reflexivity.
Qed.

(** C8 (amended).  In image extraction the cloud result is returned, and
    Tesseract is not run, exactly when the Vision client is there and the
    trimmed cloud text is longer than 10 characters; otherwise Tesseract
    runs and its result is returned.  A cloud text of exactly 10 trimmed
    characters is not accepted. *)
Theorem cloud_ocr_accepted_above_ten image_content :
  let text := _extract_with_google_vision vision_text_detection image_content in
  (vision_client = true /\ clears 10 text = true ->
   image_text image_content = ([GoogleVision], text))
  /\ (~ (vision_client = true /\ clears 10 text = true) ->
      In Tesseract (fst (image_text image_content))
      /\ snd (image_text image_content)
         = _extract_with_tesseract tesseract_image_to_string image_content)
  /\ (forall t, clears 10 (Some t) = true <-> (10 < length (strip t))%nat)
  /\ (forall t, length (strip t) = 10%nat -> clears 10 (Some t) = false).
Proof.
  intros text. unfold _extract_image_text. fold text. split.
  - intros [-> ->]. reflexivity.
  - split.
    + intros H. destruct vision_client; cbn [andb].
      * destruct (clears 10 text); [exfalso; apply H; now split|].
        split; [simpl; auto|reflexivity].
      * split; [simpl; auto|reflexivity].
    + split; [intros t; apply clears_iff|].
      intros t Ht. simpl. rewrite Ht. apply andb_false_r.
Qed.

End Processor.

End DispatcherClaims.

(** ** Worked examples: the claims at concrete inputs *)

Module ClaimExamples.
Import AISimplifier DocumentProcessor Shape Fixtures PyFacts ReadingMeasures.
Import EstimatorClaims ReadingLevelClaims ServiceClaims DispatcherClaims.

Lemma confidence_score_formula_witness :
  let score := _calculate_confidence_score [] content_short in
  score = 0.6%float
  /\ (0 <=? score)%float = true /\ (score <=? 1)%float = true.
Proof.
  destruct (confidence_score_formula [] content_short eq_refl)
    as (H1 & H2 & H3 & _).
  split; [|split; assumption].
  rewrite H1. reflexivity.
Defined.



Lemma empty_reply_raises_before_normalizer_witness :
  simplify_document no_repr decode_error model_silent same_text
                    prompt_is_text [] (lit "lease") (lit "standard")
                    (lit "general_public")
  = ([GenerateContent (lit "lease")], Raise NO_CONTENT)
  /\ (In (ParseAIResponse (lit "ok"))
         (fst (simplify_document no_repr decode_error model_says_ok same_text
                                 prompt_is_text [] (lit "lease")
                                 (lit "standard") (lit "general_public"))) ->
      lit "ok" <> []
      /\ model_says_ok (lit "lease") = Return (Some (lit "ok"))).
Proof.
  split.
  - apply (proj1 (empty_reply_raises_before_normalizer
                    no_repr decode_error model_silent same_text prompt_is_text
                    [] (lit "lease") (lit "standard") (lit "general_public"))).
    right. reflexivity.
  - apply (proj2 (empty_reply_raises_before_normalizer
                    no_repr decode_error model_says_ok same_text prompt_is_text
                    [] (lit "lease") (lit "standard") (lit "general_public"))).
Defined.

(** C2, as stated, is false: on an image whose cloud result has 50 trimmed
    characters and whose local result has 200, the first result is
    returned and Tesseract is not run, while one rule of 100 characters for
    all strategies, in either reading, selects the second. *)
Lemma image_short_first_result_is_returned :
  let run :=
    extract_text false true storage_one_byte no_pages no_pages empty_docx
                 (vision_sees fifty) (tesseract_reads two_hundred)
                 decode_nothing [] IMAGE [] in
  let attempts :=
    strategies_of false true no_pages no_pages empty_docx (vision_sees fifty)
                  (tesseract_reads two_hundred) decode_nothing IMAGE one_byte in
  run = ([GoogleVision], Some fifty)
  /\ first_accepted (with_rule (AtLeast 100) attempts)
     = ([GoogleVision; Tesseract], Some two_hundred)
  /\ first_accepted (with_rule (LongerThan 100) attempts)
     = ([GoogleVision; Tesseract], Some two_hundred)
  /\ run <> first_accepted (with_rule (AtLeast 100) attempts)
  /\ run <> first_accepted (with_rule (LongerThan 100) attempts).
Proof.
  cbv zeta. repeat split; try (vm_compute; reflexivity);
    vm_compute; discriminate.
Qed.

Lemma extract_text_tries_in_order_witness :
  extract_text false false storage_one_byte short_page long_page empty_docx
               (vision_sees fifty) (tesseract_reads two_hundred)
               decode_nothing [] PDF []
  = ([PdfPlumber; PyPDF2], Some (repeat 98%N 150)).
Proof.
  apply (proj1 (proj2 (extract_text_tries_in_order
                         false false storage_one_byte short_page long_page
                         empty_docx (vision_sees fifty)
                         (tesseract_reads two_hundred) decode_nothing
                         [] PDF [] one_byte eq_refl
                         ltac:(discriminate))));
    reflexivity.
Defined.

(** C3, as stated, is false: a DOCX file without text comes back as the
    empty string, not as the failure signal. *)
Lemma docx_without_text_returns_empty_string :
  extract_text false false storage_one_byte no_pages no_pages empty_docx
               (vision_sees fifty) (tesseract_reads two_hundred)
               decode_nothing [] DOCX []
  = ([PythonDocx], Some []).
Proof. reflexivity. Qed.

Lemma extract_text_failure_signal_witness :
  extract_text false false storage_down no_pages no_pages empty_docx
               (vision_sees fifty) (tesseract_reads two_hundred)
               decode_nothing [] DOCX []
  = ([], None)
  /\ snd (extract_text false false storage_one_byte short_page no_pages
                       empty_docx (vision_sees fifty)
                       (tesseract_reads two_hundred) decode_nothing [] PDF [])
     <> Some []
  /\ snd (extract_text false false storage_one_byte no_pages no_pages
                       broken_docx (vision_sees fifty)
                       (tesseract_reads two_hundred) decode_nothing [] DOC [])
     = None
  /\ snd (extract_text false false storage_one_byte short_page no_pages
                       empty_docx (vision_sees fifty)
                       (tesseract_reads two_hundred) decode_nothing [] PDF [])
     = None
  /\ snd (extract_text false true storage_one_byte no_pages no_pages
                       empty_docx (vision_sees ten)
                       (tesseract_reads (lit "  ")) decode_nothing [] IMAGE [])
     = Some []
  /\ extract_text false false storage_one_byte no_pages no_pages empty_docx
                  (vision_sees fifty) (tesseract_reads two_hundred)
                  decode_nothing [] TEXT []
     = ([Utf8Decode], Some []).
Proof.
  split; [|split; [|split; [|split; [|split]]]].
  - apply (proj1 (extract_text_failure_signal
                    false false storage_down no_pages no_pages empty_docx
                    (vision_sees fifty) (tesseract_reads two_hundred)
                    decode_nothing [] DOCX [])).
    left. reflexivity.
  - apply (proj1 (proj2 (proj2 (extract_text_failure_signal
                    false false storage_one_byte short_page no_pages empty_docx
                    (vision_sees fifty) (tesseract_reads two_hundred)
                    decode_nothing [] PDF [])))).
    reflexivity.
  - apply (proj1 (proj2 (proj2 (proj2 (extract_text_failure_signal
                    false false storage_one_byte no_pages no_pages broken_docx
                    (vision_sees fifty) (tesseract_reads two_hundred)
                    decode_nothing [] DOC []))))
             one_byte ValueError eq_refl (or_introl eq_refl) eq_refl).
  - apply (proj1 (proj2 (proj2 (proj2 (proj2 (proj2
                    (extract_text_failure_signal
                       false false storage_one_byte short_page no_pages
                       empty_docx (vision_sees fifty)
                       (tesseract_reads two_hundred) decode_nothing
                       [] PDF []))))))
             one_byte eq_refl ltac:(discriminate) eq_refl).
  - apply (proj1 (proj2 (proj2 (proj2 (proj2 (proj2 (proj2 (proj2
                    (extract_text_failure_signal
                       false true storage_one_byte no_pages no_pages
                       empty_docx (vision_sees ten)
                       (tesseract_reads (lit "  ")) decode_nothing
                       [] IMAGE []))))))))
             one_byte eq_refl ltac:(discriminate) eq_refl eq_refl).
  - apply (proj2 (proj2 (proj2 (proj2 (proj2 (proj2 (proj2 (proj2
                    (extract_text_failure_signal
                       false false storage_one_byte no_pages no_pages
                       empty_docx (vision_sees fifty)
                       (tesseract_reads two_hundred) decode_nothing
                       [] TEXT []))))))))
             one_byte eq_refl ltac:(discriminate) eq_refl).
Defined.

(** C8, as stated, is false: a cloud result of exactly 10 trimmed characters
    is not accepted, Tesseract runs and its result is returned. *)
Lemma cloud_result_of_ten_is_rejected :
  length (strip ten) = 10%nat
  /\ _extract_image_text true (vision_sees ten)
                         (tesseract_reads (lit "local")) one_byte
     = ([GoogleVision; Tesseract], Some (lit "local"))
  /\ _extract_image_text true (vision_sees ten)
                         (tesseract_reads (lit "local")) one_byte
     <> ([GoogleVision], Some ten).
Proof.
  split; [reflexivity|]. split; [reflexivity|]. vm_compute. discriminate.
Qed.

Lemma cloud_ocr_accepted_above_ten_witness :
  _extract_image_text true (vision_sees eleven)
                      (tesseract_reads (lit "local")) one_byte
  = ([GoogleVision], Some eleven)
  /\ snd (_extract_image_text false (vision_sees eleven)
                              (tesseract_reads (lit "local")) one_byte)
     = Some (lit "local").
Proof.
  split.
  - apply (proj1 (cloud_ocr_accepted_above_ten
                    true (vision_sees eleven) (tesseract_reads (lit "local"))
                    one_byte)).
    split; reflexivity.
  - apply (proj1 (proj2 (cloud_ocr_accepted_above_ten
                           false (vision_sees eleven)
                           (tesseract_reads (lit "local")) one_byte))).
    intros [H _]. discriminate H.
Defined.

End ClaimExamples.


(** ** Text preprocessing: what [_preprocess_text] guarantees *)

Module PreprocessingFacts.
Import Preprocessing PyFacts.

Local Open Scope N_scope.

Lemma subseq_refl {A} (s : list A) : subseq s s.
Proof. induction s; [constructor|now apply subseq_keep]. Qed.

Lemma subseq_nil_l {A} (s : list A) : subseq [] s.
Proof. induction s; constructor; assumption. Qed.

Lemma subseq_trans {A} (u t s : list A) :
  subseq u t -> subseq t s -> subseq u s.
Proof.
  intros Hut Hts. revert u Hut.
  induction Hts as [|x t s Hts IH|x t s Hts IH]; intros u Hut.
  - exact Hut.
  - constructor. now apply IH.
  - inversion Hut; subst.
    + apply subseq_drop. now apply IH.
    + apply subseq_keep. now apply IH.
Qed.

Lemma subseq_length {A} (t s : list A) :
  subseq t s -> (length t <= length s)%nat.
Proof. induction 1; simpl; lia. Qed.

Lemma subseq_app {A} (t s t' s' : list A) :
  subseq t s -> subseq t' s' -> subseq (t ++ t') (s ++ s').
Proof.
  induction 1; intros H'; simpl.
  - exact H'.
  - apply subseq_drop. auto.
  - apply subseq_keep. auto.
Qed.

Lemma subseq_firstn {A} n (s : list A) : subseq (firstn n s) s.
Proof.
  revert n. induction s as [|x s IH]; intros [|n]; simpl.
  - constructor.
  - constructor.
  - apply subseq_nil_l.
  - apply subseq_keep, IH.
Qed.

Lemma subseq_skipn {A} n (s : list A) : subseq (skipn n s) s.
Proof.
  revert n. induction s as [|x s IH]; intros [|n]; simpl.
  - constructor.
  - constructor.
  - apply subseq_refl.
  - apply subseq_drop, IH.
Qed.

Lemma subseq_rev {A} (t s : list A) : subseq t s -> subseq (rev t) (rev s).
Proof.
  induction 1; simpl.
  - constructor.
  - rewrite <- (app_nil_r (rev t)). apply subseq_app; [assumption|].
    constructor. constructor.
  - apply subseq_app; [assumption|apply subseq_refl].
Qed.

Lemma subseq_forallb {A} (p : A -> bool) (t s : list A) :
  subseq t s -> forallb p s = true -> forallb p t = true.
Proof.
  induction 1; simpl; auto.
  - intros H'. apply andb_true_iff in H' as [_ H']. auto.
  - intros H'. apply andb_true_iff in H' as [Hx H']. rewrite Hx. auto.
Qed.

Lemma subseq_existsb {A} (p : A -> bool) (t s : list A) :
  subseq t s -> existsb p s = false -> existsb p t = false.
Proof.
  induction 1; simpl; auto.
  - intros H'. apply orb_false_iff in H' as [_ H']. auto.
  - intros H'. apply orb_false_iff in H' as [Hx H']. rewrite Hx. auto.
Qed.

(** Deleting characters cannot bring an opening character before a closing
    one. *)
Lemma subseq_no_pair o c (t s : str) :
  subseq t s -> no_pair o c s = true -> no_pair o c t = true.
Proof.
  induction 1; simpl; auto.
  - intros H'. apply andb_true_iff in H' as [_ H']. auto.
  - intros H'. apply andb_true_iff in H' as [Hx H'].
    rewrite IHsubseq by assumption. rewrite andb_true_r.
    destruct (x =? o); [|reflexivity]. simpl in *.
    apply negb_true_iff in Hx. apply negb_true_iff.
    eapply subseq_existsb; eassumption.
Qed.

Lemma lstrip_subseq (s : str) : subseq (lstrip s) s.
Proof.
  induction s as [|c s IH]; simpl; [constructor|].
  destruct (is_space c); [now constructor|apply subseq_refl].
Qed.

Lemma strip_subseq (s : str) : subseq (strip s) s.
Proof.
  unfold strip, rstrip. eapply subseq_trans; [|apply lstrip_subseq].
  rewrite <- (rev_involutive (lstrip s)) at 2.
  apply subseq_rev, lstrip_subseq.
Qed.

(** Stripping a text that ends with the marker keeps the marker. *)
Lemma strip_keeps_marker (s : str) :
  strip (s ++ lit "...") = lstrip s ++ lit "...".
Proof.
  unfold strip, rstrip. change (lit "...") with [46; 46; 46].
  rewrite lstrip_app by reflexivity.
  rewrite rev_app_distr.
  change (rev [46; 46; 46] ++ rev (lstrip s))
    with (46 :: ([46; 46] ++ rev (lstrip s))).
  cbn [lstrip]. change (is_space 46) with false. cbv iota.
  change (46 :: [46; 46] ++ rev (lstrip s))
    with ([46; 46; 46] ++ rev (lstrip s)).
  now rewrite rev_app_distr, rev_involutive.
Qed.

Lemma collapse_from_subseq_plain in_run (s : str) :
  only_plain_spaces (collapse_from in_run s) = true.
Proof.
  unfold only_plain_spaces. revert in_run.
  induction s as [|c s IH]; intros in_run; simpl; [reflexivity|].
  destruct (is_space c) eqn:E.
  - destruct in_run; simpl; rewrite ?IH; auto using orb_true_r.
  - simpl. now rewrite E, IH.
Qed.

Lemma plain_spaces_no_line_break (s : str) :
  only_plain_spaces s = true -> existsb (fun x => x =? NL) s = false.
Proof.
  unfold only_plain_spaces. induction s as [|c s IH]; simpl; [reflexivity|].
  intros H. apply andb_true_iff in H as [Hc Hs]. rewrite IH by assumption.
  destruct (c =? NL) eqn:E; [|reflexivity].
  apply N.eqb_eq in E. subst c. discriminate Hc.
Qed.

(** The first substitution leaves no line break. *)
Lemma collapse_no_line_break (s : str) :
  existsb (fun x => x =? NL) (collapse_whitespace s) = false.
Proof.
  apply plain_spaces_no_line_break, collapse_from_subseq_plain.
Qed.

Lemma collapse_length in_run (s : str) :
  (length (collapse_from in_run s) <= length s)%nat.
Proof.
  revert in_run. induction s as [|c s IH]; intros in_run; simpl; [lia|].
  destruct (is_space c); [destruct in_run|]; simpl;
    match goal with
    | |- context [collapse_from ?b s] => specialize (IH b)
    end; lia.
Qed.

Lemma remove_delimited_subseq o c skip (s : str) :
  subseq (remove_delimited o c skip s) s.
Proof.
  revert skip. induction s as [|x s IH]; intros skip; simpl; [constructor|].
  destruct skip; [|now constructor].
  destruct (x =? o); [destruct (find_close c s)|]; now constructor.
Qed.

Lemma find_close_none c (s : str) :
  existsb (fun x => x =? NL) s = false ->
  find_close c s = None -> existsb (fun x => x =? c) s = false.
Proof.
  induction s as [|x s IH]; simpl; [reflexivity|].
  intros Hnl. apply orb_false_iff in Hnl as [Hx Hs].
  destruct (x =? c); [discriminate|]. rewrite Hx.
  destruct (find_close c s); [discriminate|]. intros _. now apply IH.
Qed.

(** On a text without a line break the substitution leaves no opening
    character with a closing one after it. *)
Lemma remove_delimited_no_pair o c skip (s : str) :
  existsb (fun x => x =? NL) s = false ->
  no_pair o c (remove_delimited o c skip s) = true.
Proof.
  revert skip. induction s as [|x s IH]; intros skip Hnl; simpl;
    [reflexivity|].
  simpl in Hnl. apply orb_false_iff in Hnl as [Hx Hs].
  destruct skip; [|now apply IH].
  destruct (x =? o) eqn:Eo.
  - destruct (find_close c s) eqn:Ef; [now apply IH|].
    simpl. rewrite Eo, IH by assumption. simpl. rewrite andb_true_r.
    apply negb_true_iff.
    eapply subseq_existsb; [apply remove_delimited_subseq|].
    now apply find_close_none.
  - simpl. rewrite Eo, IH by assumption. reflexivity.
Qed.

Section Preprocess.
Variable unicode_decimal : char -> bool.
Variable MAX_TOKENS : Z.

Local Notation remove_page_marks := (remove_page_marks unicode_decimal).
Local Notation remove_bare_number := (remove_bare_number unicode_decimal).
Local Notation remove_artifacts := (remove_artifacts unicode_decimal).
Local Notation preprocess := (_preprocess_text unicode_decimal MAX_TOKENS).

Lemma remove_page_marks_subseq skip (s : str) :
  subseq (remove_page_marks skip s) s.
Proof.
  revert skip. induction s as [|x s IH]; intros skip; [constructor|].
  cbn [Preprocessing.remove_page_marks].
  destruct skip; [|now constructor].
  destruct (match_page unicode_decimal (x :: s)); now constructor.
Qed.

Lemma remove_bare_number_subseq (s : str) : subseq (remove_bare_number s) s.
Proof.
  unfold Preprocessing.remove_bare_number.
  destruct (_ && _); [apply subseq_nil_l|apply subseq_refl].
Qed.

(** Past the collapse of white space, the artifacts are removed by deleting
    characters only. *)
Lemma remove_artifacts_subseq (text : str) :
  subseq (remove_artifacts text) (collapse_whitespace text).
Proof.
  unfold Preprocessing.remove_artifacts.
  eapply subseq_trans; [apply remove_delimited_subseq|].
  eapply subseq_trans; [apply remove_delimited_subseq|].
  eapply subseq_trans; [apply remove_bare_number_subseq|].
  apply remove_page_marks_subseq.
Qed.

Lemma remove_artifacts_plain (text : str) :
  only_plain_spaces (remove_artifacts text) = true.
Proof.
  eapply subseq_forallb; [apply remove_artifacts_subseq|].
  apply collapse_from_subseq_plain.
Qed.

Lemma remove_artifacts_no_pairs (text : str) :
  no_pair 91 93 (remove_artifacts text) = true
  /\ no_pair 40 41 (remove_artifacts text) = true.
Proof.
  assert (Hnl : existsb (fun x => x =? NL)
                  (remove_bare_number
                     (remove_page_marks O (collapse_whitespace text))) = false).
  { eapply subseq_existsb; [|apply (collapse_no_line_break text)].
    eapply subseq_trans; [apply remove_bare_number_subseq|].
    apply remove_page_marks_subseq. }
  unfold Preprocessing.remove_artifacts. split.
  - eapply subseq_no_pair; [apply remove_delimited_subseq|].
    now apply remove_delimited_no_pair.
  - apply remove_delimited_no_pair.
    eapply subseq_existsb; [apply remove_delimited_subseq|exact Hnl].
Qed.

(** The two shapes of the result: the cleaned text cut at the limit and
    marked, or the cleaned text, stripped in both cases. *)
Lemma preprocess_cases (text : str) :
  let cleaned := remove_artifacts text in
  (((MAX_TOKENS * 4 <? Z.of_nat (length cleaned))%Z = true
    /\ preprocess text
       = lstrip (slice_to (MAX_TOKENS * 4) cleaned) ++ lit "...")
   \/ ((MAX_TOKENS * 4 <? Z.of_nat (length cleaned))%Z = false
       /\ preprocess text = strip cleaned)).
Proof.
  intros cleaned. unfold _preprocess_text. fold cleaned.
  destruct (MAX_TOKENS * 4 <? Z.of_nat (length cleaned))%Z.
  - left. split; [reflexivity|]. apply strip_keeps_marker.
  - right. split; reflexivity.
Qed.

Lemma slice_to_subseq n (s : str) : subseq (slice_to n s) s.
Proof. unfold slice_to. destruct (0 <=? n)%Z; apply subseq_firstn. Qed.

Lemma no_pair_app_marker o c (a m : str) :
  no_pair o c a = true ->
  existsb (fun x => x =? o) m = false ->
  existsb (fun x => x =? c) m = false ->
  no_pair o c (a ++ m) = true.
Proof.
  intros Ha Ho Hc. induction a as [|x a IH]; simpl.
  - induction m as [|y m IHm]; simpl; [reflexivity|].
    simpl in Ho, Hc. apply orb_false_iff in Ho as [Hy Ho].
    apply orb_false_iff in Hc as [_ Hc]. rewrite Hy. simpl. auto.
  - simpl in Ha. apply andb_true_iff in Ha as [Hx Ha].
    rewrite IH by assumption. rewrite andb_true_r.
    destruct (x =? o); [|reflexivity].
    cbn [negb orb] in Hx |- *. apply negb_true_iff in Hx.
    rewrite existsb_app. apply negb_true_iff, orb_false_iff.
    split; assumption.
Qed.

Lemma collapse_keeps_text in_run (s : str) :
  filter (fun c => negb (is_space c)) (collapse_from in_run s)
  = filter (fun c => negb (is_space c)) s.
Proof.
  revert in_run. induction s as [|c s IH]; intros in_run; simpl;
    [reflexivity|].
  destruct (is_space c) eqn:E; [destruct in_run|]; simpl;
    rewrite ?E; simpl; now rewrite IH.
Qed.

(** X1.  The preprocessed text is never longer than the limit of [4 *
    MAX_TOKENS] characters plus the three of the marker. *)
Theorem preprocess_length_bound (text : str) :
  (0 <= MAX_TOKENS)%Z ->
  (length (preprocess text) <= Z.to_nat (MAX_TOKENS * 4) + 3)%nat.
Proof.
  intros Hmax.
  destruct (preprocess_cases text) as [[Hcut ->]|[Hcut ->]].
  - rewrite length_app. change (length (lit "...")) with 3%nat.
    pose proof (subseq_length _ _ (lstrip_subseq
                   (slice_to (MAX_TOKENS * 4) (remove_artifacts text)))) as H.
    unfold slice_to in *.
    destruct (0 <=? MAX_TOKENS * 4)%Z eqn:E; [|apply Z.leb_gt in E; lia].
    rewrite length_firstn in H. lia.
  - apply Z.ltb_ge in Hcut.
    pose proof (subseq_length _ _ (strip_subseq (remove_artifacts text))) as H.
    lia.
Qed.

(** X2.  Preprocessing only deletes: the result is made of characters of the
    input, in their order, once each run of white space of the input is read
    as one space (which keeps every other character); the marker ["..."] is
    appended exactly when the cleaned text is longer than the limit. *)
Theorem preprocess_only_deletes (text : str) :
  filter (fun c => negb (is_space c)) (collapse_whitespace text)
  = filter (fun c => negb (is_space c)) text
  /\ exists kept,
       subseq kept (collapse_whitespace text)
       /\ preprocess text
          = if (MAX_TOKENS * 4 <? Z.of_nat (length (remove_artifacts text)))%Z
            then kept ++ lit "..." else kept.
Proof.
  split; [apply collapse_keeps_text|].
  destruct (preprocess_cases text) as [[Hcut ->]|[Hcut ->]]; rewrite Hcut.
  - eexists. split; [|reflexivity].
    eapply subseq_trans; [apply lstrip_subseq|].
    eapply subseq_trans; [apply slice_to_subseq|].
    apply remove_artifacts_subseq.
  - eexists. split; [|reflexivity].
    eapply subseq_trans; [apply strip_subseq|apply remove_artifacts_subseq].
Qed.

(** X3.  The preprocessed text has no white space at either end, and the
    only white-space character left inside it is the plain space: tabs and
    line breaks are gone. *)
Theorem preprocess_whitespace_normalized (text : str) :
  strip (preprocess text) = preprocess text
  /\ only_plain_spaces (preprocess text) = true.
Proof.
  split; [apply strip_idem|].
  destruct (preprocess_cases text) as [[Hcut ->]|[Hcut ->]].
  - unfold only_plain_spaces. rewrite forallb_app.
    apply andb_true_iff. split; [|reflexivity].
    eapply subseq_forallb; [|apply (remove_artifacts_plain text)].
    eapply subseq_trans; [apply lstrip_subseq|apply slice_to_subseq].
  - eapply subseq_forallb; [apply strip_subseq|apply remove_artifacts_plain].
Qed.

(** X4.  No bracketed and no parenthetical reference is left: in the
    preprocessed text no opening bracket has a closing bracket after it, and
    no opening parenthesis a closing parenthesis. *)
Theorem preprocess_leaves_no_reference (text : str) :
  no_pair 91 93 (preprocess text) = true
  /\ no_pair 40 41 (preprocess text) = true.
Proof.
  destruct (remove_artifacts_no_pairs text) as [Hb Hp].
  destruct (preprocess_cases text) as [[Hcut ->]|[Hcut ->]].
  - assert (S : subseq (lstrip (slice_to (MAX_TOKENS * 4)
                                         (remove_artifacts text)))
                       (remove_artifacts text)).
    { eapply subseq_trans; [apply lstrip_subseq|apply slice_to_subseq]. }
    split; apply no_pair_app_marker; try reflexivity;
      eapply subseq_no_pair; eassumption.
  - split; (eapply subseq_no_pair; [apply strip_subseq|assumption]).
Qed.

End Preprocess.

End PreprocessingFacts.


(** ** Document complexity: what the analysis guarantees *)

Module ComplexityFacts.
Import Complexity Notions PyFacts.

Lemma count_sentence_step n sentence :
  (n <= count_sentence n sentence <= S n)%nat.
Proof.
  unfold count_sentence.
  destruct (_ <? _)%nat; [lia|]. destruct (_ <? _)%nat; lia.
Qed.

Lemma count_sentences_fold sentences n :
  (n <= fold_left count_sentence sentences n <= n + length sentences)%nat.
Proof.
  revert n. induction sentences as [|s sentences IH]; intros n; simpl; [lia|].
  pose proof (count_sentence_step n s). specialize (IH (count_sentence n s)).
  lia.
Qed.

(** No more sentences are counted as complex than the text has. *)
Lemma complex_sentences_bound text :
  (_count_complex_sentences text <= length (re_split_sentences text))%nat.
Proof.
  unfold _count_complex_sentences.
  pose proof (count_sentences_fold (re_split_sentences text) 0). lia.
Qed.

Lemma lower_app (a b : str) : lower (a ++ b) = lower a ++ lower b.
Proof. unfold lower. now rewrite flat_map_app. Qed.

Lemma lower_char_idem (c : char) : lower (lower_char c) = lower_char c.
Proof.
  unfold lower_char.
  destruct (N.leb_spec 65 c); destruct (N.leb_spec c 90); cbn [andb].
  - unfold lower. cbn [flat_map]. unfold lower_char.
    destruct (N.leb_spec 65 (c + 32)); destruct (N.leb_spec (c + 32) 90);
      cbn [andb]; try lia.
    destruct (N.eqb_spec (c + 32) 8490); [lia|].
    destruct (N.eqb_spec (c + 32) 304); [lia|]. reflexivity.
  - destruct (N.eqb_spec c 8490); [reflexivity|].
    destruct (N.eqb_spec c 304); [reflexivity|].
    unfold lower. cbn [flat_map]. unfold lower_char.
    destruct (N.leb_spec 65 c); destruct (N.leb_spec c 90); cbn [andb];
      try lia.
    destruct (N.eqb_spec c 8490); [contradiction|].
    destruct (N.eqb_spec c 304); [contradiction|]. reflexivity.
  - destruct (N.eqb_spec c 8490); [subst; reflexivity|].
    destruct (N.eqb_spec c 304); [subst; reflexivity|].
    unfold lower. cbn [flat_map]. unfold lower_char.
    destruct (N.leb_spec 65 c); destruct (N.leb_spec c 90); cbn [andb];
      try lia.
    destruct (N.eqb_spec c 8490); [contradiction|].
    destruct (N.eqb_spec c 304); [contradiction|]. reflexivity.
  - lia.
Qed.

(** Lowering a lowered text changes nothing. *)
Lemma lower_idem (s : str) : lower (lower s) = lower s.
Proof.
  induction s as [|c s IH]; [reflexivity|].
  change (lower (c :: s)) with (lower_char c ++ lower s).
  now rewrite lower_app, lower_char_idem, IH.
Qed.














Lemma Qgtb_gt (x y : Q) : Qgtb x y = true <-> (y < x)%Q.
Proof.
  unfold Qgtb. rewrite negb_true_iff. split.
  - intros H. apply Qnot_le_lt. intros Hle.
    apply Qle_bool_iff in Hle. congruence.
  - intros H. destruct (Qle_bool x y) eqn:E; [|reflexivity].
    apply Qle_bool_iff in E. exfalso. exact (Qlt_not_le _ _ H E).
Qed.

Lemma true_div_nonneg a b :
  exists q, (if (0 <? b)%nat then true_div a b else Return (0 # 1)%Q)
            = Return q /\ (0 <= q)%Q.
Proof.
  destruct b as [|n]; cbn [Nat.ltb Nat.leb true_div].
  - exists (0 # 1)%Q. split; [reflexivity|]. unfold Qle. simpl. lia.
  - eexists. split; [reflexivity|]. unfold Qle. simpl. lia.
Qed.

Lemma true_div_share a b :
  (a <= b)%nat -> b <> O ->
  exists q, true_div a b = Return q /\ (0 <= q)%Q /\ (q <= 1)%Q.
Proof.
  intros Hab Hb. destruct b as [|n]; [contradiction|].
  eexists. split; [reflexivity|]. unfold Qle. cbn [Qnum Qden].
  split; [lia|]. rewrite Z.mul_1_r, Z.mul_1_l.
  rewrite <- positive_nat_Z, Nat2Pos.id by discriminate. lia.
Qed.

(** X6.  The analysis never falls back to "unknown": for every text it
    returns a level among low, medium and high, the share of complex
    sentences lies between 0 and 1, the share of legal terms is not
    negative, and the reading time is at least one minute. *)
Theorem analysis_is_never_unknown text :
  exists c,
    analyze_document_complexity text = Analysis c
    /\ (complexity_level c = lit "low" \/ complexity_level c = lit "medium"
        \/ complexity_level c = lit "high")
    /\ (0 <= complex_sentence_ratio c)%Q /\ (complex_sentence_ratio c <= 1)%Q
    /\ (0 <= legal_term_ratio c)%Q
    /\ (1 <= estimated_reading_time c)%nat
    /\ total_words c = length (split_ws text)
    /\ legal_term_count c = _count_legal_terms text
    /\ complex_sentence_count c = _count_complex_sentences text.
Proof.
  unfold analyze_document_complexity, analyze_body.
  destruct (true_div_nonneg (_count_legal_terms text)
                            (length (split_ws text))) as (q1 & -> & H1).
  assert (R2 : exists q,
             (if negb (is_nil text)
              then true_div (_count_complex_sentences text)
                            (length (re_split_sentences text))
              else Return (0 # 1)%Q) = Return q
             /\ (0 <= q)%Q /\ (q <= 1)%Q).
  { destruct (negb (is_nil text)).
    - apply true_div_share; [apply complex_sentences_bound|].
      intros E. apply length_zero_iff_nil in E.
      pose proof (ReadingLevelFacts.sentences_not_nil text) as N.
      rewrite E in N. discriminate N.
    - exists (0 # 1)%Q. repeat split; unfold Qle; simpl; lia. }
  destruct R2 as (q2 & -> & H2 & H3).
  cbn [bind]. eexists. split; [reflexivity|].
  cbn [complexity_level legal_term_count legal_term_ratio
       complex_sentence_count complex_sentence_ratio total_words
       estimated_reading_time].
  split.
  { destruct (Qgtb q1 (1 # 10) || Qgtb q2 (3 # 10)); [auto|].
    destruct (Qgtb q1 (5 # 100) || Qgtb q2 (15 # 100)); auto. }
  repeat (split; [assumption|]).
  split; [unfold _estimate_reading_time; lia|]. auto.
Qed.

Local Open Scope N_scope.

(** Settles the comparisons of a character with constants once its range
    is known. *)
Ltac decide_tests :=
  repeat match goal with
         | |- context [N.leb ?a ?b] => destruct (N.leb_spec a b); try lia
         | |- context [N.eqb ?a ?b] => destruct (N.eqb_spec a b); try lia
         end.

Lemma space_is_not_terminator (c : char) :
  is_space c = true -> is_terminator c = false.
Proof.
  intros H. unfold is_terminator.
  destruct (N.eqb_spec c 46); [subst; discriminate H|].
  destruct (N.eqb_spec c 33); [subst; discriminate H|].
  destruct (N.eqb_spec c 63); [subst; discriminate H|]. reflexivity.
Qed.

Lemma space_lower (c : char) : is_space c = true -> lower_char c = [c].
Proof.
  intros H. unfold lower_char.
  destruct (N.leb_spec 65 c); destruct (N.leb_spec c 90); cbn [andb].
  - exfalso. revert H. unfold is_space. decide_tests; discriminate.
  - destruct (N.eqb_spec c 8490); [subst; discriminate H|].
    destruct (N.eqb_spec c 304); [subst; discriminate H|]. reflexivity.
  - destruct (N.eqb_spec c 8490); [subst; discriminate H|].
    destruct (N.eqb_spec c 304); [subst; discriminate H|]. reflexivity.
  - lia.
Qed.

Lemma blank_lower (s : str) : forallb is_space s = true -> lower s = s.
Proof.
  induction s as [|c s IH]; [reflexivity|]. simpl.
  intros H. apply andb_true_iff in H as [Hc Hs].
  change (lower (c :: s)) with (lower_char c ++ lower s).
  now rewrite space_lower, IH.
Qed.

Lemma split_ws_from_nil cur (s : str) :
  split_ws_from cur s = [] -> cur = [] /\ forallb is_space s = true.
Proof.
  revert cur. induction s as [|c s IH]; intros cur; simpl.
  - destruct cur; [auto|discriminate].
  - destruct (is_space c) eqn:E.
    + destruct cur; simpl; [|discriminate].
      intros H. apply IH in H as [_ H]. auto.
    + intros H. apply IH in H as [H _]. discriminate H.
Qed.

(** A text without a word is made of white space. *)
Lemma no_word_is_blank (text : str) :
  split_ws text = [] -> forallb is_space text = true.
Proof. intros H. now apply split_ws_from_nil in H. Qed.

Lemma blank_lstrip (s : str) : forallb is_space s = true -> lstrip s = [].
Proof.
  induction s as [|c s IH]; [reflexivity|]. simpl.
  intros H. apply andb_true_iff in H as [-> Hs]. auto.
Qed.

Lemma blank_strip (s : str) : forallb is_space s = true -> strip s = [].
Proof. intros H. unfold strip. now rewrite blank_lstrip. Qed.

Lemma blank_one_sentence cur (s : str) :
  forallb is_space s = true -> re_split_from cur false s = [rev cur ++ s].
Proof.
  revert cur. induction s as [|c s IH]; intros cur; simpl.
  - now rewrite app_nil_r.
  - intros H. apply andb_true_iff in H as [Hc Hs].
    rewrite (space_is_not_terminator _ Hc), IH by assumption.
    simpl. now rewrite <- app_assoc.
Qed.

Lemma count_from_blank sub skip (s : str) :
  is_space (hd 32 sub) = false -> forallb is_space s = true ->
  count_from sub skip s = O.
Proof.
  intros Hsub. revert skip.
  induction s as [|c s IH]; intros skip H; [reflexivity|].
  simpl in H. apply andb_true_iff in H as [Hc Hs].
  cbn [count_from]. destruct skip; [|now apply IH].
  destruct sub as [|h t]; [discriminate Hsub|]. cbn [startswith].
  destruct (N.eqb_spec h c); [subst; simpl in Hsub; congruence|].
  cbn [andb]. now apply IH.
Qed.

Lemma py_count_blank sub (s : str) :
  is_space (hd 32 sub) = false -> forallb is_space s = true ->
  py_count sub s = O.
Proof.
  intros Hsub Hs. unfold py_count.
  destruct sub; [discriminate Hsub|]. now apply count_from_blank.
Qed.

Lemma blank_has_no_legal_term (text : str) :
  forallb is_space text = true -> _count_legal_terms text = O.
Proof.
  intros H. unfold _count_legal_terms. rewrite (blank_lower _ H).
  unfold LEGAL_TERMS. cbn [map fold_left].
  rewrite !py_count_blank by (reflexivity || assumption). reflexivity.
Qed.

Lemma blank_has_no_complex_sentence (text : str) :
  forallb is_space text = true -> _count_complex_sentences text = O.
Proof.
  intros H. unfold _count_complex_sentences, re_split_sentences.
  rewrite (blank_one_sentence [] _ H). cbn [rev app fold_left].
  unfold count_sentence. rewrite (blank_strip _ H). reflexivity.
Qed.

(** X7.  A text without a single word, empty or blank, is analysed without a
    division by zero: the level is low, the counts and both ratios are zero,
    and the reading time is one minute. *)
Theorem blank_text_is_low text :
  split_ws text = [] ->
  analyze_document_complexity text
  = Analysis {| complexity_level := lit "low";
                legal_term_count := 0;
                legal_term_ratio := (0 # 1)%Q;
                complex_sentence_count := 0;
                complex_sentence_ratio := (0 # 1)%Q;
                total_words := 0;
                estimated_reading_time := 1 |}.
Proof.
  intros Hw. pose proof (no_word_is_blank _ Hw) as Hb.
  unfold analyze_document_complexity, analyze_body.
  rewrite Hw, (blank_has_no_legal_term _ Hb),
    (blank_has_no_complex_sentence _ Hb).
  unfold re_split_sentences. rewrite (blank_one_sentence [] _ Hb).
  destruct text; reflexivity.
Qed.

End ComplexityFacts.


(** ** The simplifier: what its callers can rely on *)

Module ServiceFacts.
Import AISimplifier Shape Notions PyFacts NormalizerFacts.

(** Runs the four tests of the score through their possible outcomes. *)
Ltac score_cases content :=
  unfold _calculate_confidence_score, confidence_body;
  destruct (is_rich content SUMMARY 50) as [[|]|]; cbn [bind];
  try (vm_compute; reflexivity);
  destruct (is_rich content KEY_POINTS 0) as [[|]|]; cbn [bind];
  try (vm_compute; reflexivity);
  destruct (is_rich content IMPORTANT_TERMS 0) as [[|]|]; cbn [bind];
  try (vm_compute; reflexivity);
  destruct (is_rich content NEXT_STEPS 0) as [[|]|]; cbn [bind];
  vm_compute; reflexivity.

Lemma score_bounds original_text (content : pydict) :
  (0.5 <=? _calculate_confidence_score original_text content)%float = true
  /\ (_calculate_confidence_score original_text content <=? 1)%float = true.
Proof. split; score_cases content. Qed.

(** A value that is there and truthy but has no length makes the test
    raise. *)
Lemma is_rich_raises (content : pydict) field threshold v :
  dict_get field content = Some v -> truthy v = true ->
  py_len v = Raise TypeError ->
  is_rich content field threshold = Raise TypeError.
Proof.
  intros Hget Ht Hlen. unfold is_rich, getitem.
  rewrite Hget, Ht. cbn [bind]. now rewrite Hlen.
Qed.

(** X8.  The score on a content whose four scored fields hold arbitrary
    values: it stays between 0.5 and 1, and it is exactly 0.5 as soon as one
    of the four fields holds a truthy value without a length (a number or
    [True]), because the handler of the estimator then answers. *)
Theorem confidence_score_on_any_content original_text (content : pydict) :
  (0.5 <=? _calculate_confidence_score original_text content)%float = true
  /\ (_calculate_confidence_score original_text content <=? 1)%float = true
  /\ forall field v,
       In field [SUMMARY; KEY_POINTS; IMPORTANT_TERMS; NEXT_STEPS] ->
       dict_get field content = Some v -> truthy v = true ->
       py_len v = Raise TypeError ->
       _calculate_confidence_score original_text content = 0.5%float.
Proof.
  split; [score_cases content|]. split; [score_cases content|].
  intros field v Hin Hget Ht Hlen.
  assert (R : forall n, is_rich content field n = Raise TypeError)
    by (intros n; eapply is_rich_raises; eassumption).
  unfold _calculate_confidence_score, confidence_body.
  simpl in Hin.
  destruct Hin as [<-|[<-|[<-|[<-|[]]]]]; rewrite ?R;
    repeat match goal with
           | |- context [bind (is_rich content ?f ?n)] =>
               first [ rewrite (R n)
                     | destruct (is_rich content f n) as [[|]|] ];
               cbn [bind]
           end;
    reflexivity.
Qed.

Lemma classify_is_a_level s w :
  In (classify s w) READING_LEVELS /\ classify s w <> lit "unknown".
Proof.
  unfold classify.
  destruct (_ && _); [split; [simpl; auto|discriminate]|].
  destruct (_ && _); [split; [simpl; auto|discriminate]|].
  destruct (_ && _); split; simpl; auto; discriminate.
Qed.

Lemma estimate_in_labels text :
  In (_estimate_reading_level text) READING_LEVELS.
Proof.
  unfold _estimate_reading_level.
  destruct (_ || _); [simpl; auto 6|apply classify_is_a_level].
Qed.

(** X9.  The reading level is always one of the five labels, and it is
    "unknown" exactly for a summary without a word. *)
Theorem reading_level_is_a_label text :
  In (_estimate_reading_level text) READING_LEVELS
  /\ (_estimate_reading_level text = lit "unknown" <-> split_ws text = []).
Proof.
  split; [apply estimate_in_labels|].
  unfold _estimate_reading_level.
  rewrite ReadingLevelFacts.sentences_not_nil. cbn [orb].
  destruct (split_ws text) as [|w ws] eqn:E; cbn [is_nil].
  - split; reflexivity.
  - destruct (classify_is_a_level (avg_sentence_length text)
                                  (avg_word_length text)) as [_ Hne].
    split; [contradiction|discriminate].
Qed.

Lemma dict_get_set k k' v (d : pydict) :
  dict_get k' (dict_set k v d)
  = if str_eqb k k' then Some v else dict_get k' d.
Proof.
  destruct (str_eqb k k') eqn:E.
  - apply str_eqb_eq in E. subst. apply dict_get_set_same.
  - now apply dict_get_set_other.
Qed.

Lemma reading_level_of_is_a_label (content : pydict) :
  In (reading_level_of content) READING_LEVELS.
Proof.
  unfold reading_level_of.
  destruct (dict_get SUMMARY content) as [[]|];
    try apply estimate_in_labels; simpl; auto 6.
Qed.

Section Service.
Variable repr : pyval -> str.
Variable json_loads : str -> result pyval.
Variable generate_content : str -> result (option str).
Variable _preprocess_text : str -> str.
Variable _create_simplification_prompt : str -> str -> str -> str.
Variable question_prompt : str -> str -> str -> str.
Variable utcnow_isoformat : str.

Local Notation simplify :=
  (simplify_document repr json_loads generate_content _preprocess_text
                     _create_simplification_prompt utcnow_isoformat).
Local Notation answer :=
  (answer_question generate_content _preprocess_text question_prompt).

(** What [simplify_document] returns is the parsed content with the five
    metadata entries written over it. *)
Lemma simplify_document_returns text level audience calls content :
  simplify text level audience = (calls, Return content) ->
  exists reply parsed,
    generate_content
      (_create_simplification_prompt (_preprocess_text text) level audience)
    = Return (Some reply)
    /\ reply <> []
    /\ calls = [GenerateContent
                  (_create_simplification_prompt (_preprocess_text text)
                                                 level audience);
                ParseAIResponse reply]
    /\ _parse_ai_response repr json_loads reply = Return parsed
    /\ content
       = dict_update parsed
           [ (lit "confidence_score",
              PFloat (_calculate_confidence_score (_preprocess_text text)
                                                  parsed));
             (lit "reading_level", PStr (reading_level_of parsed));
             (lit "processing_timestamp", PStr utcnow_isoformat);
             (lit "simplification_level", PStr level);
             (lit "target_audience", PStr audience) ].
Proof.
  unfold simplify_document, _generate_simplified_content.
  destruct (generate_content _) as [[[|c reply]|]|e]; try discriminate.
  cbn [is_nil negb tbind emit tret lift app].
  destruct (_parse_ai_response repr json_loads (c :: reply)) as [parsed|e]
    eqn:E; [|discriminate].
  intros H. injection H as <- <-.
  exists (c :: reply), parsed. repeat split; try assumption. discriminate.
Qed.

(** The fields of what [simplify_document] returns. *)
Lemma simplify_document_fields text level audience calls content :
  simplify text level audience = (calls, Return content) ->
  well_shaped content = true
  /\ (exists score,
        dict_get (lit "confidence_score") content = Some (PFloat score)
        /\ (0.5 <=? score)%float = true /\ (score <=? 1)%float = true)
  /\ (exists label,
        dict_get (lit "reading_level") content = Some (PStr label)
        /\ In label READING_LEVELS)
  /\ dict_get (lit "processing_timestamp") content
     = Some (PStr utcnow_isoformat)
  /\ dict_get (lit "simplification_level") content = Some (PStr level)
  /\ dict_get (lit "target_audience") content = Some (PStr audience).
Proof.
  intros H.
  destruct (simplify_document_returns _ _ _ _ _ H)
    as (reply & parsed & _ & _ & _ & Hp & ->).
  pose proof (parse_ai_response_shape _ _ _ _ Hp) as Hs.
  unfold dict_update. cbn [fold_left fst snd].
  split.
  { repeat (apply well_shaped_set;
            [ | intros E; discriminate E | intros E; discriminate E
              | intros E; repeat destruct E as [E|E]; discriminate E ]).
    exact Hs. }
  rewrite !dict_get_set. field_tests. cbv iota.
  split.
  { eexists. split; [reflexivity|]. apply score_bounds. }
  split.
  { eexists. split; [reflexivity|]. apply reading_level_of_is_a_label. }
  repeat split.
Qed.

(** X10.  When [simplify_document] returns, it has called the model once and
    the normalizer once, on a reply that is not empty, and its result holds
    the six content fields with their container types beside the five
    entries it adds: a confidence score between 0.5 and 1, a reading level
    among the five labels, the time stamp, and the level and audience it was
    called with. *)
Theorem simplify_document_result text level audience calls content :
  simplify text level audience = (calls, Return content) ->
  (exists prompt reply,
      calls = [GenerateContent prompt; ParseAIResponse reply]
      /\ reply <> [])
  /\ well_shaped content = true
  /\ (exists score,
        dict_get (lit "confidence_score") content = Some (PFloat score)
        /\ (0.5 <=? score)%float = true /\ (score <=? 1)%float = true)
  /\ (exists label,
        dict_get (lit "reading_level") content = Some (PStr label)
        /\ In label READING_LEVELS)
  /\ dict_get (lit "processing_timestamp") content
     = Some (PStr utcnow_isoformat)
  /\ dict_get (lit "simplification_level") content = Some (PStr level)
  /\ dict_get (lit "target_audience") content = Some (PStr audience).
Proof.
  intros H. split.
  - destruct (simplify_document_returns _ _ _ _ _ H)
      as (reply & parsed & _ & Hne & -> & _).
    eexists. exists reply. split; [reflexivity|exact Hne].
  - eapply simplify_document_fields. exact H.
Qed.

(** What [answer_question] does, by the answer of the model. *)
Lemma answer_question_cases document_text question audience :
  let prompt :=
    question_prompt audience (_preprocess_text document_text) question in
  fst (answer document_text question audience) = [GenerateContent prompt]
  /\ exists answer_text score,
       snd (answer document_text question audience)
       = Return [ (lit "answer", PStr answer_text);
                  (lit "confidence_score", PFloat score) ]
       /\ strip answer_text = answer_text
       /\ (score = 0.7%float /\ answer_text <> []
           \/ score = 0.3%float).
Proof.
  intros prompt. unfold answer_question, _generate_simplified_content.
  fold prompt.
  destruct (generate_content prompt) as [[[|c reply]|]|e];
    try (split; [reflexivity|];
         exists APOLOGY, 0.3%float;
         split; [reflexivity|split; [reflexivity|now right]]).
  cbn [is_nil negb tbind emit tret tcatch app fst snd].
  split; [reflexivity|].
  exists (strip (c :: reply)).
  destruct (strip (c :: reply)) as [|x r] eqn:E.
  - exists 0.3%float. split; [reflexivity|]. split; [reflexivity|now right].
  - exists 0.7%float. split; [reflexivity|].
    split; [rewrite <- E; apply strip_idem|]. left. split; [reflexivity|].
    discriminate.
Qed.

End Service.

End ServiceFacts.


(** ** The routes: how the two services are put together *)

Module RoutesFacts.
Import AISimplifier DocumentProcessor Routes Shape Notions PyFacts.
Import NormalizerFacts ServiceFacts.

Lemma get_or_shape sh (content : pydict) field default :
  has_shape sh content field = true ->
  sh (get_or content field default) = true.
Proof.
  unfold has_shape, get_or. destruct (dict_get field content); congruence.
Qed.

Lemma get_or_found (content : pydict) field default v :
  dict_get field content = Some v -> get_or content field default = v.
Proof. unfold get_or. now intros ->. Qed.

Lemma no_call_among_strategies ran c : ~ In (Called c) (map Ran ran).
Proof.
  induction ran as [|s ran IH]; simpl; [tauto|].
  intros [H|H]; [discriminate H|contradiction].
Qed.

Lemma split_on_not_nil sep (s : str) : split_on sep s <> [].
Proof.
  induction s as [|c s IH]; simpl; [discriminate|].
  destruct (N.eqb c sep); [discriminate|].
  destruct (split_on sep s); [contradiction|discriminate].
Qed.

(** Splitting at a separator splits the text on each side of it. *)
Lemma split_on_app sep (a b : str) :
  split_on sep (a ++ sep :: b) = split_on sep a ++ split_on sep b.
Proof.
  induction a as [|c a IH]; simpl.
  - now rewrite N.eqb_refl.
  - destruct (N.eqb c sep); [now rewrite IH|].
    rewrite IH. pose proof (split_on_not_nil sep a) as N.
    destruct (split_on sep a); [contradiction|reflexivity].
Qed.

Lemma split_on_none sep (s : str) :
  existsb (fun c => N.eqb c sep) s = false -> split_on sep s = [s].
Proof.
  induction s as [|c s IH]; [reflexivity|]. simpl.
  intros H. apply orb_false_iff in H as [Hc Hs].
  now rewrite Hc, IH.
Qed.

Lemma split_on_prefix sep (w s : str) :
  existsb (fun c => N.eqb c sep) w = false ->
  split_on sep (w ++ s)
  = (w ++ hd [] (split_on sep s)) :: tl (split_on sep s).
Proof.
  induction w as [|x w IH]; intros H.
  - change ([] ++ s) with s. pose proof (split_on_not_nil sep s) as N.
    destruct (split_on sep s); [contradiction|reflexivity].
  - simpl in H. apply orb_false_iff in H as [Hx Hw].
    change (split_on sep ((x :: w) ++ s))
      with (if N.eqb x sep then [] :: split_on sep (w ++ s)
            else match split_on sep (w ++ s) with
                 | [] => [[x]]
                 | h :: t => (x :: h) :: t
                 end).
    rewrite Hx, (IH Hw). reflexivity.
Qed.

Lemma lower_char_dot (c : char) :
  existsb (fun x => N.eqb x 46) (lower_char c) = N.eqb c 46.
Proof.
  unfold lower_char.
  destruct (N.leb_spec 65 c); destruct (N.leb_spec c 90); cbn [andb];
    try (destruct (N.eqb_spec c 8490); [subst; reflexivity|];
         destruct (N.eqb_spec c 304); [subst; reflexivity|];
         simpl; apply orb_false_r).
  simpl. rewrite orb_false_r.
  destruct (N.eqb_spec (c + 32) 46); destruct (N.eqb_spec c 46);
    try reflexivity; lia.
Qed.

Lemma lower_dot (s : str) :
  existsb (fun x => N.eqb x 46) (lower s)
  = existsb (fun x => N.eqb x 46) s.
Proof.
  induction s as [|c s IH]; [reflexivity|].
  change (lower (c :: s)) with (lower_char c ++ lower s).
  rewrite existsb_app, lower_char_dot. unfold char in *.
  rewrite IH. reflexivity.
Qed.

(** Lower-casing a name and cutting it at the dots can be done in either
    order. *)
Lemma split_on_lower (s : str) :
  split_on 46%N (lower s) = map lower (split_on 46%N s).
Proof.
  induction s as [|c s IH]; [reflexivity|].
  change (lower (c :: s)) with (lower_char c ++ lower s).
  pose proof (lower_char_dot c) as D.
  change (split_on 46%N (c :: s))
    with (if N.eqb c 46 then [] :: split_on 46%N s
          else match split_on 46%N s with
               | [] => [[c]]
               | h :: t => (c :: h) :: t
               end).
  destruct (N.eqb_spec c 46) as [->|Hc].
  - change (lower_char 46%N) with [46%N]. simpl. now rewrite IH.
  - rewrite (split_on_prefix _ _ _ D), IH.
    pose proof (split_on_not_nil 46%N s) as N.
    destruct (split_on 46%N s) as [|h t]; [contradiction|reflexivity].
Qed.

Lemma last_map_lower (l : list str) :
  last (map lower l) [] = lower (last l []).
Proof.
  induction l as [|x [|y l] IH]; try reflexivity.
  exact IH.
Qed.

Lemma document_type_of_lower (name : str) :
  document_type_of (lower name) = document_type_of name.
Proof.
  unfold document_type_of.
  now rewrite split_on_lower, last_map_lower, ComplexityFacts.lower_idem.
Qed.

(** X11.  The type of an uploaded file depends on the text after the last
    dot of its name only, whatever the case of its letters: a name that ends
    in a dot followed by [other] has the type of the bare name [ext] as soon
    as [other] and [ext] differ by case only. *)
Theorem document_type_of_last_extension (stem other ext : str) :
  existsb (fun c => N.eqb c 46) ext = false ->
  lower other = lower ext ->
  document_type_of (stem ++ 46%N :: other) = document_type_of ext.
Proof.
  intros H E.
  assert (Ho : existsb (fun c => N.eqb c 46) other = false)
    by (now rewrite <- lower_dot, E, lower_dot).
  transitivity (document_type_of other).
  - unfold document_type_of.
    rewrite split_on_app, (split_on_none _ _ Ho), last_last. reflexivity.
  - rewrite <- (document_type_of_lower other), E.
    apply document_type_of_lower.
Qed.

Section Routes.
Variable documentai_client : bool.
Variable vision_client : bool.
Variable storage_download : str -> result (option bytes).
Variable pdfplumber_pages : bytes -> result (list (option str)).
Variable pypdf2_pages : bytes -> result (list (option str)).
Variable docx_open : bytes -> result docx.
Variable vision_text_detection : bytes -> result (list str).
Variable tesseract_image_to_string : bytes -> result str.
Variable decode_utf8_ignore : bytes -> str.
Variable repr : pyval -> str.
Variable json_loads : str -> result pyval.
Variable generate_content : str -> result (option str).
Variable _preprocess_text : str -> str.
Variable _create_simplification_prompt : str -> str -> str -> str.
Variable question_prompt : str -> str -> str -> str.
Variable utcnow_isoformat : str.
Variable get_document_metadata : str -> result (option DocumentMetadata).
Variable validate_document : SimplifiedDocument -> result unit.
Variable validate_answer : QAResponse -> result unit.
Variable store_simplified_document : SimplifiedDocument -> result unit.

Local Notation extract :=
  (extract_text documentai_client vision_client storage_download
     pdfplumber_pages pypdf2_pages docx_open vision_text_detection
     tesseract_image_to_string decode_utf8_ignore).
Local Notation simplify :=
  (simplify_document repr json_loads generate_content _preprocess_text
     _create_simplification_prompt utcnow_isoformat).
Local Notation answer :=
  (answer_question generate_content _preprocess_text question_prompt).
Local Notation process_document :=
  (process_document documentai_client vision_client storage_download
     pdfplumber_pages pypdf2_pages docx_open vision_text_detection
     tesseract_image_to_string decode_utf8_ignore repr json_loads
     generate_content _preprocess_text _create_simplification_prompt
     utcnow_isoformat get_document_metadata validate_document
     store_simplified_document).
Local Notation ask_document_question :=
  (ask_document_question documentai_client vision_client storage_download
     pdfplumber_pages pypdf2_pages docx_open vision_text_detection
     tesseract_image_to_string decode_utf8_ignore generate_content
     _preprocess_text question_prompt get_document_metadata validate_answer).

(** X12.  [process_document] answers 404 for an unknown document and 422
    when the extraction gives no text, the empty string included, in both
    cases without a call to the simplifier; the simplifier is only ever
    called on an extracted text that is not empty, and an exception it
    raises comes out as status 500. *)
Theorem process_document_needs_text document_id request :
  (get_document_metadata document_id = Return None ->
   process_document document_id request = ([], HTTPException 404))
  /\ (forall metadata,
        get_document_metadata document_id = Return (Some metadata) ->
        let extraction :=
          extract document_id (file_type metadata) (storage_path metadata) in
        (snd extraction = None \/ snd extraction = Some [] ->
         process_document document_id request
         = (map Ran (fst extraction), HTTPException 422))
        /\ (forall text e,
              snd extraction = Some text -> text <> [] ->
              snd (simplify text (simplification_level request)
                            (target_audience request)) = Raise e ->
              snd (process_document document_id request)
              = HTTPException 500))
  /\ (forall c,
        In (Called c) (fst (process_document document_id request)) ->
        exists metadata text,
          get_document_metadata document_id = Return (Some metadata)
          /\ snd (extract document_id (file_type metadata)
                          (storage_path metadata)) = Some text
          /\ text <> []).
Proof.
  unfold Routes.process_document. split; [now intros ->|]. split.
  - intros metadata Hm. rewrite Hm. cbv zeta.
    destruct (extract document_id (file_type metadata)
                      (storage_path metadata)) as [ran extracted].
    cbn [fst snd]. split.
    + intros [-> | ->]; reflexivity.
    + intros text e -> Hne.
      destruct text as [|x text]; [contradiction|]. cbn [is_nil].
      destruct (simplify (x :: text) _ _) as [calls outcome].
      cbn [snd]. now intros ->.
  - intros c.
    destruct (get_document_metadata document_id) as [[metadata|]|e];
      try (simpl; contradiction).
    destruct (extract document_id (file_type metadata)
                      (storage_path metadata)) as [ran extracted] eqn:He.
    destruct extracted as [[|x text]|]; cbn [is_nil fst];
      try (intros H; now apply no_call_among_strategies in H).
    intros _. exists metadata, (x :: text). rewrite He.
    split; [reflexivity|]. split; [reflexivity|discriminate].
Qed.

(** X13.  When [process_document] answers with a document, the simplifier
    was called and every field of the answer has the type the response model
    declares: a summary string whose word count is the one reported, four
    sequences of strings, a mapping from strings to strings, a confidence
    score between 0.5 and 1 and a reading level among the five labels. *)
Theorem process_document_answer_is_well_typed
  document_id request effects body :
  process_document document_id request = (effects, OK body) ->
  (exists prompt reply,
      In (Called (GenerateContent prompt)) effects
      /\ In (Called (ParseAIResponse reply)) effects)
  /\ (exists summary,
        sd_summary body = PStr summary
        /\ sd_word_count_simplified body = length (split_ws summary))
  /\ str_list (sd_key_points body) = true
  /\ str_dict (sd_important_terms body) = true
  /\ str_list (sd_deadlines_obligations body) = true
  /\ str_list (sd_warnings body) = true
  /\ str_list (sd_next_steps body) = true
  /\ (exists score,
        sd_confidence_score body = PFloat score
        /\ (0.5 <=? score)%float = true /\ (score <=? 1)%float = true)
  /\ (exists label,
        sd_reading_level body = PStr label /\ In label READING_LEVELS)
  /\ sd_simplification_level body = simplification_level request.
Proof.
  unfold Routes.process_document.
  destruct (get_document_metadata document_id) as [[metadata|]|e];
    try discriminate.
  destruct (extract document_id (file_type metadata)
                    (storage_path metadata)) as [ran extracted].
  destruct extracted as [[|x text]|]; cbn [is_nil]; try discriminate.
  destruct (simplify (x :: text) (simplification_level request)
                     (target_audience request)) as [calls outcome] eqn:S.
  destruct outcome as [content|e]; [|discriminate].
  destruct (simplify_document_returns _ _ _ _ _ _ _ _ _ _ _ S)
    as (reply & parsed & _ & _ & Hcalls & _).
  destruct (simplify_document_fields _ _ _ _ _ _ _ _ _ _ _ S)
    as (Hshape & (score & Hscore & Hlo & Hhi) & (label & Hlabel & Hin) & _).
  apply well_shaped_fields in Hshape as (H1 & H2 & H3 & H4 & H5 & H6).
  unfold respond_simplified.
  pose proof (get_or_shape is_str content SUMMARY (PStr []) H1) as Hsum.
  destruct (get_or content SUMMARY (PStr [])) as [| | | |summary| |] eqn:G;
    try discriminate Hsum.
  cbn [py_split].
  match goal with
  | |- context [validate_document ?d] =>
      destruct (validate_document d); [|discriminate];
      destruct (store_simplified_document d); [|discriminate]
  end.
  intros H. injection H as <- <-. cbn.
  split.
  { subst calls. eexists. exists reply.
    split; apply in_or_app; right; simpl; auto. }
  split; [exists summary; split; reflexivity|].
  repeat (split; [now apply get_or_shape|]).
  split.
  { exists score. rewrite (get_or_found _ _ _ _ Hscore). auto. }
  split; [|reflexivity].
  exists label. rewrite (get_or_found _ _ _ _ Hlabel). auto.
Qed.

(** X14.  [ask_document_question] answers 404 for an unknown document and
    422 when the extraction gives no text, without calling the model. On an
    extracted text that is not empty it calls the model exactly once and
    never the normalizer; no failure of the model can make it fail: the
    answer it builds holds a stripped string and the score 0.7, or 0.3 for
    an empty or missing answer. *)
Theorem ask_document_question_outcome document_id request :
  (get_document_metadata document_id = Return None ->
   ask_document_question document_id request = ([], HTTPException 404))
  /\ forall metadata,
       get_document_metadata document_id = Return (Some metadata) ->
       let extraction :=
         extract document_id (file_type metadata) (storage_path metadata) in
       (snd extraction = None \/ snd extraction = Some [] ->
        ask_document_question document_id request
        = (map Ran (fst extraction), HTTPException 422))
       /\ (forall text,
             snd extraction = Some text -> text <> [] ->
             exists prompt answer_text score,
               fst (ask_document_question document_id request)
               = map Ran (fst extraction) ++ [Called (GenerateContent prompt)]
               /\ strip answer_text = answer_text
               /\ (score = 0.7%float /\ answer_text <> []
                   \/ score = 0.3%float)
               /\ let body :=
                    {| qa_document_id := document_id;
                       qa_question := question request;
                       qa_answer := PStr answer_text;
                       qa_confidence_score := PFloat score |} in
                  snd (ask_document_question document_id request)
                  = match validate_answer body with
                    | Return _ => OK body
                    | Raise _ => HTTPException 500
                    end).
Proof.
  unfold Routes.ask_document_question. split; [now intros ->|].
  intros metadata Hm. rewrite Hm. cbv zeta.
  destruct (extract document_id (file_type metadata)
                    (storage_path metadata)) as [ran extracted].
  cbn [fst snd]. split.
  - intros [-> | ->]; reflexivity.
  - intros text -> Hne.
    destruct text as [|x text]; [contradiction|]. cbn [is_nil].
    destruct (answer_question_cases generate_content _preprocess_text
                question_prompt (x :: text) (question request)
                (qa_target_audience request))
      as (Hcalls & answer_text & score & Hres & Hstrip & Hscore).
    destruct (answer (x :: text) (question request)
                     (qa_target_audience request)) as [calls outcome].
    cbn [fst snd] in Hcalls, Hres. subst calls outcome.
    eexists. exists answer_text, score. cbn [fst snd map].
    split; [reflexivity|]. split; [exact Hstrip|]. split; [exact Hscore|].
    cbv zeta. unfold get_or. cbn [dict_get].
    field_tests. cbv iota.
    destruct (validate_answer _); reflexivity.
Qed.

End Routes.

End RoutesFacts.

(** ** The response normalizer: further properties *)

Module NormalizerProperties.
Import AISimplifier Shape PyFacts NormalizerFacts IdempotenceFacts.

Local Open Scope N_scope.

(** *** The brace span *)

Lemma find_first_split c (s : str) i :
  find_first c s = Some i ->
  s = firstn i s ++ c :: skipn (S i) s
  /\ existsb (fun x => x =? c) (firstn i s) = false.
Proof.
  revert i. induction s as [|x s IH]; intros i; simpl; [discriminate|].
  destruct (N.eqb_spec x c) as [->|Hx].
  - intros H. injection H as <-. split; reflexivity.
  - destruct (find_first c s) as [k|]; [|discriminate].
    intros H. injection H as <-.
    destruct (IH k eq_refl) as [E N]. split.
    + change (x :: s = x :: (firstn k s ++ c :: skipn (S k) s)).
      now rewrite <- E.
    + change ((x =? c) || existsb (fun x => x =? c) (firstn k s) = false).
      apply N.eqb_neq in Hx. now rewrite Hx, N.
Qed.

Lemma find_first_none c (s : str) :
  find_first c s = None <-> existsb (fun x => x =? c) s = false.
Proof.
  induction s as [|x s IH]; simpl; [tauto|].
  destruct (x =? c); simpl; [split; discriminate|].
  rewrite <- IH. destruct (find_first c s); simpl; split; congruence.
Qed.

Lemma find_last_none c (s : str) :
  find_last c s = None <-> existsb (fun x => x =? c) s = false.
Proof.
  induction s as [|x s IH]; simpl; [tauto|].
  destruct (find_last c s) as [k|].
  - split; [discriminate|]. intros H. apply orb_false_iff in H as [_ H].
    apply IH in H. discriminate H.
  - destruct (x =? c); simpl; [split; discriminate|]. tauto.
Qed.

Lemma find_last_split c (s : str) j :
  find_last c s = Some j ->
  s = firstn j s ++ c :: skipn (S j) s
  /\ existsb (fun x => x =? c) (skipn (S j) s) = false.
Proof.
  revert j. induction s as [|x s IH]; intros j; simpl; [discriminate|].
  destruct (find_last c s) as [k|] eqn:E.
  - intros H. injection H as <-.
    destruct (IH k eq_refl) as [Es N]. split; [|exact N].
    change (x :: s = x :: (firstn k s ++ c :: skipn (S k) s)).
    now rewrite <- Es.
  - destruct (N.eqb_spec x c) as [->|Hx]; [|discriminate].
    intros H. injection H as <-. split; [reflexivity|].
    simpl. now apply find_last_none.
Qed.

Lemma split_at_length {A} (l : list A) n x r :
  l = firstn n l ++ x :: r -> length (firstn n l) = n.
Proof.
  intros E. apply firstn_length_le.
  destruct (Nat.le_gt_cases n (length l)) as [H|H]; [exact H|].
  rewrite firstn_all2 in E by lia.
  apply (f_equal (@length A)) in E. rewrite length_app in E.
  simpl in E. lia.
Qed.

Lemma firstn_succ_split {A} (l : list A) n x r :
  l = firstn n l ++ x :: r -> firstn (S n) l = firstn n l ++ [x].
Proof.
  intros E. pose proof (split_at_length _ _ _ _ E) as Hlen.
  rewrite E at 1. rewrite firstn_app, Hlen.
  replace (S n - n)%nat with 1%nat by lia.
  rewrite firstn_all2 by lia. reflexivity.
Qed.

Lemma find_last_head c x (s : str) : find_last c (x :: s) = Some O -> x = c.
Proof.
  simpl. destruct (find_last c s); [discriminate|].
  destruct (N.eqb_spec x c); [auto|discriminate].
Qed.

Lemma existsb_app_false {A} (p : A -> bool) (a b : list A) :
  existsb p (a ++ b) = false <-> existsb p a = false /\ existsb p b = false.
Proof. rewrite existsb_app. apply orb_false_iff. Qed.

(** X15.  The part of a reply that is handed to the JSON decoder runs from
    the first opening brace of the reply to its last closing brace: the text
    around it is dropped, and there is no such part exactly when no closing
    brace follows the first opening one. *)
Theorem brace_span_is_first_to_last (text : str) :
  (forall span,
      re_search_braces text = Some span ->
      exists before body after,
        text = before ++ span ++ after
        /\ span = 123 :: body ++ [125]
        /\ existsb (fun c => c =? 123) before = false
        /\ existsb (fun c => c =? 125) after = false)
  /\ (re_search_braces text = None <->
      forall before after,
        text = before ++ 123 :: after ->
        existsb (fun c => c =? 123) before = false ->
        existsb (fun c => c =? 125) after = false).
Proof.
  unfold re_search_braces. split.
  - intros span.
    destruct (find_first 123 text) as [i|] eqn:F; [|discriminate].
    destruct (find_first_split _ _ _ F) as [Et Nb].
    destruct (find_last 125 (skipn i text)) as [j|] eqn:L; [|discriminate].
    intros H. injection H as <-.
    destruct (find_last_split _ _ _ L) as [Es Na].
    assert (Hskip : skipn i text = 123 :: skipn (S i) text).
    { rewrite Et at 1. rewrite skipn_app.
      pose proof (split_at_length _ _ _ _ Et) as Hlen.
      rewrite Hlen, Nat.sub_diag, skipn_all2 by lia. reflexivity. }
    destruct j as [|j].
    { rewrite Hskip in L. apply find_last_head in L. discriminate L. }
    exists (firstn i text), (firstn j (skipn (S i) text)),
           (skipn (S (S j)) (skipn i text)).
    split; [|split; [|split; [exact Nb|exact Na]]].
    + change (text = firstn i text ++ firstn (S (S j)) (skipn i text)
                     ++ skipn (S (S j)) (skipn i text)).
      rewrite (firstn_skipn (S (S j)) (skipn i text)).
      symmetry. apply firstn_skipn.
    + change (firstn (S (S j)) (skipn i text)
              = 123 :: firstn j (skipn (S i) text) ++ [125]).
      rewrite Hskip in Es. rewrite Hskip.
      set (rest := skipn (S i) text) in *. clearbody rest.
      change (123 :: rest
              = 123 :: (firstn j rest ++ 125 :: skipn (S j) rest)) in Es.
      injection Es as Es.
      change (123 :: firstn (S j) rest = 123 :: firstn j rest ++ [125]).
      f_equal. exact (firstn_succ_split _ _ _ _ Es).
  - split.
    + intros H before after Et Nb.
      assert (F : find_first 123 text = Some (length before)).
      { rewrite Et. clear Et H. induction before as [|x b IH]; simpl.
        - reflexivity.
        - simpl in Nb. apply orb_false_iff in Nb as [Hx Nb].
          now rewrite Hx, (IH Nb). }
      rewrite F in H.
      assert (Hs : skipn (length before) text = 123 :: after).
      { rewrite Et, skipn_app, Nat.sub_diag, skipn_all2 by lia. reflexivity. }
      rewrite Hs in H.
      destruct (find_last 125 (123 :: after)) as [j|] eqn:L; [discriminate|].
      apply find_last_none in L. simpl in L. exact L.
    + intros H.
      destruct (find_first 123 text) as [i|] eqn:F; [|reflexivity].
      destruct (find_first_split _ _ _ F) as [Et Nb].
      pose proof (H _ _ Et Nb) as Na.
      assert (Hs : skipn i text = 123 :: skipn (S i) text).
      { rewrite Et at 1. rewrite skipn_app.
        pose proof (split_at_length _ _ _ _ Et) as Hlen.
        rewrite Hlen, Nat.sub_diag, skipn_all2 by lia. reflexivity. }
      rewrite Hs.
      assert (L : find_last 125 (123 :: skipn (S i) text) = None).
      { apply find_last_none. simpl. exact Na. }
      now rewrite L.
Qed.

(** *** The heuristic parser *)

Lemma detect_section_field l s :
  detect_section l = Some s -> In s (map fst required_fields).
Proof.
  unfold detect_section.
  repeat match goal with
         | |- context [if ?b then _ else _] => destruct b
         end;
    intros H; try discriminate H; injection H as <-; simpl; auto 10.
Qed.

Lemma detect_section_summary l :
  detect_section l = Some SUMMARY -> contains (lit "summary") l = true.
Proof.
  unfold detect_section.
  destruct (contains (lit "summary") l); [reflexivity|].
  repeat match goal with
         | |- context [if ?b then _ else _] => destruct b
         end;
    intros H; discriminate H.
Qed.

Lemma well_shaped_get (c : pydict) s :
  well_shaped c = true -> In s (map fst required_fields) ->
  exists v, dict_get s c = Some v
            /\ (s = SUMMARY -> is_str v = true)
            /\ (s = IMPORTANT_TERMS -> is_dict v = true)
            /\ (s <> SUMMARY -> s <> IMPORTANT_TERMS -> is_list v = true).
Proof.
  intros H Hin.
  apply well_shaped_fields in H as (H1 & H2 & H3 & H4 & H5 & H6).
  unfold has_shape in *. simpl in Hin.
  destruct Hin as [<-|[<-|[<-|[<-|[<-|[<-|[]]]]]]];
    match goal with
    | H : match dict_get ?f c with _ => _ end = true
      |- exists v, dict_get ?f c = Some v /\ _ =>
        destruct (dict_get f c) as [v|]; [|discriminate H];
        exists v; split; [reflexivity|];
        repeat split; intros; try discriminate; try congruence;
        destruct v; try discriminate H; reflexivity
    end.
Qed.

Lemma parse_line_section st line st' :
  (forall s, snd st = Some s -> In s (map fst required_fields)) ->
  parse_line st line = Return st' ->
  forall s, snd st' = Some s -> In s (map fst required_fields).
Proof.
  destruct st as [c sec]. cbn [snd]. intros Hsec. unfold parse_line.
  destruct (is_nil (strip line)); [intros R; injection R as <-; exact Hsec|].
  destruct (detect_section _) as [s0|] eqn:D.
  { intros R. injection R as <-. cbn [snd]. intros s E. injection E as <-.
    eapply detect_section_field, D. }
  destruct (_ || _ || _).
  { destruct sec as [s0|]; [|intros R; injection R as <-; exact Hsec].
    destruct (negb (is_nil s0) && negb (str_eqb s0 IMPORTANT_TERMS));
      [|intros R; injection R as <-; exact Hsec].
    destruct (append_item c s0 _); cbn [bind]; [|discriminate].
    intros R. injection R as <-. exact Hsec. }
  destruct (is_section sec SUMMARY).
  { destruct (getitem c SUMMARY); cbn [bind]; [|discriminate].
    destruct (negb (truthy a)); intros R; injection R as <-; exact Hsec. }
  destruct (is_section sec IMPORTANT_TERMS && _);
    [|intros R; injection R as <-; exact Hsec].
  destruct (split_once _ _) as [|term [|definition [|? ?]]];
    try (intros R; injection R as <-; exact Hsec).
  destruct (getitem c IMPORTANT_TERMS); cbn [bind]; [|discriminate].
  destruct (as_dict a); cbn [bind]; [|discriminate].
  intros R. injection R as <-. exact Hsec.
Qed.

(** What a line makes the parser do: it raises on a bullet read under the
    summary heading and on nothing else. *)
Lemma parse_line_outcome st line :
  well_shaped (fst st) = true ->
  (forall s, snd st = Some s -> In s (map fst required_fields)) ->
  (exists st', parse_line st line = Return st')
  \/ (parse_line st line = Raise AttributeError
      /\ snd st = Some SUMMARY
      /\ (startswith (lit "-") (strip line) || startswith BULLET (strip line)
          || startswith (lit "*") (strip line)) = true).
Proof.
  destruct st as [c sec]. cbn [fst snd]. intros Hc Hsec. unfold parse_line.
  destruct (is_nil (strip line)); [left; eexists; reflexivity|].
  destruct (detect_section _); [left; eexists; reflexivity|].
  destruct (_ || _ || _) eqn:B.
  { destruct sec as [s0|]; [|left; eexists; reflexivity].
    destruct (is_nil s0) eqn:N0; cbn [negb andb];
      [left; eexists; reflexivity|].
    destruct (str_eqb s0 IMPORTANT_TERMS) eqn:E3; cbn [negb];
      [left; eexists; reflexivity|].
    destruct (well_shaped_get c s0 Hc (Hsec s0 eq_refl))
      as (v & Hget & Hs & _ & Hl).
    unfold append_item, getitem. rewrite Hget. cbn [bind].
    destruct (str_eqb s0 SUMMARY) eqn:E1.
    - apply str_eqb_eq in E1. subst s0. right.
      specialize (Hs eq_refl). destruct v; try discriminate Hs.
      repeat split.
    - left. apply str_eqb_neq in E1, E3. specialize (Hl E1 E3).
      destruct v; try discriminate Hl. eexists. reflexivity. }
  destruct (is_section sec SUMMARY).
  { destruct (well_shaped_get c SUMMARY Hc) as (v & Hget & _);
      [simpl; auto|].
    unfold getitem. rewrite Hget. cbn [bind].
    destruct (negb (truthy v)); left; eexists; reflexivity. }
  destruct (is_section sec IMPORTANT_TERMS && _);
    [|left; eexists; reflexivity].
  destruct (split_once _ _) as [|term [|definition [|? ?]]];
    try (left; eexists; reflexivity).
  destruct (well_shaped_get c IMPORTANT_TERMS Hc) as (v & Hget & _ & Hd & _);
    [simpl; auto|].
  unfold getitem. rewrite Hget. cbn [bind].
  specialize (Hd eq_refl). destruct v; try discriminate Hd.
  left. eexists. reflexivity.
Qed.

(** A line that does not mention the summary does not open it. *)
Lemma parse_line_not_summary st line st' :
  contains (lit "summary") (lower (strip line)) = false ->
  snd st <> Some SUMMARY ->
  parse_line st line = Return st' -> snd st' <> Some SUMMARY.
Proof.
  destruct st as [c sec]. cbn [snd]. intros Hno Hsec. unfold parse_line.
  destruct (is_nil (strip line)); [intros R; injection R as <-; exact Hsec|].
  destruct (detect_section _) as [s0|] eqn:D.
  { intros R. injection R as <-. cbn [snd]. intros E. injection E as ->.
    apply detect_section_summary in D. congruence. }
  destruct (_ || _ || _).
  { destruct sec as [s0|]; [|intros R; injection R as <-; exact Hsec].
    destruct (negb (is_nil s0) && negb (str_eqb s0 IMPORTANT_TERMS));
      [|intros R; injection R as <-; exact Hsec].
    destruct (append_item c s0 _); cbn [bind]; [|discriminate].
    intros R. injection R as <-. exact Hsec. }
  destruct (is_section sec SUMMARY).
  { destruct (getitem c SUMMARY); cbn [bind]; [|discriminate].
    destruct (negb (truthy a)); intros R; injection R as <-; exact Hsec. }
  destruct (is_section sec IMPORTANT_TERMS && _);
    [|intros R; injection R as <-; exact Hsec].
  destruct (split_once _ _) as [|term [|definition [|? ?]]];
    try (intros R; injection R as <-; exact Hsec).
  destruct (getitem c IMPORTANT_TERMS); cbn [bind]; [|discriminate].
  destruct (as_dict a); cbn [bind]; [|discriminate].
  intros R. injection R as <-. exact Hsec.
Qed.

Lemma parse_lines_raise lines st e :
  well_shaped (fst st) = true ->
  (forall s, snd st = Some s -> In s (map fst required_fields)) ->
  parse_lines st lines = Raise e ->
  e = AttributeError
  /\ exists line,
       In line lines
       /\ (startswith (lit "-") (strip line) || startswith BULLET (strip line)
           || startswith (lit "*") (strip line)) = true.
Proof.
  revert st. induction lines as [|line lines IH]; intros st Hc Hsec;
    simpl; [discriminate|].
  destruct (parse_line_outcome st line Hc Hsec) as [[st' E]|(E & _ & B)];
    rewrite E; cbn [bind].
  - intros H.
    destruct (IH st') as (He & l & Hin & Hb); [| |exact H|].
    + eapply parse_line_shape; eassumption.
    + eapply parse_line_section; eassumption.
    + split; [exact He|]. exists l. auto.
  - intros H. injection H as <-. split; [reflexivity|].
    exists line. auto.
Qed.

Lemma parse_lines_return lines st :
  well_shaped (fst st) = true ->
  (forall s, snd st = Some s -> In s (map fst required_fields)) ->
  snd st <> Some SUMMARY ->
  (forall line, In line lines ->
                contains (lit "summary") (lower (strip line)) = false) ->
  exists st', parse_lines st lines = Return st'.
Proof.
  revert st. induction lines as [|line lines IH]; intros st Hc Hsec Hns Hno;
    simpl; [eexists; reflexivity|].
  destruct (parse_line_outcome st line Hc Hsec) as [[st' E]|(_ & E & _)];
    [|contradiction].
  rewrite E. cbn [bind]. apply IH.
  - eapply parse_line_shape; eassumption.
  - eapply parse_line_section; eassumption.
  - eapply parse_line_not_summary; [|exact Hns|exact E]. apply Hno. now left.
  - intros l Hl. apply Hno. now right.
Qed.

Lemma parse_text_response_raise text e :
  _parse_text_response text = Raise e ->
  e = AttributeError
  /\ exists line,
       In line (split_on NL text)
       /\ (startswith (lit "-") (strip line) || startswith BULLET (strip line)
           || startswith (lit "*") (strip line)) = true.
Proof.
  unfold _parse_text_response.
  destruct (parse_lines _ _) as [st|e0] eqn:E; cbn [bind]; [discriminate|].
  intros H. injection H as <-.
  eapply parse_lines_raise; [| |exact E]; [reflexivity|discriminate].
Qed.

Lemma parse_text_response_return text :
  (forall line, In line (split_on NL text) ->
                contains (lit "summary") (lower (strip line)) = false) ->
  exists c, _parse_text_response text = Return c.
Proof.
  intros Hno. unfold _parse_text_response.
  destruct (parse_lines_return (split_on NL text) (required_fields, None))
    as [st E]; try assumption; try reflexivity; try discriminate.
  rewrite E. cbn [bind]. eexists. reflexivity.
Qed.

Section Normalizer.
Variable repr : pyval -> str.
Variable json_loads : str -> result pyval.

Local Notation normalize := (_parse_ai_response repr json_loads).
Local Notation validate := (_validate_and_clean_content repr).
Local Notation validate_dict := (validate_dict repr).
Local Notation ensure_field := (ensure_field repr).

(** What makes the normalizer raise. *)
Lemma normalize_raise text e :
  normalize text = Raise e ->
  exists span,
    re_search_braces text = Some span
    /\ json_loads span = Raise JSONDecodeError
    /\ _parse_text_response text = Raise e.
Proof.
  unfold _parse_ai_response, parse_ai_body.
  destruct (re_search_braces text) as [span|].
  - destruct (json_loads span) as [v|e0] eqn:J; cbn [bind].
    + destruct v; cbn [_validate_and_clean_content]; try discriminate.
      destruct (validate_dict_cleaned repr d) as (c1 & -> & _). discriminate.
    + destruct e0; try discriminate.
      intros H. exists span. auto.
  - destruct (_parse_text_response text) as [c1|e0] eqn:E; [discriminate|].
    destruct (parse_text_response_raise _ _ E) as [-> _]. discriminate.
Qed.

(** X16.  Whenever the normalizer returns, whichever of its three tiers
    answered, the result holds the six content fields: a string summary,
    four sequences of strings and a mapping from strings to strings. *)
Theorem normalizer_result_has_six_fields text content :
  normalize text = Return content -> well_shaped content = true.
Proof. apply parse_ai_response_shape. Qed.

(** X17.  The only exception that leaves the normalizer is the
    [AttributeError] of the heuristic parser run by the handler of the
    decoding error: the reply has a brace span that is not JSON, and one of
    its lines is a bullet, which the parser met under the summary heading. *)
Theorem normalizer_raises_only_attribute_error text e :
  normalize text = Raise e ->
  e = AttributeError
  /\ (exists span,
        re_search_braces text = Some span
        /\ json_loads span = Raise JSONDecodeError)
  /\ _parse_text_response text = Raise AttributeError
  /\ exists line,
       In line (split_on NL text)
       /\ (startswith (lit "-") (strip line) || startswith BULLET (strip line)
           || startswith (lit "*") (strip line)) = true.
Proof.
  intros H. destruct (normalize_raise _ _ H) as (span & Hs & Hj & Hp).
  destruct (parse_text_response_raise _ _ Hp) as [-> Hline].
  split; [reflexivity|]. split; [exists span; auto|]. auto.
Qed.

(** X18.  A reply in which no line holds the word summary, in upper or lower
    case, is always normalized: the normalizer returns a content with the
    six fields, whatever the decoder does. *)
Theorem normalizer_returns_without_summary_heading text :
  (forall line, In line (split_on NL text) ->
                contains (lit "summary") (lower (strip line)) = false) ->
  exists content,
    normalize text = Return content /\ well_shaped content = true.
Proof.
  intros Hno. destruct (normalize text) as [content|e] eqn:E.
  - exists content. split; [reflexivity|].
    eapply parse_ai_response_shape, E.
  - destruct (normalize_raise _ _ E) as (_ & _ & _ & Hp).
    destruct (parse_text_response_return text Hno) as [c Hc].
    congruence.
Qed.

(** *** The validation pass *)

Lemma ensure_fields_other (fields : pydict) (c : pydict) k :
  (forall fd, In fd fields -> str_eqb (fst fd) k = false) ->
  dict_get k (fold_left ensure_field fields c) = dict_get k c.
Proof.
  revert c. induction fields as [|fd fields IH]; intros c H; simpl;
    [reflexivity|].
  rewrite IH by (intros fd' Hin; apply H; now right).
  apply ensure_field_other. apply H. now left.
Qed.

Lemma ensure_field_missing (c : pydict) f dflt :
  dict_get f c = None -> dict_get f (ensure_field c (f, dflt)) = Some dflt.
Proof.
  intros H. unfold AISimplifier.ensure_field. rewrite H.
  apply dict_get_set_same.
Qed.

Lemma ensure_fields_missing (d : pydict) f dflt :
  In (f, dflt) required_fields -> dict_get f d = None ->
  dict_get f (fold_left ensure_field required_fields d) = Some dflt.
Proof.
  intros Hin Hnone. unfold required_fields in *. cbn [fold_left].
  simpl in Hin.
  repeat (destruct Hin as [Hin|Hin];
          [ injection Hin as <- <-;
            rewrite ?ensure_field_other by reflexivity;
            rewrite ensure_field_missing; [reflexivity|];
            rewrite ?ensure_field_other by reflexivity; exact Hnone
          | ]).
  contradiction.
Qed.

Lemma not_in_fields k :
  ~ In k (map fst required_fields) ->
  forall f, In f (map fst required_fields) -> str_eqb f k = false.
Proof.
  intros Hk f Hf. apply str_eqb_neq. intros ->. contradiction.
Qed.

(** X19.  The validation pass gives a field that the decoded object lacks
    its empty default: the empty string for the summary, the empty mapping
    for the terms, the empty sequence for the four others. *)
Theorem validation_fills_missing_fields (d : pydict) field default :
  In (field, default) required_fields ->
  dict_get field d = None ->
  exists content,
    validate (PDict d) = Return content
    /\ dict_get field content = Some default.
Proof.
  intros Hin Hnone. cbn [_validate_and_clean_content].
  pose proof (ensure_fields_missing d _ _ Hin Hnone) as Hd.
  destruct (validate_dict_eq repr d)
    as (s & kp & dl & w & ns & t & Hs & Hkp & Hdl & Hw & Hns & Ht & Hv).
  cbv zeta in Hs, Hkp, Hdl, Hw, Hns, Ht, Hv.
  eexists. split; [exact Hv|].
  unfold required_fields in Hin. simpl in Hin.
  destruct Hin as [Hin|[Hin|[Hin|[Hin|[Hin|[Hin|[]]]]]]];
    injection Hin as <- <-;
    rewrite ?dict_get_set_other by reflexivity;
    rewrite dict_get_set_same.
  - rewrite Hd in Hs. injection Hs as <-. reflexivity.
  - rewrite Hd in Hkp. injection Hkp as <-. reflexivity.
  - rewrite Hd in Ht. injection Ht as <-. reflexivity.
  - rewrite Hd in Hdl. injection Hdl as <-. reflexivity.
  - rewrite Hd in Hw. injection Hw as <-. reflexivity.
  - rewrite Hd in Hns. injection Hns as <-. reflexivity.
Qed.

(** X20.  The validation pass reads and writes the six content fields only:
    any other entry of the decoded object is in the result with the value it
    had. *)
Theorem validation_keeps_other_entries (d : pydict) key content :
  ~ In key (map fst required_fields) ->
  validate (PDict d) = Return content ->
  dict_get key content = dict_get key d.
Proof.
  intros Hk. cbn [_validate_and_clean_content].
  pose proof (not_in_fields key Hk) as Hne.
  destruct (validate_dict_eq repr d)
    as (s & kp & dl & w & ns & t & _ & _ & _ & _ & _ & _ & Hv).
  cbv zeta in Hv.
  set (c0 := fold_left ensure_field required_fields d) in Hv.
  rewrite Hv. intros H. injection H as <-.
  rewrite !dict_get_set_other by (apply Hne; simpl; auto 10).
  subst c0. apply ensure_fields_other.
  intros fd Hin. apply Hne. now apply in_map.
Qed.

(** X21.  Running the validation pass on its own output changes nothing, as
    long as no term of the output has an empty name or an empty definition. *)
Theorem validation_is_idempotent_without_blank_terms
  (content : pyval) (once : pydict) :
  validate content = Return once ->
  has_shape no_empty_entry once IMPORTANT_TERMS = true ->
  validate (PDict once) = Return once.
Proof. apply validate_idempotent_unless_blank. Qed.

End Normalizer.

End NormalizerProperties.

(** ** The document processor: the text of a Word document *)

Module DispatcherProperties.
Import DocumentProcessor PyFacts.

Lemma join_nil sep (parts : list str) :
  (forall p, In p parts -> p <> []) ->
  join sep parts = [] <-> parts = [].
Proof.
  intros H. destruct parts as [|p [|q rest]]; cbn [join].
  - tauto.
  - split; [|discriminate].
    intros E. exfalso. apply (H p); [now left|exact E].
  - split; [|discriminate].
    intros E. apply app_eq_nil in E as [E _].
    exfalso. apply (H p); [now left|exact E].
Qed.

Lemma filter_nil {A} (p : A -> bool) (l : list A) :
  filter (fun x => negb (p x)) l = [] <-> forallb p l = true.
Proof.
  induction l as [|x l IH]; simpl; [tauto|].
  destruct (p x); simpl; [exact IH|split; discriminate].
Qed.

Lemma flat_map_nil {A B} (f : A -> list B) (l : list A) :
  flat_map f l = [] <-> forall x, In x l -> f x = [].
Proof.
  induction l as [|x l IH]; simpl.
  - split; [intros _ y []|reflexivity].
  - split.
    + intros E. apply app_eq_nil in E as [Ex El].
      intros y [<-|Hy]; [exact Ex|]. now apply IH.
    + intros H. rewrite (H x) by now left. apply IH.
      intros y Hy. apply H. now right.
Qed.

Lemma forallb_all {A} (p : A -> bool) (l : list A) :
  forallb p l = true <-> forall x, In x l -> p x = true.
Proof. apply forallb_forall. Qed.

(** A row gives no part exactly when all its cells are blank, and the part
    it gives is never empty. *)
Lemma row_parts_nil (row : list str) :
  row_parts row = []
  <-> forallb (fun cell => is_nil (strip cell)) row = true.
Proof.
  unfold row_parts.
  destruct (map strip (filter _ row)) as [|c cs] eqn:E; cbn [is_nil].
  - split; [intros _|reflexivity].
    apply map_eq_nil in E. now apply filter_nil in E.
  - split; [discriminate|].
    intros H. exfalso.
    assert (F : filter (fun cell => negb (is_nil (strip cell))) row = []).
    { now apply filter_nil. }
    rewrite F in E. discriminate E.
Qed.

Lemma row_parts_not_empty (row : list str) p :
  In p (row_parts row) -> p <> [].
Proof.
  unfold row_parts.
  destruct (map strip (filter _ row)) as [|c cs] eqn:E; cbn [is_nil];
    [intros []|].
  intros [<-|[]]. intros J.
  apply join_nil in J; [discriminate J|].
  intros q Hq. rewrite <- E in Hq. apply in_map_iff in Hq as (cell & <- & Hc).
  apply filter_In in Hc as [_ Hc]. intros N. now rewrite N in Hc.
Qed.

Section Processor.
Variable docx_open : bytes -> result docx.

Local Notation docx_text := (_extract_docx_text docx_open).

Lemma docx_text_nil_iff docx_content doc :
  docx_open docx_content = Return doc ->
  docx_text docx_content = Some []
  <-> forallb (fun p => is_nil (strip p)) (paragraphs doc) = true
      /\ forallb (forallb (forallb (fun cell => is_nil (strip cell))))
                 (tables doc) = true.
Proof.
  intros H. unfold _extract_docx_text. rewrite H.
  set (kept := filter (fun text => negb (is_nil (strip text)))
                      (paragraphs doc)).
  set (cells := flat_map (fun table => flat_map row_parts table)
                         (tables doc)).
  assert (Hparts : forall p, In p (kept ++ cells) -> p <> []).
  { intros p Hp. apply in_app_or in Hp as [Hp|Hp].
    - apply filter_In in Hp as [_ Hp]. intros N. now rewrite N in Hp.
    - apply in_flat_map in Hp as (table & _ & Hp).
      apply in_flat_map in Hp as (row & _ & Hp).
      eapply row_parts_not_empty, Hp. }
  assert (Hkept : kept = []
                  <-> forallb (fun p => is_nil (strip p)) (paragraphs doc)
                      = true).
  { unfold kept. apply filter_nil. }
  assert (Hcells : cells = []
                   <-> forallb (forallb (forallb
                                  (fun cell => is_nil (strip cell))))
                               (tables doc) = true).
  { unfold cells. rewrite flat_map_nil, forallb_all.
    split; intros G table Ht.
    - apply forallb_all. intros row Hr. apply row_parts_nil.
      specialize (G table Ht). rewrite flat_map_nil in G. now apply G.
    - apply flat_map_nil. intros row Hr. apply row_parts_nil.
      specialize (G table Ht). rewrite forallb_all in G. now apply G. }
  split.
  - intros E. injection E as E. apply join_nil in E; [|exact Hparts].
    apply app_eq_nil in E as [E1 E2].
    split; [now apply Hkept|now apply Hcells].
  - intros [H1 H2]. apply Hkept in H1. apply Hcells in H2.
    rewrite H1, H2. reflexivity.
Qed.

(** X22.  On a Word document that python-docx opens, the extracted text is
    the empty string exactly when no paragraph and no table cell holds
    anything but white space. *)
Theorem docx_text_is_empty_without_text docx_content doc :
  docx_open docx_content = Return doc ->
  docx_text docx_content = Some []
  <-> forallb (fun p => is_nil (strip p)) (paragraphs doc) = true
      /\ forallb (forallb (forallb (fun cell => is_nil (strip cell))))
                 (tables doc) = true.
Proof. apply docx_text_nil_iff. Qed.

End Processor.

End DispatcherProperties.

(** ** From the stored file to the answer of the route *)

Module PipelineFacts.
Import AISimplifier DocumentProcessor Routes PyFacts DispatcherProperties.

Section Pipeline.
Variable documentai_client : bool.
Variable vision_client : bool.
Variable storage_download : str -> result (option bytes).
Variable pdfplumber_pages : bytes -> result (list (option str)).
Variable pypdf2_pages : bytes -> result (list (option str)).
Variable docx_open : bytes -> result docx.
Variable vision_text_detection : bytes -> result (list str).
Variable tesseract_image_to_string : bytes -> result str.
Variable decode_utf8_ignore : bytes -> str.
Variable repr : pyval -> str.
Variable json_loads : str -> result pyval.
Variable generate_content : str -> result (option str).
Variable _preprocess_text : str -> str.
Variable _create_simplification_prompt : str -> str -> str -> str.
Variable question_prompt : str -> str -> str -> str.
Variable utcnow_isoformat : str.
Variable get_document_metadata : str -> result (option DocumentMetadata).
Variable validate_document : SimplifiedDocument -> result unit.
Variable validate_answer : QAResponse -> result unit.
Variable store_simplified_document : SimplifiedDocument -> result unit.

Local Notation extract :=
  (extract_text documentai_client vision_client storage_download
     pdfplumber_pages pypdf2_pages docx_open vision_text_detection
     tesseract_image_to_string decode_utf8_ignore).
Local Notation process_document :=
  (process_document documentai_client vision_client storage_download
     pdfplumber_pages pypdf2_pages docx_open vision_text_detection
     tesseract_image_to_string decode_utf8_ignore repr json_loads
     generate_content _preprocess_text _create_simplification_prompt
     utcnow_isoformat get_document_metadata validate_document
     store_simplified_document).
Local Notation ask_document_question :=
  (ask_document_question documentai_client vision_client storage_download
     pdfplumber_pages pypdf2_pages docx_open vision_text_detection
     tesseract_image_to_string decode_utf8_ignore generate_content
     _preprocess_text question_prompt get_document_metadata validate_answer).

Lemma extract_word_without_text document_id file_type storage_path content doc :
  file_type = DOC \/ file_type = DOCX ->
  storage_download storage_path = Return (Some content) ->
  content <> [] ->
  docx_open content = Return doc ->
  forallb (fun p => is_nil (strip p)) (paragraphs doc) = true ->
  forallb (forallb (forallb (fun cell => is_nil (strip cell)))) (tables doc)
  = true ->
  extract document_id file_type storage_path = ([PythonDocx], Some []).
Proof.
  intros Hft Hd Hne Ho Hp Ht.
  unfold extract_text, _download_document. rewrite Hd.
  destruct content as [|b content]; [contradiction|]. cbn [is_nil].
  assert (E : _extract_docx_text docx_open (b :: content) = Some [])
    by (apply (docx_text_nil_iff docx_open _ doc Ho); now split).
  destruct Hft as [-> | ->]; cbn [extract_by_type]; now rewrite E.
Qed.

(** X23.  A stored Word document that python-docx opens and that holds
    nothing but white space, in its paragraphs and in its tables, is
    answered with status 422 by both routes, after the one extraction
    strategy has run and without a call to the model. *)
Theorem word_document_without_text_is_rejected
  document_id request question_request metadata content doc :
  get_document_metadata document_id = Return (Some metadata) ->
  file_type metadata = DOC \/ file_type metadata = DOCX ->
  storage_download (storage_path metadata) = Return (Some content) ->
  content <> [] ->
  docx_open content = Return doc ->
  forallb (fun p => is_nil (strip p)) (paragraphs doc) = true ->
  forallb (forallb (forallb (fun cell => is_nil (strip cell)))) (tables doc)
  = true ->
  process_document document_id request
  = ([Ran PythonDocx], HTTPException 422)
  /\ ask_document_question document_id question_request
     = ([Ran PythonDocx], HTTPException 422).
Proof.
  intros Hm Hft Hd Hne Ho Hp Ht.
  pose proof (extract_word_without_text document_id _ _ _ _
                Hft Hd Hne Ho Hp Ht) as E.
  unfold Routes.process_document, Routes.ask_document_question.
  rewrite Hm, E. split; reflexivity.
Qed.

End Pipeline.

End PipelineFacts.

(** ** The batch route *)

Module BatchFacts.
Import AISimplifier DocumentProcessor Routes PyFacts.

Section Batch.
Variable documentai_client : bool.
Variable vision_client : bool.
Variable storage_download : str -> result (option bytes).
Variable pdfplumber_pages : bytes -> result (list (option str)).
Variable pypdf2_pages : bytes -> result (list (option str)).
Variable docx_open : bytes -> result docx.
Variable vision_text_detection : bytes -> result (list str).
Variable tesseract_image_to_string : bytes -> result str.
Variable decode_utf8_ignore : bytes -> str.
Variable repr : pyval -> str.
Variable json_loads : str -> result pyval.
Variable generate_content : str -> result (option str).
Variable _preprocess_text : str -> str.
Variable _create_simplification_prompt : str -> str -> str -> str.
Variable utcnow_isoformat : str.
Variable get_document_metadata : str -> result (option DocumentMetadata).
Variable validate_document : SimplifiedDocument -> result unit.
Variable store_simplified_document : SimplifiedDocument -> result unit.

Local Notation process_document :=
  (process_document documentai_client vision_client storage_download
     pdfplumber_pages pypdf2_pages docx_open vision_text_detection
     tesseract_image_to_string decode_utf8_ignore repr json_loads
     generate_content _preprocess_text _create_simplification_prompt
     utcnow_isoformat get_document_metadata validate_document
     store_simplified_document).
Local Notation batch_turn :=
  (batch_turn documentai_client vision_client storage_download
     pdfplumber_pages pypdf2_pages docx_open vision_text_detection
     tesseract_image_to_string decode_utf8_ignore repr json_loads
     generate_content _preprocess_text _create_simplification_prompt
     utcnow_isoformat get_document_metadata validate_document
     store_simplified_document).
Local Notation batch_process_documents :=
  (batch_process_documents documentai_client vision_client storage_download
     pdfplumber_pages pypdf2_pages docx_open vision_text_detection
     tesseract_image_to_string decode_utf8_ignore repr json_loads
     generate_content _preprocess_text _create_simplification_prompt
     utcnow_isoformat get_document_metadata validate_document
     store_simplified_document).

(** What one document adds to the three lists. *)
Local Notation made_by request document_id :=
  (fst (process_document document_id (individual_request request))).
Local Notation result_of request document_id :=
  (match snd (process_document document_id (individual_request request)) with
   | OK simplified_doc => [simplified_doc]
   | HTTPException _ => []
   end).
Local Notation error_of request document_id :=
  (match snd (process_document document_id (individual_request request)) with
   | OK _ => []
   | HTTPException status_code => [processing_error document_id status_code]
   end).

Lemma batch_loop request ids effects results errors :
  fold_left (batch_turn request) ids (effects, results, errors)
  = (effects ++ flat_map (fun id => made_by request id) ids,
     results ++ flat_map (fun id => result_of request id) ids,
     errors ++ flat_map (fun id => error_of request id) ids).
Proof.
  revert effects results errors.
  induction ids as [|id ids IH]; intros effects results errors.
  - simpl. now rewrite !app_nil_r.
  - cbn [fold_left flat_map]. unfold Routes.batch_turn at 2.
    destruct (process_document id (individual_request request))
      as [made outcome].
    destruct outcome as [simplified_doc|status_code]; rewrite IH;
      cbn [fst snd]; now rewrite <- !app_assoc, ?app_nil_r.
Qed.

Lemma batch_counts request ids :
  length (flat_map (fun id => result_of request id) ids)
  + length (flat_map (fun id => error_of request id) ids)
  = length ids.
Proof.
  induction ids as [|id ids IH]; [reflexivity|].
  cbn [flat_map]. rewrite !length_app.
  destruct (snd (process_document id (individual_request request)));
    cbn [length]; lia.
Qed.

(** X24.  The batch route works through its documents one by one, in the
    order of the request and each with the settings of the batch: its
    effects, its results and its errors are those of [process_document] on
    each document, put end to end. A document that fails, with whatever
    status, adds one error that names it and does not stop the documents
    after it. *)
Theorem batch_is_document_by_document request :
  let response := snd (batch_process_documents request) in
  fst (batch_process_documents request)
  = flat_map (fun id => made_by request id) (document_ids request)
  /\ batch_results response
     = flat_map (fun id => result_of request id) (document_ids request)
  /\ batch_errors response
     = flat_map (fun id => error_of request id) (document_ids request).
Proof.
  unfold Routes.batch_process_documents. rewrite batch_loop.
  cbn [fst snd batch_results batch_errors app]. auto.
Qed.

(** X25.  The counts of the batch response add up: the total is the number
    of identifiers requested, repeated ones included, every one of them is
    counted either as processed or as failed, and the two counts are the
    lengths of the two lists returned. *)
Theorem batch_counts_add_up request :
  let response := snd (batch_process_documents request) in
  total_documents response = length (document_ids request)
  /\ processed_documents response + failed_documents response
     = total_documents response
  /\ processed_documents response = length (batch_results response)
  /\ failed_documents response = length (batch_errors response).
Proof.
  unfold Routes.batch_process_documents. rewrite batch_loop.
  cbn [fst snd total_documents processed_documents failed_documents
       batch_results batch_errors app].
  split; [reflexivity|]. split; [apply batch_counts|]. split; reflexivity.
Qed.

End Batch.

End BatchFacts.

(** ** The metadata of a document *)

Module MetadataFacts.
Import AISimplifier DocumentProcessor Metadata PyFacts.

Section Processor.
Variable vision_client : bool.
Variable run_in_executor : result unit.
Variable str_of_exception : exn -> str.
Variable pdf_read : bytes -> result (nat * bool * bool).
Variable docx_open : bytes -> result docx.
Variable docx_has_blip : bytes -> result bool.
Variable image_open : bytes -> result (pyval * pyval).
Variable vision_confidences : bytes -> result (list (option float)).
Variable average : list float -> float.

Local Notation get_document_metadata :=
  (get_document_metadata vision_client run_in_executor str_of_exception
     pdf_read docx_open docx_has_blip image_open vision_confidences average).

(** Goes through the outcomes of the executor and of the libraries. *)
Ltac metadata_cases file_type :=
  unfold Metadata.get_document_metadata, metadata_body, type_metadata,
    _get_pdf_metadata, _get_docx_metadata, _get_image_metadata;
  destruct file_type;
  destruct run_in_executor as [[]|failure]; cbn [bind];
  repeat match goal with
         | |- context [pdf_read ?c] => destruct (pdf_read c) as [[[? ?] ?]|]
         | |- context [docx_open ?c] => destruct (docx_open c)
         | |- context [docx_has_blip ?c] => destruct (docx_has_blip c)
         | |- context [image_open ?c] => destruct (image_open c) as [[? ?]|]
         | |- context [if vision_client then _ else _] =>
             destruct vision_client
         | |- context [vision_confidences ?c] =>
             destruct (vision_confidences c) as [[|? ?]|]
         | |- context [collect_confidences (?a :: ?l)] =>
             destruct (collect_confidences (a :: l))
         end.

(** The three entries the upload route reads: no language, a method that
    is a string when there is one, a confidence that is a float when there
    is one. *)
Lemma metadata_optional_entries document_content file_type metadata :
  get_document_metadata document_content file_type = Return metadata ->
  dict_get (lit "language_detected") metadata = Some PNone
  /\ (dict_get (lit "extraction_method") metadata = Some PNone
      \/ exists method,
           dict_get (lit "extraction_method") metadata
           = Some (PStr method))
  /\ (dict_get (lit "ocr_confidence") metadata = Some PNone
      \/ exists score,
           dict_get (lit "ocr_confidence") metadata = Some (PFloat score)).
Proof.
  revert metadata.
  metadata_cases file_type;
    intros metadata H; injection H as <-;
    (split; [reflexivity|]);
    (split;
     [ first [ left; reflexivity | right; eexists; reflexivity ]
     | first [ left; reflexivity | right; eexists; reflexivity ] ]).
Qed.

(** X26.  [get_document_metadata] returns for every document, whatever the
    libraries and the executor do, and what it returns holds the type and
    the size it was given and no detected language. *)
Theorem metadata_always_returns document_content file_type :
  exists metadata,
    get_document_metadata document_content file_type = Return metadata
    /\ dict_get (lit "file_type") metadata
       = Some (PStr (type_value file_type))
    /\ dict_get (lit "size_bytes") metadata
       = Some (PInt (Z.of_nat (length document_content)))
    /\ dict_get (lit "language_detected") metadata = Some PNone.
Proof.
  metadata_cases file_type;
    (eexists; split; [reflexivity|]; repeat split; reflexivity).
Qed.

(** X27.  The metadata carries one processing note at most: the note of the
    OCR or of Vision, by the extraction method recorded, or the note of the
    handler when the executor refused the task. The note of Document AI is
    never written. *)
Theorem metadata_notes document_content file_type metadata :
  get_document_metadata document_content file_type = Return metadata ->
  exists notes,
    dict_get (lit "processing_notes") metadata = Some (PList notes)
    /\ (notes = []
        \/ (notes = [PStr NOTE_OCR]
            /\ dict_get (lit "extraction_method") metadata
               = Some (PStr (lit "ocr")))
        \/ (notes = [PStr NOTE_VISION]
            /\ dict_get (lit "extraction_method") metadata
               = Some (PStr (lit "google_vision")))
        \/ (exists e,
              run_in_executor = Raise e
              /\ notes = [PStr (NOTE_ERROR ++ str_of_exception e)]))
    /\ ~ In (PStr NOTE_DOCUMENTAI) notes.
Proof.
  assert (Herr : forall tail : str,
             PStr NOTE_DOCUMENTAI <> PStr (NOTE_ERROR ++ tail))
    by (intros tail H; vm_compute in H; discriminate H).
  revert metadata.
  metadata_cases file_type;
    intros metadata H; injection H as <-;
    (eexists; split; [reflexivity|]);
    (split;
     [ first [ left; reflexivity
             | right; left; split; reflexivity
             | right; right; left; split; reflexivity
             | right; right; right; eexists; split; reflexivity ]
     | cbn [In]; intros N;
       first [ contradiction
             | destruct N as [N|[]];
               first [ discriminate N | exact (Herr _ N) ] ] ]).
Qed.

(** X28.  The extraction method recorded is the one of the file type, or
    none: pdfplumber for a PDF, python-docx for a Word file, ocr or
    google_vision for an image, nothing for a text file and for a file the
    library could not read. An OCR confidence is recorded exactly with the
    method google_vision, which needs the Vision client. *)
Theorem extraction_method_by_type document_content file_type metadata :
  get_document_metadata document_content file_type = Return metadata ->
  exists method confidence,
    dict_get (lit "extraction_method") metadata = Some method
    /\ dict_get (lit "ocr_confidence") metadata = Some confidence
    /\ (method = PNone
        \/ (method = PStr (lit "pdfplumber") /\ file_type = PDF)
        \/ (method = PStr (lit "python-docx")
            /\ (file_type = DOC \/ file_type = DOCX))
        \/ (method = PStr (lit "ocr") /\ file_type = IMAGE)
        \/ (method = PStr (lit "google_vision")
            /\ file_type = IMAGE /\ vision_client = true))
    /\ (file_type = TEXT -> method = PNone)
    /\ (method = PStr (lit "google_vision")
        /\ (exists score, confidence = PFloat score)
        \/ method <> PStr (lit "google_vision") /\ confidence = PNone).
Proof.
  revert metadata.
  metadata_cases file_type;
    intros metadata H; injection H as <-;
    (eexists; eexists; split; [reflexivity|]; split; [reflexivity|]);
    (split;
     [ first [ left; reflexivity
             | right; left; split; [reflexivity|auto]
             | right; right; left; split; [reflexivity|auto]
             | right; right; right; left; split; [reflexivity|auto]
             | right; right; right; right; split; [reflexivity|auto] ]
     | split;
       [ first [ intros _; reflexivity | intros N; discriminate N ]
       | first [ left; split; [reflexivity|eexists; reflexivity]
               | right; split; [intros N; discriminate N|reflexivity] ] ] ]).
Qed.

End Processor.

End MetadataFacts.

(** ** The upload route *)

Module UploadFacts.
Import AISimplifier DocumentProcessor Metadata Routes PyFacts MetadataFacts.

Section Upload.
Variable MAX_FILE_SIZE : Z.
Variable ALLOWED_FILE_TYPES : list str.
Variable UPLOAD_FOLDER : str.
Variable uuid4 : str.
Variable upload_from_string : str -> bytes -> option str -> result unit.
Variable validate_metadata : UploadedMetadata -> result unit.
Variable store_metadata : UploadedMetadata -> result unit.

Section AnyProcessor.
Variable get_document_metadata : bytes -> DocumentType -> result pydict.

Local Notation allowed := (allowed ALLOWED_FILE_TYPES).
Local Notation store_upload :=
  (store_upload UPLOAD_FOLDER uuid4 upload_from_string
     get_document_metadata validate_metadata store_metadata).
Local Notation upload_document :=
  (upload_document MAX_FILE_SIZE ALLOWED_FILE_TYPES UPLOAD_FOLDER uuid4
     upload_from_string get_document_metadata validate_metadata
     store_metadata).

(** What the route does once the three checks have passed. *)
Lemma store_upload_cases filename file_content content_type user_id :
  let blob_path :=
    UPLOAD_FOLDER ++ lit "/" ++ uuid4 ++ lit "/" ++ filename in
  store_upload filename file_content content_type user_id
  = ([], HTTPException 500)
  \/ store_upload filename file_content content_type user_id
     = ([BlobUploaded blob_path file_content], HTTPException 500)
  \/ exists doc_metadata,
       get_document_metadata file_content (document_type_of filename)
       = Return doc_metadata
       /\ let document_metadata :=
            {| um_document_id := uuid4;
               um_filename := filename;
               um_file_type := document_type_of filename;
               um_file_size := length file_content;
               um_user_id := user_id;
               um_storage_path := blob_path;
               um_extraction_method :=
                 get_or doc_metadata (lit "extraction_method") PNone;
               um_ocr_confidence :=
                 get_or doc_metadata (lit "ocr_confidence") PNone;
               um_language_detected :=
                 get_or doc_metadata (lit "language_detected") PNone |} in
          store_upload filename file_content content_type user_id
          = ([BlobUploaded blob_path file_content;
              MetadataStored document_metadata],
             OK {| ur_document_id := uuid4;
                   ur_filename := filename;
                   ur_file_type := document_type_of filename;
                   ur_file_size := length file_content |}).
Proof.
  intros blob_path. unfold Routes.store_upload, storage_upload_document.
  fold blob_path.
  destruct (upload_from_string blob_path file_content content_type);
    [|now left].
  destruct (get_document_metadata file_content (document_type_of filename))
    as [doc_metadata|]; [|now right; left].
  destruct (validate_metadata _); [|now right; left].
  destruct (store_metadata _); [|now right; left].
  right. right. exists doc_metadata. split; reflexivity.
Qed.

Lemma upload_passed_checks file user_id :
  (exists filename file_content,
      uf_filename file = Some filename /\ filename <> []
      /\ uf_read file = Return file_content
      /\ (Z.of_nat (length file_content) <= MAX_FILE_SIZE)%Z
      /\ allowed (uf_content_type file) = true
      /\ upload_document file user_id
         = store_upload filename file_content (uf_content_type file) user_id)
  \/ fst (upload_document file user_id) = []
     /\ (snd (upload_document file user_id) = HTTPException 400
         \/ snd (upload_document file user_id) = HTTPException 413
         \/ snd (upload_document file user_id) = HTTPException 500
            /\ exists e, uf_read file = Raise e).
Proof.
  unfold Routes.upload_document.
  destruct (uf_filename file) as [[|c filename]|]; cbn [is_nil];
    try (right; split; [reflexivity|now left]).
  destruct (uf_read file) as [file_content|e];
    [|right; split; [reflexivity|right; right; split; [reflexivity|]];
      now exists e].
  destruct (MAX_FILE_SIZE <? Z.of_nat (length file_content))%Z eqn:Hsize;
    [right; split; [reflexivity|now right; left]|].
  destruct (allowed (uf_content_type file)) eqn:Htype; cbn [negb];
    [|right; split; [reflexivity|now left]].
  left. exists (c :: filename), file_content.
  apply Z.ltb_ge in Hsize. repeat split; try assumption. discriminate.
Qed.

(** X29.  [upload_document] checks before it writes. A missing or empty file
    name is answered 400, a content above the size limit 413, also when its
    type is not allowed, and a content type outside the allowed list 400,
    each time with nothing written; whatever is written to storage belongs
    to a file that has a name, fits the limit and has an allowed content
    type. *)
Theorem upload_checks_come_first file user_id :
  (uf_filename file = None \/ uf_filename file = Some [] ->
   upload_document file user_id = ([], HTTPException 400))
  /\ (forall filename file_content,
        uf_filename file = Some filename -> filename <> [] ->
        uf_read file = Return file_content ->
        ((MAX_FILE_SIZE < Z.of_nat (length file_content))%Z ->
         upload_document file user_id = ([], HTTPException 413))
        /\ ((Z.of_nat (length file_content) <= MAX_FILE_SIZE)%Z ->
            allowed (uf_content_type file) = false ->
            upload_document file user_id = ([], HTTPException 400)))
  /\ (forall event,
        In event (fst (upload_document file user_id)) ->
        exists filename file_content,
          uf_filename file = Some filename /\ filename <> []
          /\ uf_read file = Return file_content
          /\ (Z.of_nat (length file_content) <= MAX_FILE_SIZE)%Z
          /\ allowed (uf_content_type file) = true).
Proof.
  split; [|split].
  - unfold Routes.upload_document. intros [-> | ->]; reflexivity.
  - intros filename file_content Hname Hne Hread.
    unfold Routes.upload_document. rewrite Hname, Hread.
    destruct filename; [contradiction|]. cbn [is_nil]. split.
    + intros H. apply Z.ltb_lt in H. now rewrite H.
    + intros H Ht. apply Z.ltb_ge in H. now rewrite H, Ht.
  - intros event Hin.
    destruct (upload_passed_checks file user_id)
      as [(filename & file_content & H1 & H2 & H3 & H4 & H5 & _)|[E _]].
    + exists filename, file_content. auto.
    + rewrite E in Hin. contradiction.
Qed.

End AnyProcessor.

Section WithProcessor.
Variable vision_client : bool.
Variable run_in_executor : result unit.
Variable str_of_exception : exn -> str.
Variable pdf_read : bytes -> result (nat * bool * bool).
Variable docx_open : bytes -> result docx.
Variable docx_has_blip : bytes -> result bool.
Variable image_open : bytes -> result (pyval * pyval).
Variable vision_confidences : bytes -> result (list (option float)).
Variable average : list float -> float.

Local Notation get_document_metadata :=
  (get_document_metadata vision_client run_in_executor str_of_exception
     pdf_read docx_open docx_has_blip image_open vision_confidences average).
Local Notation upload_document :=
  (upload_document MAX_FILE_SIZE ALLOWED_FILE_TYPES UPLOAD_FOLDER uuid4
     upload_from_string get_document_metadata validate_metadata
     store_metadata).

(** X30.  When [upload_document] answers with a document, it has written the
    blob and then the metadata row, and nothing else. The blob path is made
    of the upload folder, the new identifier and the file name, and it is
    the path stored; the type answered and stored is the one of the file
    name, whatever the content type; the size is the length of the content;
    no language is stored, the extraction method stored is a string or
    nothing and the OCR confidence a float or nothing. When it answers 500
    instead, no metadata row was written, but the blob may have been. *)
Theorem upload_writes_blob_then_metadata file user_id :
  (forall events response,
      upload_document file user_id = (events, OK response) ->
      exists filename file_content metadata,
        uf_filename file = Some filename
        /\ uf_read file = Return file_content
        /\ events
           = [BlobUploaded (um_storage_path metadata) file_content;
              MetadataStored metadata]
        /\ um_storage_path metadata
           = UPLOAD_FOLDER ++ lit "/" ++ uuid4 ++ lit "/" ++ filename
        /\ um_document_id metadata = uuid4
        /\ ur_document_id response = uuid4
        /\ um_file_type metadata = document_type_of filename
        /\ ur_file_type response = document_type_of filename
        /\ um_file_size metadata = length file_content
        /\ ur_file_size response = length file_content
        /\ um_language_detected metadata = PNone
        /\ (um_extraction_method metadata = PNone
            \/ exists method, um_extraction_method metadata = PStr method)
        /\ (um_ocr_confidence metadata = PNone
            \/ exists score, um_ocr_confidence metadata = PFloat score))
  /\ (forall events,
        upload_document file user_id = (events, HTTPException 500) ->
        events = []
        \/ exists blob_path file_content,
             events = [BlobUploaded blob_path file_content]).
Proof.
  destruct (upload_passed_checks get_document_metadata file user_id)
    as [(filename & file_content & H1 & _ & H3 & _ & _ & E)|[E1 E2]].
  - rewrite E.
    destruct (store_upload_cases get_document_metadata filename file_content
                (uf_content_type file) user_id)
      as [C|[C|(doc_metadata & Hmeta & C)]]; cbv zeta in C; rewrite C.
    + split; [discriminate|]. intros events H. injection H as <-. now left.
    + split; [discriminate|]. intros events H. injection H as <-.
      right. eexists. eexists. reflexivity.
    + split; [|discriminate].
      intros events response H. injection H as <- <-.
      destruct (metadata_optional_entries _ _ _ _ _ _ _ _ _ _ _ _ Hmeta)
        as (Hl & Hm & Hc).
      exists filename, file_content.
      match type of C with
      | _ = ([_; MetadataStored ?metadata], _) => exists metadata
      end.
      split; [exact H1|]. split; [exact H3|].
      split; [reflexivity|].
      cbn [um_storage_path um_document_id ur_document_id um_file_type
           ur_file_type um_file_size ur_file_size um_language_detected
           um_extraction_method um_ocr_confidence].
      repeat (split; [reflexivity|]).
      unfold get_or. rewrite Hl. split; [reflexivity|]. split.
      * destruct Hm as [-> | [method ->]]; [now left|right; now exists method].
      * destruct Hc as [-> | [score ->]]; [now left|right; now exists score].
  - destruct (upload_document file user_id) as [events outcome].
    cbn [fst snd] in E1, E2. subst events. split.
    + intros events response H. injection H as _ ->.
      destruct E2 as [E2|[E2|[E2 _]]]; discriminate E2.
    + intros events H. injection H as <- _. now left.
Qed.

End WithProcessor.

End Upload.

End UploadFacts.

(** ** Worked examples of the further properties *)

Module PropertyExamples.
Import AISimplifier DocumentProcessor Shape Fixtures PyFacts.
Import Preprocessing Complexity Metadata Routes Notions Scenarios.
Import PreprocessingFacts ComplexityFacts ServiceFacts RoutesFacts.
Import NormalizerProperties DispatcherProperties PipelineFacts.
Import MetadataFacts UploadFacts.

Lemma preprocess_length_bound_witness :
  (length (_preprocess_text ascii_digits_only 4000 clause_with_marks)
   <= Z.to_nat (4000 * 4) + 3)%nat
  /\ _preprocess_text ascii_digits_only 4000 clause_with_marks
     = lit "The tenant  pays rent .".
Proof.
  split; [|reflexivity].
  apply (preprocess_length_bound ascii_digits_only 4000 clause_with_marks).
  discriminate.
Defined.

Lemma blank_text_is_low_witness :
  exists c,
    analyze_document_complexity blank_text = Analysis c
    /\ complexity_level c = lit "low"
    /\ estimated_reading_time c = 1%nat.
Proof.
  eexists. split; [apply (blank_text_is_low blank_text); reflexivity|].
  split; reflexivity.
Defined.

Lemma confidence_score_on_any_content_witness :
  _calculate_confidence_score [] content_number_summary = 0.5%float.
Proof.
  apply (proj2 (proj2 (confidence_score_on_any_content
                         [] content_number_summary))
           SUMMARY (PInt 5)); try reflexivity.
  simpl. auto.
Defined.

Lemma simplify_document_result_witness :
  exists calls content,
    simplify_document no_repr decode_short_summary model_says_braces
                      same_text prompt_is_text timestamp (lit "lease")
                      (lit "standard") (lit "general_public")
    = (calls, Return content)
    /\ well_shaped content = true
    /\ dict_get (lit "simplification_level") content
       = Some (PStr (lit "standard")).
Proof.
  eexists. eexists. split; [vm_compute; reflexivity|].
  match goal with
  | |- well_shaped ?content = true /\ _ =>
      destruct (simplify_document_result
                  no_repr decode_short_summary model_says_braces same_text
                  prompt_is_text timestamp (lit "lease") (lit "standard")
                  (lit "general_public")
                  [GenerateContent (lit "lease"); ParseAIResponse (lit "{}")]
                  content)
        as (_ & Hs & _ & _ & _ & Hl & _)
  end; [vm_compute; reflexivity|].
  split; assumption.
Defined.

Lemma document_type_of_last_extension_witness :
  document_type_of (lit "Lease.v2.PDF") = PDF.
Proof.
  exact (document_type_of_last_extension (lit "Lease.v2") (lit "PDF")
           (lit "pdf") eq_refl eq_refl).
Defined.

Lemma process_document_needs_text_witness :
  process_document false false storage_one_byte no_pages no_pages empty_docx
    (vision_sees []) (tesseract_reads []) decode_nothing no_repr
    decode_short_summary model_says_braces same_text prompt_is_text
    timestamp (stored text_file) accept_document store_document
    (lit "42") standard_request
  = ([Ran Utf8Decode], HTTPException 422).
Proof.
  apply (proj1 (proj1 (proj2 (process_document_needs_text
                   false false storage_one_byte no_pages no_pages empty_docx
                   (vision_sees []) (tesseract_reads []) decode_nothing
                   no_repr decode_short_summary model_says_braces same_text
                   prompt_is_text timestamp (stored text_file)
                   accept_document store_document (lit "42")
                   standard_request))
                 text_file eq_refl)).
  right. reflexivity.
Defined.

Lemma process_document_answer_is_well_typed_witness :
  exists effects body,
    process_document false false storage_one_byte no_pages no_pages empty_docx
      (vision_sees []) (tesseract_reads []) decode_lease no_repr
      decode_short_summary model_says_braces same_text prompt_is_text
      timestamp (stored text_file) accept_document store_document
      (lit "42") standard_request
    = (effects, OK body)
    /\ sd_summary body = PStr (lit "Short.")
    /\ sd_word_count_simplified body = 1%nat
    /\ str_list (sd_key_points body) = true.
Proof.
  eexists. eexists. split; [vm_compute; reflexivity|].
  match goal with
  | |- sd_summary ?body = _ /\ _ =>
      destruct (process_document_answer_is_well_typed
                  false false storage_one_byte no_pages no_pages empty_docx
                  (vision_sees []) (tesseract_reads []) decode_lease no_repr
                  decode_short_summary model_says_braces same_text
                  prompt_is_text timestamp (stored text_file)
                  accept_document store_document (lit "42") standard_request
                  [Ran Utf8Decode;
                   Called (GenerateContent (lit "The tenant pays rent."));
                   Called (ParseAIResponse (lit "{}"))]
                  body)
        as (_ & _ & Hk & _)
  end; [vm_compute; reflexivity|].
  split; [reflexivity|]. split; [reflexivity|exact Hk].
Defined.

Lemma ask_document_question_outcome_witness :
  ask_document_question false false storage_one_byte no_pages no_pages
    empty_docx (vision_sees []) (tesseract_reads []) decode_nothing
    model_says_ok same_text prompt_is_text (stored text_file) accept_answer
    (lit "42") who_pays
  = ([Ran Utf8Decode], HTTPException 422).
Proof.
  apply (proj1 (proj2 (ask_document_question_outcome
                   false false storage_one_byte no_pages no_pages empty_docx
                   (vision_sees []) (tesseract_reads []) decode_nothing
                   model_says_ok same_text prompt_is_text (stored text_file)
                   accept_answer (lit "42") who_pays)
                 text_file eq_refl)).
  right. reflexivity.
Defined.

Lemma brace_span_is_first_to_last_witness :
  exists before body after,
    reply_around_braces = before ++ lit "{a} {b}" ++ after
    /\ lit "{a} {b}" = 123%N :: body ++ [125%N]
    /\ existsb (fun c => N.eqb c 123) before = false
    /\ existsb (fun c => N.eqb c 125) after = false.
Proof.
  apply (proj1 (brace_span_is_first_to_last reply_around_braces)).
  reflexivity.
Defined.

Lemma normalizer_result_has_six_fields_witness :
  well_shaped (dict_set NEXT_STEPS (PList [PStr (lit "Consult a lawyer")])
                        required_fields) = true.
Proof.
  apply (normalizer_result_has_six_fields no_repr decode_error
           reply_next_steps).
  reflexivity.
Defined.

Lemma normalizer_raises_only_attribute_error_witness :
  _parse_text_response reply_bad_json_then_bullet = Raise AttributeError.
Proof.
  apply (normalizer_raises_only_attribute_error no_repr decode_error
           reply_bad_json_then_bullet AttributeError).
  reflexivity.
Defined.

Lemma normalizer_returns_without_summary_heading_witness :
  exists content,
    _parse_ai_response no_repr decode_error reply_next_steps = Return content
    /\ well_shaped content = true.
Proof.
  apply (normalizer_returns_without_summary_heading no_repr decode_error
           reply_next_steps).
  intros line Hin. vm_compute in Hin.
  destruct Hin as [<-|[<-|[]]]; reflexivity.
Defined.

Lemma validation_fills_missing_fields_witness :
  exists content,
    _validate_and_clean_content no_repr (PDict decoded_with_title)
    = Return content
    /\ dict_get WARNINGS content = Some (PList []).
Proof.
  apply (validation_fills_missing_fields no_repr decoded_with_title
           WARNINGS (PList [])).
  - simpl. auto 10.
  - reflexivity.
Defined.

Lemma validation_keeps_other_entries_witness :
  exists content,
    _validate_and_clean_content no_repr (PDict decoded_with_title)
    = Return content
    /\ dict_get (lit "title") content = Some (PStr (lit "Lease")).
Proof.
  eexists. split; [vm_compute; reflexivity|].
  match goal with
  | |- dict_get _ ?content = _ =>
      rewrite (validation_keeps_other_entries no_repr decoded_with_title
                 (lit "title") content)
  end.
  - reflexivity.
  - intros H. vm_compute in H.
    repeat (destruct H as [H|H]; [discriminate H|]). exact H.
  - vm_compute. reflexivity.
Defined.

Lemma validation_is_idempotent_without_blank_terms_witness :
  exists once,
    _validate_and_clean_content no_repr decoded_one_term = Return once
    /\ dict_get IMPORTANT_TERMS once
       = Some (PDict [(lit "Lessee", PStr (lit "the tenant"))])
    /\ _validate_and_clean_content no_repr (PDict once) = Return once.
Proof.
  eexists. split; [vm_compute; reflexivity|]. split; [reflexivity|].
  apply (validation_is_idempotent_without_blank_terms no_repr
           decoded_one_term);
    vm_compute; reflexivity.
Defined.

Lemma docx_text_is_empty_without_text_witness :
  _extract_docx_text blank_docx one_byte = Some [].
Proof.
  apply (docx_text_is_empty_without_text blank_docx one_byte
           {| paragraphs := [lit " "]; tables := [[[[]; lit "  "]]] |}
           eq_refl).
  split; reflexivity.
Defined.

Lemma word_document_without_text_is_rejected_witness :
  process_document false false storage_one_byte no_pages no_pages blank_docx
    (vision_sees []) (tesseract_reads []) decode_nothing no_repr
    decode_short_summary model_says_braces same_text prompt_is_text
    timestamp (stored word_file) accept_document store_document
    (lit "43") standard_request
  = ([Ran PythonDocx], HTTPException 422)
  /\ ask_document_question false false storage_one_byte no_pages no_pages
       blank_docx (vision_sees []) (tesseract_reads []) decode_nothing
       model_says_braces same_text prompt_is_text (stored word_file)
       accept_answer (lit "43") who_pays
     = ([Ran PythonDocx], HTTPException 422).
Proof.
  apply (word_document_without_text_is_rejected
           false false storage_one_byte no_pages no_pages blank_docx
           (vision_sees []) (tesseract_reads []) decode_nothing
           no_repr decode_short_summary model_says_braces same_text
           prompt_is_text prompt_is_text timestamp (stored word_file)
           accept_document accept_answer store_document (lit "43")
           standard_request who_pays word_file one_byte
           {| paragraphs := [lit " "]; tables := [[[[]; lit "  "]]] |});
    try reflexivity.
  - now right.
  - discriminate.
Defined.

Lemma metadata_notes_witness :
  exists metadata,
    get_document_metadata true executor_runs exception_text pdf_two_pages
      empty_docx no_blip image_png two_annotations first_confidence
      one_byte IMAGE
    = Return metadata
    /\ dict_get (lit "processing_notes") metadata
       = Some (PList [PStr NOTE_VISION]).
Proof.
  eexists. split; [vm_compute; reflexivity|].
  match goal with
  | |- dict_get _ ?metadata = _ =>
      destruct (metadata_notes true executor_runs exception_text
                  pdf_two_pages empty_docx no_blip image_png
                  two_annotations first_confidence one_byte IMAGE metadata)
        as (notes & Hnotes & _)
  end; [vm_compute; reflexivity|].
  reflexivity.
Defined.

Lemma extraction_method_by_type_witness :
  exists metadata,
    get_document_metadata false executor_runs exception_text pdf_two_pages
      empty_docx no_blip image_png two_annotations first_confidence
      one_byte PDF
    = Return metadata
    /\ dict_get (lit "extraction_method") metadata
       = Some (PStr (lit "pdfplumber"))
    /\ dict_get (lit "ocr_confidence") metadata = Some PNone.
Proof.
  eexists. split; [vm_compute; reflexivity|].
  match goal with
  | |- dict_get _ ?metadata = _ /\ _ =>
      destruct (extraction_method_by_type false executor_runs
                  exception_text pdf_two_pages empty_docx no_blip image_png
                  two_annotations first_confidence one_byte PDF metadata)
        as (method & confidence & Hm & Hc & _)
  end; [vm_compute; reflexivity|].
  split; reflexivity.
Defined.

Lemma upload_checks_come_first_witness :
  upload_document 0 pdf_and_text (lit "uploads") (lit "7f3a") blob_written
    (get_document_metadata false executor_runs exception_text pdf_two_pages
       empty_docx no_blip image_png two_annotations first_confidence)
    accept_metadata store_row lease_upload None
  = ([], HTTPException 413).
Proof.
  apply (proj1 (proj2 (upload_checks_come_first
                         0 pdf_and_text (lit "uploads") (lit "7f3a")
                         blob_written accept_metadata store_row
                         (get_document_metadata false executor_runs
                            exception_text pdf_two_pages empty_docx no_blip
                            image_png two_annotations first_confidence)
                         lease_upload None))
           (lit "Lease.PDF") one_byte eq_refl ltac:(discriminate) eq_refl).
  reflexivity.
Defined.

Lemma upload_writes_blob_then_metadata_witness :
  exists response metadata,
    upload_document 1 pdf_and_text (lit "uploads") (lit "7f3a") blob_written
      (get_document_metadata false executor_runs exception_text
         pdf_two_pages empty_docx no_blip image_png two_annotations
         first_confidence)
      accept_metadata store_row lease_upload None
    = ([BlobUploaded (lit "uploads/7f3a/Lease.PDF") one_byte;
        MetadataStored metadata],
       OK response)
    /\ ur_file_type response = PDF
    /\ um_extraction_method metadata = PStr (lit "pdfplumber")
    /\ um_language_detected metadata = PNone.
Proof.
  eexists. eexists. split; [vm_compute; reflexivity|].
  match goal with
  | |- ur_file_type ?response = _ /\ _ =>
      destruct (proj1 (upload_writes_blob_then_metadata
                         1 pdf_and_text (lit "uploads") (lit "7f3a")
                         blob_written accept_metadata store_row
                         false executor_runs exception_text pdf_two_pages
                         empty_docx no_blip image_png two_annotations
                         first_confidence lease_upload None)
                  _ response eq_refl)
        as (filename & file_content & stored & _)
  end.
  split; [reflexivity|]. split; reflexivity.
Defined.

End PropertyExamples.
